(** * Gas benchmark comparison scripts: model and properties

    A shallow embedding of the three CI helper scripts under
    [.github/scripts]:

    - [benchmark_comparison.py] (class [BenchmarkComparison]),
    - [check_regressions.py]    (function [check_regressions]),
    - [generate_charts.py]      (functions [generate_svg_bar_chart], [main]).

    Python values are modelled as follows.
    - [int] is [Z] (unbounded).
    - [float] is IEEE 754 binary64, as [spec_float] with [prec = 53] and
      [emax = 1024]; every operation rounds to nearest, ties to even.
    - [str] is [string], one character per code point; the statements
      that depend on the class of a character ([\w] of a pattern) are
      about ASCII text, which they say by the hypothesis [Str.is_ascii].
    - [dict] is an association list in insertion order ([dict V]); the two
      input snapshots, of which only [keys()] and [get] are used, are
      [gmap string Z].
    - [set] is [gset string]; the order in which a [for] loop enumerates a
      set of strings is not fixed by the set (it follows the per-process
      string hash), so it is an explicit argument of [analyze].
    - an exception is a value [Raise e] of the type [result].  The
      snapshots hold JSON integers, so the conversions [int(..)] of
      [analyze] are the identity and raise nothing; what [int] raises on
      a value that is not an integer ([ValueError], [TypeError]) is
      outside the model. *)

From Stdlib Require Import ZArith Ascii String Floats.SpecFloat.
From stdpp Require Import base option list gmap strings sorting.

Local Open Scope string_scope.
Local Open Scope Z_scope.

(** ** Exceptions

    The exceptions of arithmetic on integers: a true division raises
    [ZeroDivisionError] for a zero divisor and [OverflowError] for a
    quotient too large for a float.  No other operation that the model
    covers raises on the values it ranges over. *)

Inductive exn := OverflowError | ZeroDivisionError.

Inductive result (A : Type) :=
| Ok (a : A)
| Raise (e : exn).
Arguments Ok {A} a.
Arguments Raise {A} e.

Definition bind {A B} (c : result A) (k : A → result B) : result B :=
  match c with
  | Ok a => k a
  | Raise e => Raise e
  end.

Notation "x ←! c ; k" := (bind c (fun x => k))
  (at level 20, c at level 100, k at level 200, right associativity,
   format "x  ←!  c ;  '/' k").
Notation "' p ←! c ; k" := (bind c (fun x => match x with p => k end))
  (at level 20, p pattern, c at level 100, k at level 200,
   right associativity).

(** A [for] loop whose body may raise: the state is threaded left to right
    and the first exception aborts the loop. *)
Fixpoint for_each {A S} (body : A → S → result S) (xs : list A) (s : S)
  : result S :=
  match xs with
  | [] => Ok s
  | x :: xs' => s' ←! body x s; for_each body xs' s'
  end.

(** A [for] loop whose state outlives the exception, as files that are
    already written do: the state reached, and the exception that ended
    the loop, if any. *)
Fixpoint for_each_kept {A S} (body : A → S → result S) (xs : list A) (s : S)
  : S * option exn :=
  match xs with
  | [] => (s, None)
  | x :: xs' =>
      match body x s with
      | Ok s' => for_each_kept body xs' s'
      | Raise e => (s, Some e)
      end
  end.

(** A list built by a body that may raise: the first exception aborts
    it. *)
Fixpoint map_each {A B} (f : A → result B) (xs : list A) : result (list B) :=
  match xs with
  | [] => Ok []
  | x :: xs' => y ←! f x; ys ←! map_each f xs'; Ok (y :: ys)
  end.

(** ** Floats *)

Module Float.

Definition prec : Z := 53.
Definition emax : Z := 1024.

Abbreviation float := spec_float.

Definition mul : float → float → float := SFmul prec emax.
Definition div : float → float → float := SFdiv prec emax.
Definition add : float → float → float := SFadd prec emax.
Definition sub : float → float → float := SFsub prec emax.

(** [x < y], [x <= y] and [x > y] on floats: false when either side is
    NaN. *)
Definition lt (x y : float) : bool := SFltb x y.
Definition le (x y : float) : bool := SFleb x y.
Definition gt (x y : float) : bool := SFltb y x.

(** [float(n)] for an integer literal or a list length (correctly
    rounded; the integers it is applied to are far below the overflow
    threshold). *)
Definition of_int (n : Z) : float := binary_normalize prec emax n 0 false.

(** [a / b] on two ints (true division): the correctly rounded
    quotient.  Python raises [ZeroDivisionError] for [b = 0] and
    [OverflowError] when the quotient is too large for a float; a zero
    numerator gives a zero with the sign of the denominator. *)
Definition int_true_div (a b : Z) : result float :=
  if b =? 0 then Raise ZeroDivisionError
  else if a =? 0 then Ok (S754_zero (b <? 0))
  else
    let negate := xorb (a <? 0) (b <? 0) in
    let '(q, e, l) := SFdiv_core_binary prec emax (Z.abs a) 0 (Z.abs b) 0 in
    match binary_round_aux prec emax negate q e l with
    | S754_infinity _ => Raise OverflowError
    | f => Ok f
    end.

End Float.

Abbreviation float := spec_float.

(** A number that is either an [int] or a [float], for the expressions of
    the source whose branches have different types
    ([x / y * 100 if y > 0 else 0]). *)
Inductive number :=
| Int (n : Z)
| Flt (f : float).

(** [a - b] on numbers: an int operand is converted when the other one is
    a float. *)
Definition number_sub (a b : number) : number :=
  match a, b with
  | Int x, Int y => Int (x - y)
  | Int x, Flt g => Flt (Float.sub (Float.of_int x) g)
  | Flt f, Int y => Flt (Float.sub f (Float.of_int y))
  | Flt f, Flt g => Flt (Float.sub f g)
  end.

(** ** Strings *)

Module Str.

(** [s.startswith(p)] *)
Fixpoint startswith (p s : string) : bool :=
  match p, s with
  | EmptyString, _ => true
  | String a p', String b s' => bool_decide (a = b) && startswith p' s'
  | String _ _, EmptyString => false
  end.

(** [sub in s] *)
Fixpoint contains (sub s : string) : bool :=
  startswith sub s ||
  match s with
  | EmptyString => false
  | String _ s' => contains sub s'
  end.

(** [s.lower()] on ASCII text. *)
Definition lower_char (c : ascii) : ascii :=
  let n := nat_of_ascii c in
  if ((65 <=? n) && (n <=? 90))%nat then ascii_of_nat (n + 32) else c.

Fixpoint lower (s : string) : string :=
  match s with
  | EmptyString => EmptyString
  | String c s' => String (lower_char c) (lower s')
  end.

(** What it means for [sub] to occur in [s]. *)
Definition occurs_in (sub s : string) : Prop :=
  ∃ pre post, s = pre +:+ sub +:+ post.

(** [s.replace(old, '')]: the occurrences of [old] are deleted from left
    to right, without overlap; [skip] counts the characters of the
    occurrence being deleted that are still to come. *)
Fixpoint remove_from (old : string) (skip : nat) (s : string) : string :=
  match s with
  | EmptyString => EmptyString
  | String c s' =>
      match skip with
      | S k => remove_from old k s'
      | O =>
          if startswith old s
          then remove_from old (String.length old - 1) s'
          else String c (remove_from old 0 s')
      end
  end.

Definition remove (old s : string) : string :=
  if bool_decide (old = EmptyString) then s else remove_from old 0 s.

(** [s[:n]] *)
Fixpoint take (n : nat) (s : string) : string :=
  match n, s with
  | S k, String c s' => String c (take k s')
  | _, _ => EmptyString
  end.

(** [s.isascii()]: every character is below 128. *)
Fixpoint is_ascii (s : string) : bool :=
  match s with
  | EmptyString => true
  | String c s' => (nat_of_ascii c <? 128)%nat && is_ascii s'
  end.

End Str.

(** ** Insertion-ordered dictionaries *)

Definition dict (V : Type) := list (string * V).

Section Dict.
Context {V : Type}.

(** [d.get(k)] *)
Fixpoint dict_get (k : string) (d : dict V) : option V :=
  match d with
  | [] => None
  | (k', v) :: d' => if decide (k = k') then Some v else dict_get k d'
  end.

(** [d[k] = v]: an existing key keeps its position, a new key goes to the
    end. *)
Fixpoint dict_set (k : string) (v : V) (d : dict V) : dict V :=
  match d with
  | [] => [(k, v)]
  | (k', v') :: d' =>
      if decide (k = k') then (k, v) :: d' else (k', v') :: dict_set k v d'
  end.

Definition keys (d : dict V) : list string := d.*1.

End Dict.

(** ** Regular expressions

    The fragment of [re] that the patterns of the scripts use: a pattern is
    a sequence of atoms, and [search] is [re.search] seen as a boolean.
    The text searched is ASCII: there [\w] is a letter, a digit or an
    underscore.  On other text [re] also takes the letters and digits
    beyond ASCII for word characters, which [is_word] does not follow;
    the statements about matching are therefore stated for names that
    satisfy [Str.is_ascii]. *)

Module Re.

Definition newline : ascii := ascii_of_nat 10.

Inductive atom :=
| Bol                      (* ^   : only at the start of the text *)
| Eol                      (* $   : at the end, or before a final newline *)
| Lit (s : string)         (* literal text *)
| OneOf (cs : list ascii)  (* [..] *)
| Words.                   (* (\w+) *)

Definition pattern := list atom.

(** [\w] on an ASCII character: [[a-zA-Z0-9_]]. *)
Definition is_word (c : ascii) : bool :=
  let n := nat_of_ascii c in
  ((48 <=? n) && (n <=? 57) || (65 <=? n) && (n <=? 90)
   || (97 <=? n) && (n <=? 122) || (n =? 95))%nat.

Fixpoint strip_prefix (p s : string) : option string :=
  match p, s with
  | EmptyString, _ => Some s
  | String a p', String b s' =>
      if decide (a = b) then strip_prefix p' s' else None
  | String _ _, EmptyString => None
  end.

(** One or more word characters, then whatever [k] accepts. *)
Fixpoint words_then (k : string → bool) (s : string) : bool :=
  match s with
  | EmptyString => false
  | String c s' => is_word c && (k s' || words_then k s')
  end.

(** Does [p] match at the head of [s]?  [bos] says whether [s] is the
    whole text. *)
Fixpoint match_here (p : pattern) (bos : bool) (s : string) : bool :=
  match p with
  | [] => true
  | Bol :: p' => bos && match_here p' bos s
  | Eol :: p' =>
      (bool_decide (s = EmptyString)
       || bool_decide (s = String newline EmptyString))
      && match_here p' bos s
  | Lit l :: p' =>
      match strip_prefix l s with
      | Some s' => match_here p' (bos && bool_decide (l = EmptyString)) s'
      | None => false
      end
  | OneOf cs :: p' =>
      match s with
      | String c s' => bool_decide (c ∈ cs) && match_here p' false s'
      | EmptyString => false
      end
  | Words :: p' => words_then (match_here p' false) s
  end.

Fixpoint search_from (p : pattern) (bos : bool) (s : string) : bool :=
  match_here p bos s ||
  match s with
  | EmptyString => false
  | String _ s' => search_from p false s'
  end.

(** [re.search(p, s)] is not [None]. *)
Definition search (p : pattern) (s : string) : bool := search_from p true s.

(** [re.sub(lit + '.*', '', s)] for a literal [lit] that is not empty and
    holds no newline: each occurrence of [lit] is deleted together with
    the rest of its line ([.] does not match a newline). *)
Fixpoint sub_to_eol_from (lit : string) (skipping : bool) (s : string)
  : string :=
  match s with
  | EmptyString => EmptyString
  | String c s' =>
      if skipping && negb (bool_decide (c = newline))
      then sub_to_eol_from lit true s'
      else if Str.startswith lit s then sub_to_eol_from lit true s'
      else String c (sub_to_eol_from lit false s')
  end.

Definition sub_to_eol (lit s : string) : string :=
  sub_to_eol_from lit false s.

End Re.

(** * benchmark_comparison.py *)

(** One value of the [comparisons] dict. *)
Record TestComparison := {
  main : Z;
  pr : Z;
  absolute : Z;
  percentage : float;
  account_type : option string
}.

(** One value of a ['comparisons'] dict inside [ithaca_comparisons]. *)
Record Savings := {
  pr_savings_abs : Z;
  pr_savings_pct : number;
  main_savings_abs : Z;
  main_savings_pct : number;
  improvement : number
}.

(** One value of [ithaca_comparisons[category_key]]; the source names the
    two keys ['ithaca'] and ['comparisons']. *)
Module CategoryComparison.
Record t := {
  ithaca : TestComparison;
  comparisons : dict Savings
}.
End CategoryComparison.

Record Summary := {
  total_tests : nat;
  ithaca_tests : nat;
  improvements : nat;
  regressions : nat
}.

Record JsonData := {
  json_comparisons : dict TestComparison;
  json_ithaca_comparisons : dict (dict CategoryComparison.t);
  summary : Summary
}.

(** The instance state of the class. *)
Record BenchmarkComparison := {
  main_data : gmap string Z;
  pr_data : gmap string Z;
  comparisons : dict TestComparison;
  ithaca_comparisons : dict (dict CategoryComparison.t)
}.

Definition ACCOUNT_TYPES : list string := [
  "IthacaAccount";
  "IthacaAccountWithSpendLimits";
  "ERC4337MinimalAccount";
  "CoinbaseSmartWallet";
  "AlchemyModularAccount";
  "Safe4337";
  "ZerodevKernel"
].

Record Category := {
  patterns : list Re.pattern;
  label : string
}.

Definition CATEGORIES : dict Category := [
  ("single_transfer", {|
     patterns := [
       [Re.Bol; Re.Lit "testERC20Transfer_"; Re.Words; Re.Eol];
       [Re.Bol; Re.Lit "testNativeTransfer_"; Re.Words; Re.Eol]
     ];
     label := "Single Transfer Operations" |});
  ("batch_transfer", {|
     patterns := [
       [Re.Bol; Re.Lit "testERC20Transfer_";
        Re.OneOf ["B"%char; "b"%char]; Re.Lit "atch100_"; Re.Words];
       [Re.Bol; Re.Lit "testERC20Transfer_batch100_"; Re.Words]
     ];
     label := "Batch Transfer Operations (100 txs)" |});
  ("uniswap", {|
     patterns := [
       [Re.Bol; Re.Lit "testUniswapV2Swap_"; Re.Words]
     ];
     label := "Uniswap V2 Swap Operations" |});
  ("app_sponsor", {|
     patterns := [
       [Re.Lit "_AppSponsor"]
     ];
     label := "App Sponsored Transactions" |});
  ("erc20_pay", {|
     patterns := [
       [Re.Lit "_ERC20SelfPay"]
     ];
     label := "ERC20 Self-Pay Transactions" |})
].

Definition __init__ (main_data pr_data : gmap string Z) : BenchmarkComparison :=
  {| main_data := main_data;
     pr_data := pr_data;
     comparisons := [];
     ithaca_comparisons := [] |}.

(** [calculate_change]: the absolute and the percentage change. *)
Definition calculate_change (main_val pr_val : Z) : result (Z * float) :=
  let absolute_change := pr_val - main_val in
  percentage_change ←!
    (if main_val =? 0 then
       Ok (if 0 <? pr_val then Float.of_int 100 else Float.of_int 0)
     else
       q ←! Float.int_true_div absolute_change main_val;
       Ok (Float.mul q (Float.of_int 100)));
  Ok (absolute_change, percentage_change).

(** [get_account_type]: the loop over [ACCOUNT_TYPES] returns at the first
    name found in the test name. *)
Fixpoint first_account_type_in (account_types : list string)
    (test_name : string) : option string :=
  match account_types with
  | [] => None
  | account_type :: rest =>
      if Str.contains account_type test_name then Some account_type
      else first_account_type_in rest test_name
  end.

Definition get_account_type (test_name : string) : option string :=
  first_account_type_in ACCOUNT_TYPES test_name.

(** The set [all_tests] that the loop of [analyze] runs over. *)
Definition all_tests (self : BenchmarkComparison) : gset string :=
  dom (main_data self) ∪ dom (pr_data self).

(** [order] is one of the orders in which a [for] loop may enumerate the
    set [s]: every element once. *)
Definition enumerates (order : list string) (s : gset string) : Prop :=
  NoDup order ∧ list_to_set order = s.

(** The body of the loop of [analyze] for one test name; the snapshot
    values are JSON integers, on which [int(..)] is the identity. *)
Definition analyze_test (self : BenchmarkComparison) (test_name : string)
    (comparisons : dict TestComparison) : result (dict TestComparison) :=
  let main_gas := default 0 (main_data self !! test_name) in
  let pr_gas := default 0 (pr_data self !! test_name) in
  if (main_gas =? 0) && (pr_gas =? 0) then Ok comparisons
  else
    '(abs_change, pct_change) ←! calculate_change main_gas pr_gas;
    Ok (dict_set test_name
          {| main := main_gas;
             pr := pr_gas;
             absolute := abs_change;
             percentage := pct_change;
             account_type := get_account_type test_name |}
          comparisons).

(** The test name up to its account type:
    [re.sub(r'_' + account_type + r'.*', '', test_name)]. *)
Definition base_test_of (account_type test_name : string) : string :=
  Re.sub_to_eol ("_" +:+ account_type) test_name.

Abbreviation Categories := (dict (dict (dict TestComparison))).

(** [categories[category_key][base_test][account_type] = data], where
    [categories] is a [defaultdict(dict)] and the dict of [base_test] is
    created when it is missing. *)
Definition file_under (category_key base_test account_type : string)
    (data : TestComparison) (categories : Categories) : Categories :=
  let tests := default [] (dict_get category_key categories) in
  let accounts := default [] (dict_get base_test tests) in
  dict_set category_key
    (dict_set base_test (dict_set account_type data accounts) tests)
    categories.

(** The loop over the patterns of one category; it ends at the first
    pattern that matches ([break]). *)
Fixpoint try_patterns (patterns : list Re.pattern)
    (category_key test_name account_type : string) (data : TestComparison)
    (categories : Categories) : Categories :=
  match patterns with
  | [] => categories
  | pattern :: rest =>
      if Re.search pattern test_name then
        file_under category_key (base_test_of account_type test_name)
          account_type data categories
      else
        try_patterns rest category_key test_name account_type data categories
  end.

(** The loop over [CATEGORIES.items()] for one test. *)
Definition try_categories (test_name account_type : string)
    (data : TestComparison) (categories : Categories) : Categories :=
  fold_left
    (λ cats '(category_key, category_info),
       try_patterns (patterns category_info) category_key test_name
         account_type data cats)
    CATEGORIES categories.

(** The body of the first loop of [_analyze_ithaca_comparisons]; a test
    whose account type is [None] (or empty) is skipped. *)
Definition categorize_test (test_name : string) (data : TestComparison)
    (categories : Categories) : Categories :=
  match account_type data with
  | None => categories
  | Some account_type =>
      if bool_decide (account_type = "") then categories
      else try_categories test_name account_type data categories
  end.

Definition categorize (comparisons : dict TestComparison) : Categories :=
  fold_left (λ cats '(test_name, data), categorize_test test_name data cats)
    comparisons [].

(** [((diff_abs / value) * 100) if value > 0 else 0] *)
Definition savings_pct (diff_abs value : Z) : result number :=
  if 0 <? value then
    q ←! Float.int_true_div diff_abs value;
    Ok (Flt (Float.mul q (Float.of_int 100)))
  else Ok (Int 0).

(** The body of the loop over [accounts.items()]. *)
Definition compare_account (ithaca_data : TestComparison)
    (acct : string * TestComparison) (comparisons : dict Savings)
  : result (dict Savings) :=
  let '(account_type, account_data) := acct in
  if bool_decide (account_type ≠ "IthacaAccount") then
    let pr_diff_abs := pr account_data - pr ithaca_data in
    pr_diff_pct ←! savings_pct pr_diff_abs (pr account_data);
    let main_diff_abs := main account_data - main ithaca_data in
    main_diff_pct ←! savings_pct main_diff_abs (main account_data);
    Ok (dict_set account_type
          {| pr_savings_abs := pr_diff_abs;
             pr_savings_pct := pr_diff_pct;
             main_savings_abs := main_diff_abs;
             main_savings_pct := main_diff_pct;
             improvement := number_sub pr_diff_pct main_diff_pct |}
          comparisons)
  else Ok comparisons.

(** The body of the loop over [tests.items()]. *)
Definition compare_base (category_key : string)
    (test : string * dict TestComparison)
    (ithaca_comparisons : dict (dict CategoryComparison.t))
  : result (dict (dict CategoryComparison.t)) :=
  let '(base_test, accounts) := test in
  match dict_get "IthacaAccount" accounts with
  | Some ithaca_data =>
      comparisons ←! for_each (compare_account ithaca_data) accounts [];
      Ok (dict_set category_key
            (dict_set base_test
               {| CategoryComparison.ithaca := ithaca_data;
                  CategoryComparison.comparisons := comparisons |}
               (default [] (dict_get category_key ithaca_comparisons)))
            ithaca_comparisons)
  | None => Ok ithaca_comparisons
  end.

(** The body of the loop over [categories.items()]. *)
Definition compare_category (category : string * dict (dict TestComparison))
    (ithaca_comparisons : dict (dict CategoryComparison.t))
  : result (dict (dict CategoryComparison.t)) :=
  let '(category_key, tests) := category in
  for_each (compare_base category_key) tests
    (dict_set category_key [] ithaca_comparisons).

Definition _analyze_ithaca_comparisons (self : BenchmarkComparison)
  : result BenchmarkComparison :=
  let categories := categorize (comparisons self) in
  ithaca_comparisons ←!
    for_each compare_category categories (ithaca_comparisons self);
  Ok {| main_data := main_data self;
        pr_data := pr_data self;
        comparisons := comparisons self;
        ithaca_comparisons := ithaca_comparisons |}.

(** [analyze]; [order] is the order in which the loop enumerates
    [all_tests]. *)
Definition analyze (order : list string) (self : BenchmarkComparison)
  : result BenchmarkComparison :=
  comparisons ←! for_each (analyze_test self) order (comparisons self);
  _analyze_ithaca_comparisons
    {| main_data := main_data self;
       pr_data := pr_data self;
       comparisons := comparisons;
       ithaca_comparisons := ithaca_comparisons self |}.

(** [d['percentage'] < -1], [< 0], [> 5]: a float against an int literal. *)
Definition pct_lt (n : Z) (d : TestComparison) : bool :=
  Float.lt (percentage d) (Float.of_int n).
Definition pct_gt (n : Z) (d : TestComparison) : bool :=
  Float.gt (percentage d) (Float.of_int n).

Definition generate_json_data (self : BenchmarkComparison) : JsonData :=
  {| json_comparisons := comparisons self;
     json_ithaca_comparisons := ithaca_comparisons self;
     summary :=
       {| total_tests := length (comparisons self);
          ithaca_tests :=
            length (List.filter (λ t, Str.contains "IthacaAccount" t)
                      (keys (comparisons self)));
          improvements :=
            length (List.filter (λ '(t, d), pct_lt (-1) d)
                      (comparisons self));
          regressions :=
            length (List.filter (λ '(t, d), pct_gt 5 d)
                      (comparisons self)) |} |}.

(** The summary block of [generate_markdown_report]. *)
Record MarkdownSummary := {
  md_ithaca_tests : nat;
  md_avg_change : float;
  md_improvements : nat;
  md_regressions : nat
}.

Section Report.

(** The built-in [sum] over floats, starting from the int [0]; how it
    rounds depends on the interpreter version, and no property below
    depends on it. *)
Variable sum : list float → float.

(** [self.comparisons[t]['percentage']] compared by [test]. *)
Definition pct_of (comparisons : dict TestComparison)
    (test : TestComparison → bool) (t : string) : bool :=
  match dict_get t comparisons with
  | Some d => test d
  | None => false
  end.

Definition markdown_summary (self : BenchmarkComparison)
  : option MarkdownSummary :=
  let ithaca_tests :=
    List.filter (λ t, Str.contains "IthacaAccount" t)
      (keys (comparisons self)) in
  match ithaca_tests with
  | [] => None
  | _ =>
      let avg_change :=
        Float.div
          (sum (omap (λ t, percentage <$> dict_get t (comparisons self))
                  ithaca_tests))
          (Float.of_int (Z.of_nat (length ithaca_tests))) in
      let improvements :=
        List.filter (pct_of (comparisons self) (pct_lt 0)) ithaca_tests in
      let regressions :=
        List.filter (pct_of (comparisons self) (pct_gt 5)) ithaca_tests in
      Some {| md_ithaca_tests := length ithaca_tests;
              md_avg_change := avg_change;
              md_improvements := length improvements;
              md_regressions := length regressions |}
  end.

End Report.

(** * check_regressions.py *)

Module Gate.

(** An element of the list [regressions]; the list [warnings] holds the
    same records without the last two keys. *)
Module Finding.
Record t := {
  test : string;
  change : float;
  absolute : Z;
  main : option Z;
  pr : option Z
}.
End Finding.

(** The line printed about the mean change, when there is one. *)
Inductive Overall :=
| OverallImprovement (avg_change : float)
| OverallIncrease (avg_change : float).

(** What [check_regressions] prints, and the exit code it returns. *)
Record Outcome := {
  regressions : list Finding.t;
  warnings : list Finding.t;
  overall : option Overall;
  exit_code : Z
}.

(** The body of the loop over [comparisons.items()]. *)
Definition check_test (threshold : float)
    (acc : list Finding.t * list Finding.t)
    (item : string * TestComparison)
  : list Finding.t * list Finding.t :=
  let '(regressions, warnings) := acc in
  let '(test_name, test_data) := item in
  if negb (Str.contains "IthacaAccount" test_name) then acc
  else
    let pct_change := percentage test_data in
    if Float.gt pct_change threshold then
      ((regressions ++ [{| Finding.test := test_name;
                          Finding.change := pct_change;
                          Finding.absolute := absolute test_data;
                          Finding.main := Some (main test_data);
                          Finding.pr := Some (pr test_data) |}])%list,
       warnings)
    else if Float.gt pct_change (Float.div threshold (Float.of_int 2)) then
      (regressions,
       (warnings ++ [{| Finding.test := test_name;
                       Finding.change := pct_change;
                       Finding.absolute := absolute test_data;
                       Finding.main := None;
                       Finding.pr := None |}])%list)
    else acc.

Section CheckRegressions.

(** The built-in [sum], as in the report. *)
Variable sum : list float → float.

(** The mean change of the candidate-account tests and the line printed
    about it. *)
Definition overall_of (comparisons : dict TestComparison)
  : option Overall :=
  let ithaca_tests :=
    List.filter (λ t, Str.contains "IthacaAccount" t) (keys comparisons) in
  match ithaca_tests with
  | [] => None
  | _ =>
      let avg_change :=
        Float.div
          (sum (omap (λ t, percentage <$> dict_get t comparisons)
                  ithaca_tests))
          (Float.of_int (Z.of_nat (length ithaca_tests))) in
      if Float.lt avg_change (Float.of_int (-1)) then
        Some (OverallImprovement avg_change)
      else if Float.gt avg_change (Float.of_int 1) then
        Some (OverallIncrease avg_change)
      else None
  end.

(** [check_regressions], on the [comparisons] object of the loaded
    JSON data. *)
Definition check_regressions (comparisons : dict TestComparison)
    (threshold : float) : Outcome :=
  let '(regressions, warnings) :=
    fold_left (check_test threshold) comparisons ([], []) in
  {| regressions := regressions;
     warnings := warnings;
     overall := overall_of comparisons;
     exit_code := match regressions with [] => 0 | _ => 1 end |}.

End CheckRegressions.

End Gate.

(** * generate_charts.py *)

Module Charts.

(** The data of one bar chart: the bars in drawing order and the value
    the bar heights are scaled against.  The SVG text is not modelled;
    of the numbers that go into it, only whether computing them raises
    is kept. *)
Record BarChart := {
  title : string;
  bars : list (string * Z);
  max_value : Z
}.

(** [sorted(xs, key=lambda x: x[1])]: a stable sort by value. *)
Fixpoint insert_by_value (x : string * Z) (xs : list (string * Z))
  : list (string * Z) :=
  match xs with
  | [] => [x]
  | y :: ys =>
      if y.2 <? x.2 then y :: insert_by_value x ys else x :: y :: ys
  end.

Definition sorted_by_value (xs : list (string * Z)) : list (string * Z) :=
  foldr insert_by_value [] xs.

(** The first loop of [generate_svg_bar_chart]: the bars in drawing order
    and [max_value]; [None] stands for the empty string that is returned
    when there is no bar. *)
Definition chart_bars (data : dict Z) (title : string) : option BarChart :=
  let items := sorted_by_value data in
  let max_value := fold_left (λ m '(account, gas), Z.max m gas) items 0 in
  match items with
  | [] => None
  | _ => Some {| title := title; bars := items; max_value := max_value |}
  end.

(** [height - margin['top'] - margin['bottom']] with the default
    [height = 400]. *)
Definition chart_height : Z := 400 - 40 - 100.

Definition num_grid_lines : Z := 5.

(** The numbers behind the labels of the grid lines,
    [max_value * i / num_grid_lines] for [i] in
    [range(num_grid_lines + 1)]: true divisions of ints. *)
Definition grid_values (max_value : Z) : result (list float) :=
  map_each (λ i, Float.int_true_div (max_value * i) num_grid_lines)
    [0; 1; 2; 3; 4; 5].

(** [(value / max_value) * chart_height if max_value > 0 else 0] *)
Definition bar_height (max_value value : Z) : result number :=
  if 0 <? max_value then
    q ←! Float.int_true_div value max_value;
    Ok (Flt (Float.mul q (Float.of_int chart_height)))
  else Ok (Int 0).

(** [generate_svg_bar_chart]: the grid values and the bar heights are
    computed after the bars, and either computation raises
    [OverflowError] when a quotient is too large for a float; nothing is
    returned then. *)
Definition generate_svg_bar_chart (data : dict Z) (title : string)
  : result (option BarChart) :=
  match chart_bars data title with
  | None => Ok None
  | Some chart =>
      _ ←! grid_values (max_value chart);
      _ ←! map_each (λ '(account, value), bar_height (max_value chart) value)
             (bars chart);
      Ok (Some chart)
  end.

Definition operation_types : dict (string → bool) := [
  ("single_erc20", λ t,
     Str.contains "testERC20Transfer_" t
     && negb (Str.contains "batch" (Str.lower t))
     && negb (Str.contains "Sponsor" t)
     && negb (Str.contains "ERC20SelfPay" t));
  ("batch_erc20", λ t,
     (Str.contains "batch100" (Str.lower t) || Str.contains "Batch100" t)
     && Str.contains "ERC20Transfer" t);
  ("uniswap", λ t, Str.contains "UniswapV2Swap" t);
  ("native", λ t, Str.contains "testNativeTransfer" t)
].

Definition titles : dict string := [
  ("single_erc20", "Single ERC20 Transfer - Gas Comparison");
  ("batch_erc20", "Batch ERC20 Transfer (100 txs) - Gas Comparison");
  ("uniswap", "Uniswap V2 Swap - Gas Comparison");
  ("native", "Native ETH Transfer - Gas Comparison")
].

(** [test_data.get('account_type')] when it is truthy. *)
Definition truthy_account (test_data : TestComparison) : option string :=
  match account_type test_data with
  | Some account => if bool_decide (account = "") then None else Some account
  | None => None
  end.

(** The body of the loop that fills [chart_data]. *)
Definition add_test (filter_func : string → bool) (chart_data : dict Z)
    (item : string * TestComparison) : dict Z :=
  let '(test_name, test_data) := item in
  if filter_func test_name then
    match truthy_account test_data with
    | Some account =>
        match dict_get account chart_data with
        | Some gas =>
            if pr test_data <? gas
            then dict_set account (pr test_data) chart_data
            else chart_data
        | None => dict_set account (pr test_data) chart_data
        end
    | None => chart_data
    end
  else chart_data.

Definition chart_data_of (filter_func : string → bool)
    (comparisons : dict TestComparison) : dict Z :=
  fold_left (add_test filter_func) comparisons [].

(** The bar-chart part of [main]: the files written, by name, with their
    content, and the exception that ended the run, if any.  A chart that
    raises ends the run before its file is opened; the files of the
    charts before it are written. *)
Definition write_chart (comparisons : dict TestComparison)
    (op : string * (string → bool)) (files : dict (option BarChart))
  : result (dict (option BarChart)) :=
  let '(op_name, filter_func) := op in
  let chart_data := chart_data_of filter_func comparisons in
  match chart_data with
  | [] => Ok files
  | _ =>
      let title := default op_name (dict_get op_name titles) in
      svg_content ←! generate_svg_bar_chart chart_data title;
      Ok (dict_set (op_name +:+ "_chart.svg") svg_content files)
  end.

Definition bar_charts (comparisons : dict TestComparison)
  : dict (option BarChart) * option exn :=
  for_each_kept (write_chart comparisons) operation_types [].

(** The label under a bar: [account.replace('Account', '').replace('Smart', '')],
    cut to ten characters and two dots when longer than twelve. *)
Definition display_name (account : string) : string :=
  let display_name := Str.remove "Smart" (Str.remove "Account" account) in
  if (12 <? String.length display_name)%nat
  then Str.take 10 display_name +:+ ".."
  else display_name.

(** Whether a bar gets the class of the candidate account. *)
Definition is_ithaca (account : string) : bool :=
  Str.contains "IthacaAccount" account.

(** [test.replace('test', '').replace('_IthacaAccount', '')], the name
    under which the three scripts print a test. *)
Definition short_name (test_name : string) : string :=
  Str.remove "_IthacaAccount" (Str.remove "test" test_name).

(** One line of the table of changes: the text, the change printed at its
    right and the vertical position of both. *)
Record TableRow := {
  row_text : string;
  row_change : float;
  row_y : Z
}.

(** The table of changes: its height and the rows of its two columns. *)
Record ChangesTable := {
  table_height : Z;
  improvement_rows : list TableRow;
  regression_rows : list TableRow
}.

(** The loop that draws one column, from [y_offset] on. *)
Fixpoint draw_rows (items : list (string * float)) (y_offset : Z)
  : list TableRow :=
  match items with
  | [] => []
  | (test, change) :: rest =>
      {| row_text := Str.take 30 (short_name test);
         row_change := change;
         row_y := y_offset |}
      :: draw_rows rest (y_offset + 25)
  end.

(** [generate_comparison_table_svg]; an item is the pair of the values of
    its keys ['test'] and ['change']. *)
Definition generate_comparison_table_svg
    (improvements regressions : list (string * float)) : ChangesTable :=
  let height :=
    50 + Z.max (Z.of_nat (length improvements))
               (Z.of_nat (length regressions)) * 30 + 50 in
  {| table_height := height;
     improvement_rows := draw_rows (firstn 5 improvements) 60;
     regression_rows := draw_rows (firstn 5 regressions) 60 |}.

(** [sorted(items, key=lambda x: x['change'])] on float keys and its
    [reverse=True] variant: a stable insertion; items with equal keys keep
    their order in both directions.  The keys that reach it are never
    NaN. *)
Fixpoint insert_by_key {A} (key : A → float) (reverse : bool) (x : A)
    (xs : list A) : list A :=
  match xs with
  | [] => [x]
  | y :: ys =>
      if (if reverse then Float.gt (key y) (key x)
          else Float.lt (key y) (key x))
      then y :: insert_by_key key reverse x ys
      else x :: y :: ys
  end.

Definition sorted_by_key {A} (key : A → float) (reverse : bool)
    (xs : list A) : list A :=
  foldr (insert_by_key key reverse) [] xs.




End Charts.

(** * benchmark_comparison.py: the tables of the markdown report *)

Module Markdown.

Inductive Emoji := Green | Red | Yellow.

(** One row of the table of the candidate account's gas changes. *)
Record Row := {
  emoji : Emoji;
  short_name : string;
  main_gas : Z;
  pr_gas : Z;
  change : Z;
  pct_change : float
}.

(** ["🟢" if pct <= -5 else "🔴" if pct >= 5 else "🟡"] *)
Definition emoji_of (data : TestComparison) : Emoji :=
  if Float.le (percentage data) (Float.of_int (-5)) then Green
  else if Float.le (Float.of_int 5) (percentage data) then Red
  else Yellow.

(** [ithaca_sorted]: the candidate account's entries by percentage. *)
Definition ithaca_sorted (self : BenchmarkComparison)
  : list (string * TestComparison) :=
  Charts.sorted_by_key (λ x, percentage x.2) false
    (List.filter (λ '(t, d), Str.contains "IthacaAccount" t)
       (comparisons self)).

Definition gas_changes (self : BenchmarkComparison) : list Row :=
  (λ '(test_name, data),
     {| emoji := emoji_of data;
        short_name := Charts.short_name test_name;
        main_gas := main data;
        pr_gas := pr data;
        change := absolute data;
        pct_change := percentage data |})
    <$> ithaca_sorted self.

(** The two lists of the notable changes; they are printed when there is
    a candidate test. *)
Definition top_improvements (self : BenchmarkComparison)
  : list (string * TestComparison) :=
  firstn 5
    (Charts.sorted_by_key (λ x, percentage x.2) false
       (List.filter
          (λ '(t, d), Str.contains "IthacaAccount" t && pct_lt (-1) d)
          (comparisons self))).

Definition top_regressions (self : BenchmarkComparison)
  : list (string * TestComparison) :=
  firstn 5
    (Charts.sorted_by_key (λ x, percentage x.2) true
       (List.filter
          (λ '(t, d), Str.contains "IthacaAccount" t && pct_gt 1 d)
          (comparisons self))).

(** The loop that picks, for the diagram, one single-transfer value per
    account type: a later test of the same account type replaces the
    value. *)
Definition pick_single_op (single_op_accounts : dict Z)
    (item : string * TestComparison) : dict Z :=
  let '(test_name, data) := item in
  if Str.contains "testERC20Transfer_" test_name
     && negb (Str.contains "batch" (Str.lower test_name))
     && negb (Str.contains "Sponsor" test_name)
     && negb (Str.contains "ERC20SelfPay" test_name)
  then
    match Charts.truthy_account data with
    | Some account => dict_set account (pr data) single_op_accounts
    | None => single_op_accounts
    end
  else single_op_accounts.

Definition single_op_accounts (self : BenchmarkComparison) : dict Z :=
  fold_left pick_single_op (comparisons self) [].

(** The nodes of the diagram: the node of the candidate account is [A],
    the node at position [i] of another account is [chr(66 + i)]. *)
Fixpoint diagram_nodes_from (i : nat) (sorted_single : list (string * Z))
  : list (string * string * Z) :=
  match sorted_single with
  | [] => []
  | (account, gas) :: rest =>
      let style :=
        if bool_decide (account = "IthacaAccount") then "A"
        else String (ascii_of_nat (66 + i)) EmptyString in
      (style, account, gas) :: diagram_nodes_from (S i) rest
  end.

Definition diagram_nodes (self : BenchmarkComparison)
  : list (string * string * Z) :=
  diagram_nodes_from 0 (Charts.sorted_by_value (single_op_accounts self)).

End Markdown.

(** * Vocabulary of the statements *)

(** ** The loop of [analyze] *)

(** [data.get(test_name, 0)] on a snapshot. *)
Definition gas_of (data : gmap string Z) (test_name : string) : Z :=
  default 0 (data !! test_name).

(** The entry that the loop of [analyze] records for one test name:
    [Ok None] when the test is skipped. *)
Definition recorded_entry (self : BenchmarkComparison) (test_name : string)
  : result (option TestComparison) :=
  let main_gas := default 0 (main_data self !! test_name) in
  let pr_gas := default 0 (pr_data self !! test_name) in
  if (main_gas =? 0) && (pr_gas =? 0) then Ok None
  else
    '(abs_change, pct_change) ←! calculate_change main_gas pr_gas;
    Ok (Some {| main := main_gas;
                pr := pr_gas;
                absolute := abs_change;
                percentage := pct_change;
                account_type := get_account_type test_name |}).

Definition recorded_value (self : BenchmarkComparison) (test_name : string)
  : option TestComparison :=
  match recorded_entry self test_name with
  | Ok e => e
  | Raise _ => None
  end.

Definition recorded (self : BenchmarkComparison) (test_name : string)
  : option (string * TestComparison) :=
  pair test_name <$> recorded_value self test_name.

(** ** Summary counts *)

(** The number of entries of a [comparisons] map that satisfy [P]. *)
Fixpoint count_entries (P : string → TestComparison → bool)
    (comparisons : dict TestComparison) : nat :=
  match comparisons with
  | [] => 0
  | (t, d) :: rest =>
      ((if P t d then 1 else 0) + count_entries P rest)%nat
  end.

(** The four summary counts recomputed from a loaded [comparisons] map, in
    one pass over its entries. *)
Definition count_test (s : Summary) (item : string * TestComparison)
  : Summary :=
  let '(t, d) := item in
  {| total_tests := S (total_tests s);
     ithaca_tests :=
       if Str.contains "IthacaAccount" t then S (ithaca_tests s)
       else ithaca_tests s;
     improvements :=
       if pct_lt (-1) d then S (improvements s) else improvements s;
     regressions :=
       if pct_gt 5 d then S (regressions s) else regressions s |}.

Definition recompute_summary (comparisons : dict TestComparison) : Summary :=
  fold_left count_test comparisons
    {| total_tests := 0; ithaca_tests := 0; improvements := 0;
       regressions := 0 |}.

(** ** Categories and savings *)

(** The data filed at [categories[category_key][base_test][account_type]],
    if any. *)
Definition filed (categories : Categories)
    (category_key base_test account_type : string) : option TestComparison :=
  tests ← dict_get category_key categories;
  accounts ← dict_get base_test tests;
  dict_get account_type accounts.

(** [ithaca_comparisons[category_key][base_test]], if any. *)
Definition entry_at (ithaca_comparisons : dict (dict CategoryComparison.t))
    (category_key base_test : string) : option CategoryComparison.t :=
  tests ← dict_get category_key ithaca_comparisons;
  dict_get base_test tests.

(** Does one of the patterns of a category match the test name? *)
Definition category_matches (category_info : Category) (test_name : string)
  : bool :=
  existsb (λ pattern, Re.search pattern test_name) (patterns category_info).

(** The tests of one category after filing [data] at [base_test] and
    [account]. *)
Definition file_in (tests : option (dict (dict TestComparison)))
    (base_test account : string) (data : TestComparison)
  : dict (dict TestComparison) :=
  dict_set base_test
    (dict_set account data
       (default [] (dict_get base_test (default [] tests))))
    (default [] tests).

(** The savings record of one competitor against the candidate's data. *)
Definition savings_of (ithaca_data account_data : TestComparison)
  : result Savings :=
  let pr_diff_abs := pr account_data - pr ithaca_data in
  pr_diff_pct ←! savings_pct pr_diff_abs (pr account_data);
  let main_diff_abs := main account_data - main ithaca_data in
  main_diff_pct ←! savings_pct main_diff_abs (main account_data);
  Ok {| pr_savings_abs := pr_diff_abs;
        pr_savings_pct := pr_diff_pct;
        main_savings_abs := main_diff_abs;
        main_savings_pct := main_diff_pct;
        improvement := number_sub pr_diff_pct main_diff_pct |}.

(** The entry that the second loop of [_analyze_ithaca_comparisons] stores
    for the accounts of one base test: none when the candidate account is
    not among them. *)
Definition expected_entry (accounts : dict TestComparison)
  : option CategoryComparison.t :=
  match dict_get "IthacaAccount" accounts with
  | Some ithaca_data =>
      match for_each (compare_account ithaca_data) accounts [] with
      | Ok comparisons =>
          Some {| CategoryComparison.ithaca := ithaca_data;
                  CategoryComparison.comparisons := comparisons |}
      | Raise _ => None
      end
  | None => None
  end.

(** Every dict of the three levels of [categories] has distinct keys. *)
Definition wf_tests (tests : dict (dict TestComparison)) : Prop :=
  NoDup (keys tests) ∧ Forall (λ '(_, accounts), NoDup (keys accounts)) tests.

Definition wf_categories (categories : Categories) : Prop :=
  NoDup (keys categories) ∧ Forall (λ '(_, tests), wf_tests tests) categories.

(** ** Gate findings *)

(** The gate lists the test [t] with data [d] among [findings]. *)
Definition listed (findings : list Gate.Finding.t) (t : string)
    (d : TestComparison) : Prop :=
  ∃ f, f ∈ findings ∧
       Gate.Finding.test f = t ∧
       Gate.Finding.change f = percentage d ∧
       Gate.Finding.absolute f = absolute d.

(** The finding that the gate records for a regression, and for a
    warning. *)
Definition regression_of (threshold : float) (item : string * TestComparison)
  : option Gate.Finding.t :=
  let '(t, d) := item in
  if Str.contains "IthacaAccount" t && Float.gt (percentage d) threshold
  then Some {| Gate.Finding.test := t;
               Gate.Finding.change := percentage d;
               Gate.Finding.absolute := absolute d;
               Gate.Finding.main := Some (main d);
               Gate.Finding.pr := Some (pr d) |}
  else None.

Definition warning_of (threshold : float) (item : string * TestComparison)
  : option Gate.Finding.t :=
  let '(t, d) := item in
  if Str.contains "IthacaAccount" t
     && negb (Float.gt (percentage d) threshold)
     && Float.gt (percentage d) (Float.div threshold (Float.of_int 2))
  then Some {| Gate.Finding.test := t;
               Gate.Finding.change := percentage d;
               Gate.Finding.absolute := absolute d;
               Gate.Finding.main := None;
               Gate.Finding.pr := None |}
  else None.

(** ** Chart data *)

(** The PR-side gas values of the entries of a loaded [comparisons] map
    whose name passes [filter_func] and whose account type is [account]. *)
Definition matching_gas (filter_func : string → bool) (account : string)
    (loaded : dict TestComparison) : list Z :=
  omap (λ '(t, d),
          if filter_func t
             && bool_decide (Charts.truthy_account d = Some account)
          then Some (pr d) else None)
    loaded.

(** [v] is the least element of [l]. *)
Definition is_minimum (v : Z) (l : list Z) : Prop :=
  v ∈ l ∧ ∀ w, w ∈ l → v <= w.

(** The running minimum kept in [chart_data[account]]. *)
Definition running_min (start : option Z) (l : list Z) : option Z :=
  fold_left
    (λ o x, match o with
            | Some m => Some (if x <? m then x else m)
            | None => Some x
            end)
    l start.

(** The file that [main] writes for an operation type, and what a run
    that gets past this operation type writes to it (nothing when
    [chart_data] is empty). *)
Definition chart_file (op : string * (string → bool)) : string :=
  op.1 +:+ "_chart.svg".

Definition chart_for (loaded : dict TestComparison)
    (op : string * (string → bool)) : option (option Charts.BarChart) :=
  match Charts.chart_data_of op.2 loaded with
  | [] => None
  | chart_data =>
      Some (Charts.chart_bars chart_data
              (default op.1 (dict_get op.1 Charts.titles)))
  end.

(** Gas values that the charts can be scaled against: the PR-side value
    of every entry is below [2 ^ 1020] in absolute value. *)
Definition chartable (loaded : dict TestComparison) : Prop :=
  ∀ t d, (t, d) ∈ loaded → Z.abs (pr d) < 2 ^ 1020.

(** ** Bounded gas values *)

(** Gas values that true division can handle: below [2 ^ 1022] in absolute
    value. *)
Definition bounded_snapshot (data : gmap string Z) : Prop :=
  ∀ t v, data !! t = Some v → Z.abs v < 2 ^ 1022.

Definition bounded_entry (d : TestComparison) : Prop :=
  Z.abs (main d) < 2 ^ 1022 ∧ Z.abs (pr d) < 2 ^ 1022.

(** ** Example snapshots *)

Definition example_main : gmap string Z :=
  {[ "testERC20Transfer_IthacaAccount" := 100;
     "testERC20Transfer_Safe4337" := 200;
     "testERC20Transfer_IthacaAccount_AppSponsor" := 50;
     "testUnchanged" := 0;
     "testRemoved" := 50 ]}.

Definition example_pr : gmap string Z :=
  {[ "testERC20Transfer_IthacaAccount" := 120;
     "testERC20Transfer_Safe4337" := 180;
     "testERC20Transfer_IthacaAccount_AppSponsor" := 50;
     "testUnchanged" := 0;
     "testAdded" := 50 ]}.

Definition example_order : list string :=
  [ "testERC20Transfer_IthacaAccount";
    "testERC20Transfer_Safe4337";
    "testERC20Transfer_IthacaAccount_AppSponsor";
    "testUnchanged";
    "testRemoved";
    "testAdded" ].

(** Another enumeration of the same test names. *)
Definition example_order' : list string := rev example_order.

(** What [analyze] leaves in the instance for the example snapshots, under
    each of the two enumerations. *)
Definition example_state : BenchmarkComparison :=
  {| main_data := example_main;
     pr_data := example_pr;
     comparisons :=
       ltac:(let v := eval vm_compute in
               (match analyze example_order (__init__ example_main example_pr)
                with Ok st => comparisons st | Raise _ => [] end)
             in exact v);
     ithaca_comparisons :=
       ltac:(let v := eval vm_compute in
               (match analyze example_order (__init__ example_main example_pr)
                with Ok st => ithaca_comparisons st | Raise _ => [] end)
             in exact v) |}.

Definition example_state' : BenchmarkComparison :=
  {| main_data := example_main;
     pr_data := example_pr;
     comparisons :=
       ltac:(let v := eval vm_compute in
               (match analyze example_order' (__init__ example_main example_pr)
                with Ok st => comparisons st | Raise _ => [] end)
             in exact v);
     ithaca_comparisons :=
       ltac:(let v := eval vm_compute in
               (match analyze example_order' (__init__ example_main example_pr)
                with Ok st => ithaca_comparisons st | Raise _ => [] end)
             in exact v) |}.

(** ** Orders *)

(** The order in which [sorted] leaves two items: ascending keys, or
    descending keys with [reverse]. *)
Definition key_le {A} (key : A → float) (reverse : bool) (x y : A) : Prop :=
  if reverse then Float.le (key y) (key x) = true
  else Float.le (key x) (key y) = true.

(** ** The diagram *)

(** The filter of the operation type [single_erc20], which the diagram of
    the markdown report applies as well. *)
Definition single_erc20 (t : string) : bool :=
  Str.contains "testERC20Transfer_" t
  && negb (Str.contains "batch" (Str.lower t))
  && negb (Str.contains "Sponsor" t)
  && negb (Str.contains "ERC20SelfPay" t).

(** The identifiers of the nodes of the diagram. *)
Definition node_ids (nodes : list (string * string * Z)) : list string :=
  (λ node, node.1.1) <$> nodes.

(** ** Signs *)

(** A float that is a number and is not below zero, and one that is not
    above zero; a zero of either sign is both. *)
Definition nonneg (f : float) : Prop :=
  match f with
  | S754_zero _ => True
  | S754_infinity s | S754_finite s _ _ => s = false
  | S754_nan => False
  end.

Definition nonpos (f : float) : Prop :=
  match f with
  | S754_zero _ => True
  | S754_infinity s | S754_finite s _ _ => s = true
  | S754_nan => False
  end.

(** The side of zero that a result with the sign bit [s] lies on. *)
Definition on_side (s : bool) (f : float) : Prop :=
  if s then nonpos f else nonneg f.

(** * Properties *)

(** ** Strings *)

Section StrFacts.

Lemma app_cons (x : ascii) (a b : string) :
  String x a +:+ b = String x (a +:+ b).
Proof. reflexivity. Qed.

Lemma app_assoc_str (a b c : string) : (a +:+ b) +:+ c = a +:+ b +:+ c.
Proof.
  induction a as [|x a IH]; [done |]. rewrite !app_cons. by f_equal.
Qed.

Lemma startswith_spec (p s : string) :
  Str.startswith p s = true ↔ ∃ post, s = p +:+ post.
Proof.
  revert s. induction p as [|a p IH]; intros s; simpl.
  - split; [eauto | done].
  - destruct s as [|b s].
    + split; [done | intros [post ?]; done].
    + rewrite andb_true_iff, bool_decide_eq_true, IH. split.
      * intros [-> [post ->]]. exists post. by rewrite app_cons.
      * intros [post H]. rewrite app_cons in H. injection H as -> ->. eauto.
Qed.

Lemma contains_spec (sub s : string) :
  Str.contains sub s = true ↔ Str.occurs_in sub s.
Proof.
  unfold Str.occurs_in. induction s as [|c s IH].
  - simpl. rewrite orb_false_r, startswith_spec. split.
    + intros [post H]. exists "", post. done.
    + intros [[|??] [post H]]; [eauto | by rewrite app_cons in H].
  - cbn [Str.contains]. rewrite orb_true_iff, startswith_spec, IH. split.
    + intros [[post H] | (pre & post & H)].
      * exists "", post. done.
      * exists (String c pre), post. by rewrite app_cons, H.
    + intros ([|x pre] & post & H).
      * left. eauto.
      * right. rewrite app_cons in H. injection H as -> ->. eauto.
Qed.

Lemma occurs_in_trans (a b c : string) :
  Str.occurs_in a b → Str.occurs_in b c → Str.occurs_in a c.
Proof.
  intros (p1 & q1 & ->) (p2 & q2 & ->).
  exists (p2 +:+ p1), (q1 +:+ q2). by rewrite !app_assoc_str.
Qed.

Lemma contains_trans (a b c : string) :
  Str.contains a b = true → Str.contains b c = true →
  Str.contains a c = true.
Proof. rewrite !contains_spec. apply occurs_in_trans. Qed.

End StrFacts.

(** ** Account-type resolution *)

Lemma first_account_type_in_spec (account_types : list string)
    (test_name : string) :
  match first_account_type_in account_types test_name with
  | Some account_type =>
      ∃ i : nat,
        account_types !! i = Some account_type ∧
        Str.occurs_in account_type test_name ∧
        ∀ (j : nat) earlier,
          (j < i)%nat → account_types !! j = Some earlier →
          ¬ Str.occurs_in earlier test_name
  | None =>
      ∀ account_type,
        account_type ∈ account_types → ¬ Str.occurs_in account_type test_name
  end.
Proof.
  induction account_types as [|a rest IH]; simpl.
  - intros ? H. by apply elem_of_nil in H.
  - destruct (Str.contains a test_name) eqn:Ha.
    + exists 0%nat. split_and!; [done | by apply contains_spec | lia].
    + assert (¬ Str.occurs_in a test_name) as Hna.
      { rewrite <- contains_spec. by rewrite Ha. }
      destruct (first_account_type_in rest test_name) as [b|].
      * destruct IH as (i & Hi & Hocc & Hearlier).
        exists (S i). split_and!; [done..|].
        intros [|j] earlier Hj; simpl; [by intros [= <-] |].
        apply Hearlier. lia.
      * intros b [->|Hb]%elem_of_cons; [done | by apply IH].
  Qed.

Lemma get_account_type_ithaca (test_name : string) :
  Str.contains "IthacaAccount" test_name = true ↔
  get_account_type test_name = Some "IthacaAccount".
Proof.
  unfold get_account_type, ACCOUNT_TYPES. cbn [first_account_type_in].
  destruct (Str.contains "IthacaAccount" test_name); [done |].
  split; [done |].
  repeat (match goal with
          | |- context [if ?b then _ else _] => destruct b
          end; [done |]).
  done.
Qed.

Lemma get_account_type_never_spend_limits (test_name : string) :
  get_account_type test_name ≠ Some "IthacaAccountWithSpendLimits".
Proof.
  destruct (Str.contains "IthacaAccount" test_name) eqn:Hithaca.
  - apply get_account_type_ithaca in Hithaca. by rewrite Hithaca.
  - assert (Str.contains "IthacaAccountWithSpendLimits" test_name = false)
      as Hlimits.
    { apply not_true_is_false. intros H. apply not_true_iff_false in Hithaca.
      apply Hithaca.
      apply (contains_trans _ "IthacaAccountWithSpendLimits"); [|done].
      by vm_compute. }
    unfold get_account_type, ACCOUNT_TYPES. cbn [first_account_type_in].
    rewrite Hithaca, Hlimits.
    repeat (match goal with
            | |- context [if ?b then _ else _] => destruct b
            end; [done |]).
    done.
Qed.

(** ** Dictionaries *)

Section DictFacts.
Context {V : Type}.
Implicit Types (d : dict V) (k : string) (v : V).

Lemma dict_get_set k k' v d :
  dict_get k' (dict_set k v d) =
  if decide (k' = k) then Some v else dict_get k' d.
Proof.
  induction d as [|[k0 v0] d IH]; simpl.
  - by destruct (decide (k' = k)).
  - destruct (decide (k = k0)) as [->|Hne]; simpl.
    + by destruct (decide (k' = k0)).
    + destruct (decide (k' = k0)) as [->|]; [|done].
      by rewrite decide_False.
Qed.

Lemma dict_get_set_eq k v d : dict_get k (dict_set k v d) = Some v.
Proof. by rewrite dict_get_set, decide_True. Qed.

Lemma dict_get_set_ne k k' v d :
  k' ≠ k → dict_get k' (dict_set k v d) = dict_get k' d.
Proof. intros. by rewrite dict_get_set, decide_False. Qed.

Lemma dict_get_None k d : dict_get k d = None ↔ k ∉ keys d.
Proof.
  unfold keys. induction d as [|[k0 v0] d IH]; simpl.
  - split; [intros _; apply not_elem_of_nil | done].
  - rewrite not_elem_of_cons. destruct (decide (k = k0)); [|tauto].
    split; [done | by intros [? _]].
Qed.

Lemma dict_get_Some_elem k v d : dict_get k d = Some v → (k, v) ∈ d.
Proof.
  induction d as [|[k0 v0] d IH]; simpl; [done |].
  destruct (decide (k = k0)) as [->|].
  - intros [= ->]. apply elem_of_cons. by left.
  - intros. apply elem_of_cons. right. by apply IH.
Qed.

Lemma dict_get_elem k v d :
  NoDup (keys d) → (k, v) ∈ d → dict_get k d = Some v.
Proof.
  unfold keys. induction d as [|[k0 v0] d IH]; simpl.
  - intros _ H. by apply elem_of_nil in H.
  - rewrite NoDup_cons. intros [Hk0 Hd] [[= -> ->]|Hin]%elem_of_cons.
    + by rewrite decide_True.
    + rewrite decide_False; [by apply IH |].
      intros ->. apply Hk0. apply list_elem_of_fmap. by exists (k0, v).
Qed.

Lemma dict_set_fresh k v d :
  dict_get k d = None → dict_set k v d = (d ++ [(k, v)])%list.
Proof.
  induction d as [|[k0 v0] d IH]; simpl; [done |].
  destruct (decide (k = k0)); [done |]. intros. by rewrite IH.
Qed.

Lemma keys_dict_set_present k v d :
  is_Some (dict_get k d) → keys (dict_set k v d) = keys d.
Proof.
  unfold keys. induction d as [|[k0 v0] d IH]; simpl.
  - by intros [? ?].
  - destruct (decide (k = k0)) as [->|]; [done |].
    intros. csimpl. f_equal. by apply IH.
Qed.

Lemma NoDup_keys_dict_set k v d :
  NoDup (keys d) → NoDup (keys (dict_set k v d)).
Proof.
  intros Hd. destruct (dict_get k d) as [v0|] eqn:Hk.
  - by rewrite keys_dict_set_present.
  - rewrite dict_set_fresh by done. unfold keys in *.
    rewrite fmap_app. simpl. apply NoDup_app. split_and!; [done | |].
    + intros k' Hk' ->%list_elem_of_singleton.
      by apply dict_get_None in Hk.
    + apply NoDup_singleton.
Qed.

Lemma dict_set_elem k v d x : x ∈ dict_set k v d → x = (k, v) ∨ x ∈ d.
Proof.
  induction d as [|[k0 v0] d IH]; simpl.
  - intros ->%list_elem_of_singleton. by left.
  - destruct (decide (k = k0)) as [->|]; rewrite !elem_of_cons.
    + intros [?|?]; auto.
    + intros [?|?]; [auto |]. destruct IH; auto.
Qed.

End DictFacts.

(** ** Loops *)

Lemma for_each_step_inv {A S} (body : A → S → result S) (x : A)
    (xs : list A) (s s' : S) :
  (t ←! body x s; for_each body xs t) = Ok s' →
  ∃ t, body x s = Ok t ∧ for_each body xs t = Ok s'.
Proof. destruct (body x s) as [t|]; simpl; [eauto | done]. Qed.

Lemma for_each_invariant {A S} (body : A → S → result S) (I : S → Prop)
    (xs : list A) (s s' : S) :
  (∀ x t t', x ∈ xs → I t → body x t = Ok t' → I t') →
  I s → for_each body xs s = Ok s' → I s'.
Proof.
  revert s. induction xs as [|x xs IH]; intros s Hbody Hs; simpl.
  - by intros [= <-].
  - destruct (body x s) as [t|] eqn:Hx; simpl; [|done].
    apply IH.
    + intros y ? ? Hy. apply Hbody. apply elem_of_cons. by right.
    + eapply Hbody; [|done..]. apply elem_of_cons. by left.
Qed.

Lemma fold_left_invariant {A S} (body : S → A → S) (I : S → Prop)
    (xs : list A) (s : S) :
  (∀ x t, x ∈ xs → I t → I (body t x)) → I s → I (fold_left body xs s).
Proof.
  revert s. induction xs as [|x xs IH]; intros s Hbody Hs; simpl; [done |].
  apply IH.
  - intros y ? Hy. apply Hbody. apply elem_of_cons. by right.
  - apply Hbody; [|done]. apply elem_of_cons. by left.
Qed.

(** ** Integer true division *)

Lemma div_core_self (m : Z) :
  0 < m →
  SFdiv_core_binary Float.prec Float.emax m 0 m 0 = (2 ^ 53, -53, loc_Exact).
Proof.
  intros Hm. unfold SFdiv_core_binary.
  replace (Zdigits2 m + 0 - (Zdigits2 m + 0)) with 0 by lia.
  change (Z.min (fexp Float.prec Float.emax 0) (0 - 0)) with (-53).
  change (0 - 0 - -53) with 53. cbv iota.
  rewrite Z.shiftl_mul_pow2 by done.
  set (k := 2 ^ 53). rewrite (Z.mul_comm m k).
  generalize (Z.div_mul k m ltac:(lia)) (Z.mod_mul k m ltac:(lia)).
  unfold Z.div, Z.modulo.
  destruct (Z.div_eucl (k * m) m) as [q r]. intros -> ->.
  unfold new_location, new_location_even, new_location_odd.
  by destruct (Z.even m).
Qed.

(** [-m / m] is [-1.0] whatever the size of [m]. *)
Lemma int_true_div_neg_self (m : Z) :
  0 < m →
  Float.int_true_div (0 - m) m = Ok (S754_finite true 4503599627370496 (-52)).
Proof.
  intros Hm. unfold Float.int_true_div.
  rewrite (proj2 (Z.eqb_neq m 0)) by lia.
  rewrite (proj2 (Z.eqb_neq (0 - m) 0)) by lia.
  rewrite (proj2 (Z.ltb_lt (0 - m) 0)) by lia.
  rewrite (proj2 (Z.ltb_ge m 0)) by lia.
  replace (Z.abs (0 - m)) with m by lia.
  replace (Z.abs m) with m by lia.
  by rewrite div_core_self.
Qed.

(** ** The loop of [analyze] *)

Lemma analyze_test_recorded (self : BenchmarkComparison) (t : string)
    (comps : dict TestComparison) :
  analyze_test self t comps =
  (e ←! recorded_entry self t;
   Ok (match e with Some d => dict_set t d comps | None => comps end)).
Proof.
  unfold analyze_test, recorded_entry.
  destruct (_ && _); [done |].
  by destruct (calculate_change _ _) as [[??]|].
Qed.

Lemma dict_get_omap {V} (g : string → option V) (order : list string)
    (t : string) :
  dict_get t (omap (λ t, pair t <$> g t) order) =
  if decide (t ∈ order) then g t else None.
Proof.
  induction order as [|x order IH].
  - destruct (decide (t ∈ [])) as [H|]; [by apply elem_of_nil in H | done].
  - assert ((if decide (t ∈ x :: order) then g t else None) =
            if decide (t = x) then g t
            else if decide (t ∈ order) then g t else None) as ->.
    { destruct (decide (t = x)) as [->|Hne].
      - rewrite decide_True; [done |]. apply elem_of_cons. by left.
      - destruct (decide (t ∈ order)).
        + rewrite decide_True; [done |]. apply elem_of_cons. by right.
        + rewrite decide_False; [done |].
          by intros [?|?]%elem_of_cons. }
    rewrite <- IH. csimpl.
    destruct (g x) as [v|] eqn:Hx; csimpl.
    + destruct (decide (t = x)) as [->|]; [by rewrite Hx | done].
    + destruct (decide (t = x)) as [->|]; [|done].
      rewrite Hx, IH, Hx. by destruct (decide _).
Qed.

Lemma dict_get_recorded (self : BenchmarkComparison) (order : list string)
    (t : string) :
  dict_get t (omap (recorded self) order) =
  if decide (t ∈ order) then recorded_value self t else None.
Proof. apply (dict_get_omap (recorded_value self)). Qed.

Lemma keys_omap_recorded (self : BenchmarkComparison) (order : list string) :
  keys (omap (recorded self) order) =
  List.filter (λ t, bool_decide (is_Some (recorded self t))) order.
Proof.
  unfold keys. induction order as [|t order IH]; csimpl; [done |].
  destruct (recorded self t) as [[t' d]|] eqn:Hr; csimpl.
  - assert (t' = t) as ->.
    { unfold recorded in Hr.
      destruct (recorded_value self t); simpl in Hr; congruence. }
    by rewrite IH.
  - done.
Qed.

Lemma NoDup_filter_bool {A} (f : A → bool) (l : list A) :
  NoDup l → NoDup (List.filter f l).
Proof.
  induction 1 as [|x l Hx Hl IH]; simpl; [constructor |].
  destruct (f x); [|done]. constructor; [|done].
  rewrite list_elem_of_In, filter_In, <- list_elem_of_In. tauto.
Qed.

(** The loop appends, in enumeration order, the entry of every test that
    is not skipped. *)
Lemma analyze_loop_spec (self : BenchmarkComparison) (order : list string)
    (acc comps : dict TestComparison) :
  NoDup order →
  (∀ t, t ∈ order → dict_get t acc = None) →
  for_each (analyze_test self) order acc = Ok comps →
  comps = (acc ++ omap (recorded self) order)%list ∧
  ∀ t, t ∈ order → ∃ e, recorded_entry self t = Ok e.
Proof.
  revert acc. induction order as [|t order IH]; intros acc Hnd Hfresh; simpl.
  - intros [= <-]. split; [by rewrite app_nil_r |].
    intros ? H. by apply elem_of_nil in H.
  - apply NoDup_cons in Hnd as [Ht Hnd].
    rewrite analyze_test_recorded. unfold recorded at 1, recorded_value.
    destruct (recorded_entry self t) as [e|] eqn:He; simpl; [|done].
    intros Hloop. apply IH in Hloop as [-> Hok]; [| done |].
    + split.
      * destruct e as [d|]; csimpl; [|done].
        rewrite dict_set_fresh, <- app_assoc; [done |].
        apply Hfresh, elem_of_cons. by left.
      * intros t' [->|?]%elem_of_cons; eauto.
    + intros t' Ht'. assert (t' ≠ t) by (by intros ->).
      destruct e as [d|]; [rewrite dict_get_set_ne by done |];
        apply Hfresh, elem_of_cons; by right.
Qed.

Lemma analyze_loop_total (self : BenchmarkComparison) (order : list string)
    (acc : dict TestComparison) :
  NoDup order →
  (∀ t, t ∈ order → dict_get t acc = None) →
  (∀ t, t ∈ order → ∃ e, recorded_entry self t = Ok e) →
  for_each (analyze_test self) order acc =
  Ok (acc ++ omap (recorded self) order)%list.
Proof.
  revert acc. induction order as [|t order IH]; intros acc Hnd Hfresh Hok.
  - simpl. by rewrite app_nil_r.
  - apply NoDup_cons in Hnd as [Ht Hnd]. simpl.
    rewrite analyze_test_recorded. unfold recorded at 1, recorded_value.
    destruct (Hok t) as [e He]; [apply elem_of_cons; by left |].
    rewrite He. simpl. rewrite IH.
    + destruct e as [d|]; csimpl; [|done].
      rewrite dict_set_fresh, <- app_assoc; [done |].
      apply Hfresh, elem_of_cons. by left.
    + done.
    + intros t' Ht'. assert (t' ≠ t) by (by intros ->).
      destruct e as [d|]; [rewrite dict_get_set_ne by done |];
        apply Hfresh, elem_of_cons; by right.
    + intros t' Ht'. apply Hok, elem_of_cons. by right.
Qed.

Lemma analyze_inv (order : list string) (self st : BenchmarkComparison) :
  analyze order self = Ok st →
  for_each (analyze_test self) order (comparisons self) = Ok (comparisons st) ∧
  for_each compare_category (categorize (comparisons st))
    (ithaca_comparisons self) = Ok (ithaca_comparisons st).
Proof.
  unfold analyze, _analyze_ithaca_comparisons.
  destruct (for_each (analyze_test self) order (comparisons self))
    as [comps|]; simpl; [|done].
  destruct (for_each compare_category (categorize comps) _) as [ic|] eqn:Hic;
    simpl; [|done].
  intros [= <-]. by simpl.
Qed.

Lemma analyze_comparisons (main_snap pr_snap : gmap string Z)
    (order : list string) (st : BenchmarkComparison) :
  NoDup order →
  analyze order (__init__ main_snap pr_snap) = Ok st →
  comparisons st = omap (recorded (__init__ main_snap pr_snap)) order ∧
  ∀ t, t ∈ order → ∃ e, recorded_entry (__init__ main_snap pr_snap) t = Ok e.
Proof.
  intros Hnd [Hloop _]%analyze_inv.
  by apply analyze_loop_spec in Hloop.
Qed.

Lemma elem_of_all_tests (main_snap pr_snap : gmap string Z) (t : string) :
  t ∈ all_tests (__init__ main_snap pr_snap) ↔
  is_Some (main_snap !! t) ∨ is_Some (pr_snap !! t).
Proof. unfold all_tests. simpl. by rewrite elem_of_union, !elem_of_dom. Qed.

Lemma enumerates_elem_of (order : list string) (s : gset string) (t : string) :
  enumerates order s → t ∈ order ↔ t ∈ s.
Proof. intros [_ <-]. by rewrite elem_of_list_to_set. Qed.

(** C1: for every test identifier of either snapshot, [analyze] records
    [absolute = pr - main]; the percentage is [(pr - main) / main * 100]
    when [main > 0], [100.0] when [main = 0] and [pr > 0], and [-100.0]
    when [main > 0] and [pr = 0]; a test with [main = 0] and [pr = 0] has
    no entry in [comparisons]. *)
Theorem analyze_records_change (main_snap pr_snap : gmap string Z)
    (order : list string) (st : BenchmarkComparison) (test_name : string) :
  enumerates order (all_tests (__init__ main_snap pr_snap)) →
  analyze order (__init__ main_snap pr_snap) = Ok st →
  test_name ∈ all_tests (__init__ main_snap pr_snap) →
  if bool_decide (gas_of main_snap test_name = 0 ∧ gas_of pr_snap test_name = 0)
  then dict_get test_name (comparisons st) = None
  else
    ∃ d,
      dict_get test_name (comparisons st) = Some d ∧
      main d = gas_of main_snap test_name ∧
      pr d = gas_of pr_snap test_name ∧
      absolute d = gas_of pr_snap test_name - gas_of main_snap test_name ∧
      (0 < gas_of main_snap test_name →
       ∃ q,
         Float.int_true_div
           (gas_of pr_snap test_name - gas_of main_snap test_name)
           (gas_of main_snap test_name) = Ok q ∧
         percentage d = Float.mul q (Float.of_int 100)) ∧
      (gas_of main_snap test_name = 0 → 0 < gas_of pr_snap test_name →
       percentage d = Float.of_int 100) ∧
      (0 < gas_of main_snap test_name → gas_of pr_snap test_name = 0 →
       percentage d = Float.of_int (-100)).
Proof.
  intros Henum Hrun Hin.
  pose proof Henum as [Hnd _].
  apply (enumerates_elem_of _ _ _ Henum) in Hin.
  destruct (analyze_comparisons _ _ _ _ Hnd Hrun) as [-> Hok].
  destruct (Hok _ Hin) as [e He].
  rewrite dict_get_recorded, decide_True by done.
  unfold recorded_value. rewrite He.
  unfold recorded_entry in He. cbn [main_data pr_data __init__] in He.
  fold (gas_of main_snap test_name) (gas_of pr_snap test_name) in He.
  set (m := gas_of main_snap test_name) in *.
  set (p := gas_of pr_snap test_name) in *.
  case_bool_decide as Hzero.
  - destruct Hzero as [-> ->]. simpl in He. by injection He as <-.
  - assert ((m =? 0) && (p =? 0) = false) as Hz.
    { apply andb_false_iff. rewrite !Z.eqb_neq.
      destruct (decide (m = 0)); [right | left]; tauto. }
    rewrite Hz in He. unfold calculate_change in He.
    destruct (m =? 0) eqn:Hm.
    + apply Z.eqb_eq in Hm. simpl in He. injection He as <-.
      eexists. split_and!; [done..| lia | | lia].
      intros _ Hp. simpl. by rewrite (proj2 (Z.ltb_lt 0 p)).
    + apply Z.eqb_neq in Hm.
      destruct (Float.int_true_div (p - m) m) as [q|] eqn:Hq; simpl in He;
        [|done].
      injection He as <-.
      eexists. split_and!; [done..| eauto | done |].
      intros Hpos Hp. simpl. rewrite Hp in Hq.
      rewrite int_true_div_neg_self in Hq by done.
      by injection Hq as <-.
Qed.

Lemma example_order_enumerates :
  enumerates example_order (all_tests (__init__ example_main example_pr)).
Proof. split; compute_done. Defined.

Lemma example_run :
  analyze example_order (__init__ example_main example_pr) = Ok example_state.
Proof. by vm_compute. Defined.

Lemma example_run' :
  analyze example_order' (__init__ example_main example_pr) = Ok example_state'.
Proof. by vm_compute. Defined.

Lemma example_order_enumerates' :
  enumerates example_order' (all_tests (__init__ example_main example_pr)).
Proof. split; compute_done. Defined.

Lemma analyze_records_change_witness :
  ∃ d,
    dict_get "testRemoved" (comparisons example_state) = Some d ∧
    main d = 50 ∧ pr d = 0 ∧ absolute d = 0 - 50 ∧
    percentage d = Float.of_int (-100).
Proof.
  assert ("testRemoved" ∈ all_tests (__init__ example_main example_pr)) as Hin.
  { compute_done. }
  pose proof (analyze_records_change example_main example_pr example_order
                example_state "testRemoved" example_order_enumerates
                example_run Hin) as H.
  change (gas_of example_main "testRemoved") with 50 in H.
  change (gas_of example_pr "testRemoved") with 0 in H.
  rewrite bool_decide_false in H by (by intros [? _]).
  destruct H as (d & Hd & Hmain & Hpr & Habs & _ & _ & Hpct).
  exists d. split_and!; [done..|]. by apply Hpct.
Defined.

(** C4: [get_account_type] scans the seven names of [ACCOUNT_TYPES] in
    their declared order and returns the first one that occurs in the test
    identifier, or [None] when none occurs; an identifier that contains
    both [IthacaAccount] and [IthacaAccountWithSpendLimits] resolves to
    [IthacaAccount], the one declared first. *)
Theorem get_account_type_first_match (test_name : string) :
  length ACCOUNT_TYPES = 7%nat ∧
  match get_account_type test_name with
  | Some account_type =>
      ∃ i : nat,
        ACCOUNT_TYPES !! i = Some account_type ∧
        Str.occurs_in account_type test_name ∧
        ∀ (j : nat) earlier,
          (j < i)%nat → ACCOUNT_TYPES !! j = Some earlier →
          ¬ Str.occurs_in earlier test_name
  | None =>
      ∀ account_type,
        account_type ∈ ACCOUNT_TYPES → ¬ Str.occurs_in account_type test_name
  end ∧
  (Str.occurs_in "IthacaAccount" test_name ∧
   Str.occurs_in "IthacaAccountWithSpendLimits" test_name →
   ACCOUNT_TYPES !! 0%nat = Some "IthacaAccount" ∧
   ACCOUNT_TYPES !! 1%nat = Some "IthacaAccountWithSpendLimits" ∧
   get_account_type test_name = Some "IthacaAccount").
Proof.
  split_and!.
  - done.
  - apply first_account_type_in_spec.
  - intros [Hithaca _]. split_and!; [done..|].
    by apply get_account_type_ithaca, contains_spec.
Qed.

(** ** Order of enumeration *)

Lemma filter_bool_Permutation {A} (f : A → bool) (l1 l2 : list A) :
  l1 ≡ₚ l2 → List.filter f l1 ≡ₚ List.filter f l2.
Proof.
  induction 1 as [|x l1 l2 _ IH|x y l|l1 l2 l3 _ IH1 _ IH2]; simpl.
  - done.
  - destruct (f x); [by constructor | done].
  - destruct (f x), (f y); try done. apply perm_swap.
  - by etrans.
Qed.

Lemma enumerates_Permutation (order1 order2 : list string) (s : gset string) :
  enumerates order1 s → enumerates order2 s → order1 ≡ₚ order2.
Proof.
  intros H1 H2. apply NoDup_Permutation; [apply H1 | apply H2 |].
  intros t. by rewrite (enumerates_elem_of _ _ _ H1), (enumerates_elem_of _ _ _ H2).
Qed.

Lemma analyze_keys_NoDup (main_snap pr_snap : gmap string Z)
    (order : list string) (st : BenchmarkComparison) :
  NoDup order →
  analyze order (__init__ main_snap pr_snap) = Ok st →
  NoDup (keys (comparisons st)).
Proof.
  intros Hnd Hrun.
  destruct (analyze_comparisons _ _ _ _ Hnd Hrun) as [-> _].
  rewrite keys_omap_recorded. by apply NoDup_filter_bool.
Qed.

(** The claim of C5 fails: with the same two snapshots, two enumerations
    of the test names give JSON data whose entries come in a different
    order, and even a different entry for the candidate account of one
    base test. *)
Lemma json_data_depends_on_enumeration :
  enumerates example_order (all_tests (__init__ example_main example_pr)) ∧
  enumerates example_order' (all_tests (__init__ example_main example_pr)) ∧
  analyze example_order (__init__ example_main example_pr) = Ok example_state ∧
  analyze example_order' (__init__ example_main example_pr)
    = Ok example_state' ∧
  keys (json_comparisons (generate_json_data example_state)) ≠
  keys (json_comparisons (generate_json_data example_state')) ∧
  (dict_get "single_transfer"
     (json_ithaca_comparisons (generate_json_data example_state))
     ≫= dict_get "testERC20Transfer") ≠
  (dict_get "single_transfer"
     (json_ithaca_comparisons (generate_json_data example_state'))
     ≫= dict_get "testERC20Transfer") ∧
  generate_json_data example_state ≠ generate_json_data example_state'.
Proof.
  split; [apply example_order_enumerates |].
  split; [apply example_order_enumerates' |].
  split; [apply example_run |].
  split; [apply example_run' |].
  split; [by vm_compute |].
  split; [by vm_compute |].
  intros H. apply (f_equal (λ j, keys (json_comparisons j))) in H.
  by vm_compute in H.
Qed.

(** C5, amended: the comparator's result is a function of the two
    snapshots and of the order in which the set of test names is
    enumerated; for any two enumerations the [comparisons] map holds the
    same entries (the same lookups, one list a permutation of the other)
    and the four summary counts are equal. *)
Theorem comparisons_up_to_enumeration (main_snap pr_snap : gmap string Z)
    (order1 order2 : list string) (st1 st2 : BenchmarkComparison) :
  enumerates order1 (all_tests (__init__ main_snap pr_snap)) →
  enumerates order2 (all_tests (__init__ main_snap pr_snap)) →
  analyze order1 (__init__ main_snap pr_snap) = Ok st1 →
  analyze order2 (__init__ main_snap pr_snap) = Ok st2 →
  (order1 = order2 → generate_json_data st1 = generate_json_data st2) ∧
  json_comparisons (generate_json_data st1)
    ≡ₚ json_comparisons (generate_json_data st2) ∧
  (∀ t, dict_get t (json_comparisons (generate_json_data st1)) =
        dict_get t (json_comparisons (generate_json_data st2))) ∧
  summary (generate_json_data st1) = summary (generate_json_data st2).
Proof.
  intros Henum1 Henum2 Hrun1 Hrun2.
  pose proof (enumerates_Permutation _ _ _ Henum1 Henum2) as Hperm.
  destruct (analyze_comparisons _ _ _ _ (proj1 Henum1) Hrun1) as [Hc1 _].
  destruct (analyze_comparisons _ _ _ _ (proj1 Henum2) Hrun2) as [Hc2 _].
  assert (comparisons st1 ≡ₚ comparisons st2) as Hcomps.
  { rewrite Hc1, Hc2. by apply omap_Permutation. }
  split_and!.
  - intros ->. rewrite Hrun1 in Hrun2. by injection Hrun2 as ->.
  - done.
  - intros t. simpl. rewrite Hc1, Hc2, !dict_get_recorded.
    destruct (decide (t ∈ order1)) as [Hin|Hin];
      rewrite (enumerates_elem_of _ _ _ Henum1) in Hin;
      rewrite <- (enumerates_elem_of _ _ _ Henum2) in Hin.
    + by rewrite decide_True.
    + by rewrite decide_False.
  - unfold generate_json_data. simpl. f_equal.
    + by apply Permutation_length.
    + apply Permutation_length, filter_bool_Permutation.
      unfold keys. by apply fmap_Permutation.
    + by apply Permutation_length, filter_bool_Permutation.
    + by apply Permutation_length, filter_bool_Permutation.
Qed.

Lemma comparisons_up_to_enumeration_witness :
  json_comparisons (generate_json_data example_state)
    ≡ₚ json_comparisons (generate_json_data example_state') ∧
  summary (generate_json_data example_state)
    = summary (generate_json_data example_state').
Proof.
  destruct (comparisons_up_to_enumeration example_main example_pr
              example_order example_order' example_state example_state'
              example_order_enumerates example_order_enumerates'
              example_run example_run')
    as (_ & Hperm & _ & Hsum).
  by split.
Defined.

(** ** Summary counts *)

Lemma count_entries_filter (P : string → TestComparison → bool)
    (comps : dict TestComparison) :
  count_entries P comps = length (List.filter (λ '(t, d), P t d) comps).
Proof.
  induction comps as [|[t d] comps IH]; simpl; [done |].
  rewrite IH. by destruct (P t d).
Qed.

Lemma count_entries_keys (f : string → bool) (comps : dict TestComparison) :
  count_entries (λ t _, f t) comps = length (List.filter f (keys comps)).
Proof.
  unfold keys. induction comps as [|[t d] comps IH]; csimpl; [done |].
  rewrite IH. by destruct (f t).
Qed.

Lemma fold_count_test (comps : dict TestComparison) (s : Summary) :
  fold_left count_test comps s =
  {| total_tests := (total_tests s + length comps)%nat;
     ithaca_tests :=
       (ithaca_tests s
        + count_entries (λ t _, Str.contains "IthacaAccount" t) comps)%nat;
     improvements :=
       (improvements s + count_entries (λ _ d, pct_lt (-1) d) comps)%nat;
     regressions :=
       (regressions s + count_entries (λ _ d, pct_gt 5 d) comps)%nat |}.
Proof.
  revert s. induction comps as [|[t d] comps IH]; intros s.
  - destruct s. simpl. f_equal; lia.
  - cbn [fold_left]. rewrite IH. cbn [count_test count_entries length].
    cbn [total_tests ithaca_tests improvements regressions].
    destruct (Str.contains _ t), (pct_lt (-1) d), (pct_gt 5 d); f_equal; lia.
Qed.

(** C6: the four summary counts recomputed from the [comparisons] map of
    the JSON data are the summary counts stored in that JSON data. *)
Theorem summary_recomputed (self : BenchmarkComparison) :
  recompute_summary (json_comparisons (generate_json_data self)) =
  summary (generate_json_data self).
Proof.
  unfold recompute_summary. rewrite fold_count_test.
  unfold generate_json_data. cbn [json_comparisons summary].
  cbn [total_tests ithaca_tests improvements regressions].
  rewrite count_entries_keys, !count_entries_filter. done.
Qed.

Lemma filter_keys_pct (comps : dict TestComparison)
    (f : string → bool) (test : TestComparison → bool) :
  NoDup (keys comps) →
  length (List.filter (pct_of comps test) (List.filter f (keys comps))) =
  count_entries (λ t d, f t && test d) comps.
Proof.
  intros Hnd.
  assert (∀ l : dict TestComparison,
            (∀ t d, (t, d) ∈ l → dict_get t comps = Some d) →
            length (List.filter (pct_of comps test) (List.filter f (keys l))) =
            count_entries (λ t d, f t && test d) l) as Hgen.
  { unfold keys. induction l as [|[t d] l IH]; intros Hl; csimpl; [done |].
    rewrite <- IH.
    - destruct (f t); simpl; [|done].
      unfold pct_of at 1. rewrite (Hl t d) by (apply elem_of_cons; by left).
      by destruct (test d).
    - intros. apply Hl, elem_of_cons. by right. }
  apply Hgen. intros. by apply dict_get_elem.
Qed.

(** C10: the JSON summary counts as an improvement every entry, whatever
    its account type, whose percentage is below [-1], and as a regression
    every entry whose percentage is above [5]; the markdown summary counts
    only the entries whose name contains [IthacaAccount], as improvements
    those with a percentage below [0] and as regressions those above [5]. *)
Theorem json_and_markdown_counts (sum : list float → float)
    (main_snap pr_snap : gmap string Z) (order : list string)
    (st : BenchmarkComparison) :
  enumerates order (all_tests (__init__ main_snap pr_snap)) →
  analyze order (__init__ main_snap pr_snap) = Ok st →
  improvements (summary (generate_json_data st)) =
    count_entries (λ _ d, pct_lt (-1) d) (comparisons st) ∧
  regressions (summary (generate_json_data st)) =
    count_entries (λ _ d, pct_gt 5 d) (comparisons st) ∧
  match markdown_summary sum st with
  | Some md =>
      md_ithaca_tests md =
        count_entries (λ t _, Str.contains "IthacaAccount" t) (comparisons st) ∧
      md_improvements md =
        count_entries (λ t d, Str.contains "IthacaAccount" t && pct_lt 0 d)
          (comparisons st) ∧
      md_regressions md =
        count_entries (λ t d, Str.contains "IthacaAccount" t && pct_gt 5 d)
          (comparisons st)
  | None =>
      count_entries (λ t _, Str.contains "IthacaAccount" t) (comparisons st)
      = 0%nat
  end.
Proof.
  intros [Hnd _] Hrun.
  pose proof (analyze_keys_NoDup _ _ _ _ Hnd Hrun) as Hkeys.
  split_and!.
  - simpl. by rewrite count_entries_filter.
  - simpl. by rewrite count_entries_filter.
  - unfold markdown_summary.
    rewrite count_entries_keys, <- !filter_keys_pct by done.
    by destruct (List.filter _ (keys (comparisons st))).
Qed.

Lemma json_and_markdown_counts_witness :
  improvements (summary (generate_json_data example_state)) = 2%nat ∧
  regressions (summary (generate_json_data example_state)) = 2%nat ∧
  ∃ md,
    markdown_summary (foldr Float.add (Float.of_int 0)) example_state
      = Some md ∧
    md_ithaca_tests md = 2%nat ∧
    md_improvements md = 0%nat ∧
    md_regressions md = 1%nat.
Proof.
  destruct (json_and_markdown_counts (foldr Float.add (Float.of_int 0))
              example_main example_pr example_order example_state
              example_order_enumerates example_run) as (Himp & Hreg & Hmd).
  split; [by rewrite Himp |]. split; [by rewrite Hreg |].
  destruct (markdown_summary _ _) as [md|] eqn:Hsome; [|by vm_compute in Hsome].
  exists md. destruct Hmd as (-> & -> & ->). by vm_compute.
Defined.

(** ** Filing tests under categories *)

Section DictForall.
Context {V : Type}.
Implicit Types (d : dict V) (k : string) (v : V).

Lemma Forall_dict_set (P : string * V → Prop) k v d :
  P (k, v) → Forall P d → Forall P (dict_set k v d).
Proof.
  intros Hkv Hd. apply Forall_forall. intros x [->|Hx]%dict_set_elem; [done |].
  by eapply Forall_forall in Hd.
Qed.

Lemma Forall_dict_get (P : string * V → Prop) k v d :
  Forall P d → dict_get k d = Some v → P (k, v).
Proof.
  intros Hd Hk%dict_get_Some_elem. by eapply Forall_forall in Hd.
Qed.

End DictForall.

Lemma dict_get_file_under (c b a : string) (d : TestComparison)
    (cats : Categories) (c' : string) :
  dict_get c' (file_under c b a d cats) =
  if decide (c' = c) then Some (file_in (dict_get c cats) b a d)
  else dict_get c' cats.
Proof. unfold file_under. by rewrite dict_get_set. Qed.

Lemma filed_file_under_other (c b a : string) (d : TestComparison)
    (cats : Categories) (c' b' a' : string) :
  a' ≠ a → filed (file_under c b a d cats) c' b' a' = filed cats c' b' a'.
Proof.
  intros Ha. unfold filed. rewrite dict_get_file_under.
  destruct (decide (c' = c)) as [->|]; [|done]. simpl.
  unfold file_in. rewrite dict_get_set.
  destruct (decide (b' = b)) as [->|]; simpl.
  - rewrite dict_get_set_ne by done.
    destruct (dict_get c cats) as [tests|]; simpl; [|done].
    by destruct (dict_get b tests).
  - by destruct (dict_get c cats).
Qed.

Lemma try_patterns_spec (pats : list Re.pattern) (c name a : string)
    (d : TestComparison) (cats : Categories) :
  try_patterns pats c name a d cats =
  if existsb (λ pattern, Re.search pattern name) pats
  then file_under c (base_test_of a name) a d cats
  else cats.
Proof.
  induction pats as [|p pats IH]; simpl; [done |].
  by destruct (Re.search p name).
Qed.

(** The loop over the categories tries every category: each category with
    a matching pattern receives the test, the others are left as they
    were. *)
Lemma try_categories_get (cs : dict Category) (name a : string)
    (d : TestComparison) (cats : Categories) (c : string) :
  NoDup (keys cs) →
  dict_get c
    (fold_left
       (λ cats' '(category_key, category_info),
          try_patterns (patterns category_info) category_key name a d cats')
       cs cats) =
  match dict_get c cs with
  | Some info =>
      if category_matches info name
      then Some (file_in (dict_get c cats) (base_test_of a name) a d)
      else dict_get c cats
  | None => dict_get c cats
  end.
Proof.
  unfold keys. revert cats.
  induction cs as [|[c1 info1] cs IH]; intros cats Hnd; [done |].
  apply NoDup_cons in Hnd as [Hc1 Hnd]. cbn [fold_left dict_get].
  rewrite IH by done. rewrite try_patterns_spec.
  fold (category_matches info1 name).
  destruct (decide (c = c1)) as [->|Hne].
  - assert (dict_get c1 cs = None) as -> by (by apply dict_get_None).
    destruct (category_matches info1 name); [|done].
    by rewrite dict_get_file_under, decide_True.
  - assert (dict_get c (if category_matches info1 name
                        then file_under c1 (base_test_of a name) a d cats
                        else cats) = dict_get c cats) as ->.
    { destruct (category_matches info1 name); [|done].
      by rewrite dict_get_file_under, decide_False. }
    done.
Qed.

Lemma CATEGORIES_NoDup : NoDup (keys CATEGORIES).
Proof. compute_done. Qed.

Lemma filed_file_in (tests : option (dict (dict TestComparison)))
    (b a : string) (d : TestComparison) :
  dict_get b (file_in tests b a d) ≫= dict_get a = Some d.
Proof.
  unfold file_in. rewrite dict_get_set_eq. simpl. apply dict_get_set_eq.
Qed.

(** The claim of C3 fails: the test [testERC20Transfer_IthacaAccount_AppSponsor]
    of the example snapshots matches a pattern of [single_transfer] and the
    pattern of [app_sponsor], and its data is filed under both categories,
    in the intermediate [categories] and in [ithaca_comparisons]. *)
Lemma test_filed_under_two_categories :
  ∃ d,
    analyze example_order (__init__ example_main example_pr)
      = Ok example_state ∧
    dict_get "testERC20Transfer_IthacaAccount_AppSponsor"
      (comparisons example_state) = Some d ∧
    account_type d = Some "IthacaAccount" ∧
    keys CATEGORIES !! 0%nat = Some "single_transfer" ∧
    keys CATEGORIES !! 3%nat = Some "app_sponsor" ∧
    filed (categorize (comparisons example_state))
      "single_transfer" "testERC20Transfer" "IthacaAccount" = Some d ∧
    filed (categorize (comparisons example_state))
      "app_sponsor" "testERC20Transfer" "IthacaAccount" = Some d ∧
    CategoryComparison.ithaca <$>
      entry_at (ithaca_comparisons example_state)
        "single_transfer" "testERC20Transfer" = Some d ∧
    CategoryComparison.ithaca <$>
      entry_at (ithaca_comparisons example_state)
        "app_sponsor" "testERC20Transfer" = Some d.
Proof. eexists. split_and!; by vm_compute. Qed.

(** C3, amended: for a test with an ASCII name and an account type of
    [ACCOUNT_TYPES] the loop tries every category of [CATEGORIES] in the
    declared order; within a category the scan of the patterns stops at
    the first one that matches.  So the test is filed, under its base
    test and account type, in every category one of whose patterns
    matches it (in both categories when the patterns of two categories
    match), and a category none of whose patterns matches is left as it
    was. *)
Theorem test_filed_under_each_matching_category (test_name : string)
    (data : TestComparison) (account : string) (categories : Categories)
    (category_key : string) (category_info : Category) :
  Str.is_ascii test_name = true →
  account_type data = Some account →
  account ∈ ACCOUNT_TYPES →
  dict_get category_key CATEGORIES = Some category_info →
  if category_matches category_info test_name
  then
    filed (categorize_test test_name data categories)
      category_key (base_test_of account test_name) account = Some data
  else
    dict_get category_key (categorize_test test_name data categories)
    = dict_get category_key categories.
Proof.
  intros _ Hacct Hknown Hcat.
  assert (account ≠ "") as Hne.
  { intros ->. unfold ACCOUNT_TYPES in Hknown.
    repeat (apply elem_of_cons in Hknown as [?|Hknown]; [done |]).
    by apply elem_of_nil in Hknown. }
  unfold categorize_test. rewrite Hacct.
  rewrite bool_decide_false by done.
  unfold filed, try_categories.
  rewrite (try_categories_get CATEGORIES) by apply CATEGORIES_NoDup.
  rewrite Hcat.
  destruct (category_matches category_info test_name); [|done].
  simpl. apply filed_file_in.
Qed.

Lemma test_filed_under_each_matching_category_witness :
  ∃ d,
    dict_get "testERC20Transfer_IthacaAccount_AppSponsor"
      (comparisons example_state) = Some d ∧
    filed (categorize_test "testERC20Transfer_IthacaAccount_AppSponsor" d [])
      "single_transfer" "testERC20Transfer" "IthacaAccount" = Some d ∧
    filed (categorize_test "testERC20Transfer_IthacaAccount_AppSponsor" d [])
      "app_sponsor" "testERC20Transfer" "IthacaAccount" = Some d ∧
    dict_get "uniswap"
      (categorize_test "testERC20Transfer_IthacaAccount_AppSponsor" d [])
      = None.
Proof.
  eexists. split; [by vm_compute |].
  set (d := {| main := 50 |}).
  assert (Str.is_ascii "testERC20Transfer_IthacaAccount_AppSponsor" = true)
    as Hascii by done.
  assert (account_type d = Some "IthacaAccount") as Hacct by done.
  assert ("IthacaAccount" ∈ ACCOUNT_TYPES) as Hne
    by (apply elem_of_cons; by left).
  split_and!.
  - by eapply (test_filed_under_each_matching_category
                 "testERC20Transfer_IthacaAccount_AppSponsor" d "IthacaAccount"
                 [] "single_transfer" _ Hascii Hacct Hne eq_refl).
  - by eapply (test_filed_under_each_matching_category
                 "testERC20Transfer_IthacaAccount_AppSponsor" d "IthacaAccount"
                 [] "app_sponsor" _ Hascii Hacct Hne eq_refl).
  - by eapply (test_filed_under_each_matching_category
                 "testERC20Transfer_IthacaAccount_AppSponsor" d "IthacaAccount"
                 [] "uniswap" _ Hascii Hacct Hne eq_refl).
Defined.

(** ** The comparison against the other accounts *)

Lemma compare_account_savings (ith : TestComparison) (a : string)
    (d : TestComparison) (comps : dict Savings) :
  compare_account ith (a, d) comps =
  if bool_decide (a ≠ "IthacaAccount")
  then s ←! savings_of ith d; Ok (dict_set a s comps)
  else Ok comps.
Proof.
  unfold compare_account, savings_of. case_bool_decide; [|done].
  destruct (savings_pct _ (pr d)); simpl; [|done].
  by destruct (savings_pct _ (main d)).
Qed.

Lemma compare_accounts_spec (ith : TestComparison)
    (accounts : dict TestComparison) (acc comps : dict Savings) :
  NoDup (keys accounts) →
  for_each (compare_account ith) accounts acc = Ok comps →
  ∀ a,
    match dict_get a accounts with
    | Some d =>
        if decide (a = "IthacaAccount") then dict_get a comps = dict_get a acc
        else ∃ s, savings_of ith d = Ok s ∧ dict_get a comps = Some s
    | None => dict_get a comps = dict_get a acc
    end.
Proof.
  unfold keys. revert acc.
  induction accounts as [|[a1 d1] accounts IH]; intros acc Hnd Hrun a.
  - simpl in *. by injection Hrun as <-.
  - apply NoDup_cons in Hnd as [Ha1 Hnd]. cbn [for_each] in Hrun.
    destruct (for_each_step_inv _ _ _ _ _ Hrun) as (acc1 & Hstep & Hrest).
    rewrite compare_account_savings in Hstep.
    specialize (IH acc1 Hnd Hrest a). cbn [dict_get].
    destruct (decide (a = a1)) as [->|Hne].
    + assert (dict_get a1 accounts = None) as Hnone by (by apply dict_get_None).
      rewrite Hnone in IH. rewrite IH.
      case_bool_decide as Hith.
      * rewrite decide_False by done.
        destruct (savings_of ith d1) as [s|]; simpl in Hstep; [|done].
        injection Hstep as <-. exists s. by rewrite dict_get_set_eq.
      * rewrite decide_True by done.
        by injection Hstep as <-.
    + assert (dict_get a acc1 = dict_get a acc) as Hacc.
      { case_bool_decide.
        - destruct (savings_of ith d1) as [s|]; simpl in Hstep; [|done].
          injection Hstep as <-. by rewrite dict_get_set_ne.
        - by injection Hstep as <-. }
      by rewrite Hacc in IH.
Qed.

Lemma entry_at_set (ic : dict (dict CategoryComparison.t)) (c b : string)
    (e : CategoryComparison.t) (c' b' : string) :
  entry_at (dict_set c (dict_set b e (default [] (dict_get c ic))) ic) c' b' =
  if decide (c' = c ∧ b' = b) then Some e else entry_at ic c' b'.
Proof.
  unfold entry_at. rewrite dict_get_set.
  destruct (decide (c' = c)) as [->|]; simpl.
  - rewrite dict_get_set. destruct (decide (b' = b)) as [->|].
    + by rewrite decide_True.
    + rewrite decide_False by tauto. by destruct (dict_get c ic).
  - by rewrite decide_False by tauto.
Qed.

Lemma entry_at_reset (ic : dict (dict CategoryComparison.t)) (c c' b' : string) :
  entry_at (dict_set c [] ic) c' b' =
  if decide (c' = c) then None else entry_at ic c' b'.
Proof.
  unfold entry_at. rewrite dict_get_set. by destruct (decide (c' = c)).
Qed.

Lemma compare_base_spec (c b : string) (accounts : dict TestComparison)
    (ic ic' : dict (dict CategoryComparison.t)) :
  compare_base c (b, accounts) ic = Ok ic' →
  match dict_get "IthacaAccount" accounts with
  | Some _ =>
      ∃ e, expected_entry accounts = Some e ∧
           ∀ c' b', entry_at ic' c' b' =
                    if decide (c' = c ∧ b' = b) then Some e
                    else entry_at ic c' b'
  | None => ic' = ic
  end.
Proof.
  unfold compare_base, expected_entry.
  destruct (dict_get "IthacaAccount" accounts) as [ith|]; [|by intros [= <-]].
  destruct (for_each (compare_account ith) accounts []) as [comps|]; simpl;
    [|done].
  intros [= <-]. eexists. split; [done |]. intros. apply entry_at_set.
Qed.

Lemma compare_bases_spec (c : string) (tests : dict (dict TestComparison))
    (ic ic' : dict (dict CategoryComparison.t)) :
  NoDup (keys tests) →
  for_each (compare_base c) tests ic = Ok ic' →
  ∀ c' b',
    entry_at ic' c' b' =
    if decide (c' = c) then
      match dict_get b' tests with
      | Some accounts =>
          match dict_get "IthacaAccount" accounts with
          | Some _ => expected_entry accounts
          | None => entry_at ic c' b'
          end
      | None => entry_at ic c' b'
      end
    else entry_at ic c' b'.
Proof.
  unfold keys. revert ic.
  induction tests as [|[b1 accounts1] tests IH]; intros ic Hnd Hrun c' b'.
  - simpl in *. injection Hrun as <-. by destruct (decide _).
  - apply NoDup_cons in Hnd as [Hb1 Hnd]. cbn [for_each] in Hrun.
    destruct (for_each_step_inv _ _ _ _ _ Hrun) as (ic1 & Hstep & Hrest).
    rewrite (IH ic1 Hnd Hrest). apply compare_base_spec in Hstep.
    cbn [dict_get].
    destruct (decide (c' = c)) as [->|Hc].
    + destruct (decide (b' = b1)) as [->|Hb].
      * assert (dict_get b1 tests = None) as -> by (by apply dict_get_None).
        destruct (dict_get "IthacaAccount" accounts1).
        -- destruct Hstep as (e & -> & Hat). by rewrite Hat, decide_True.
        -- by subst.
      * assert (entry_at ic1 c b' = entry_at ic c b') as ->; [|done].
        destruct (dict_get "IthacaAccount" accounts1).
        -- destruct Hstep as (e & _ & Hat). rewrite Hat.
           by rewrite decide_False by tauto.
        -- by subst.
    + destruct (dict_get "IthacaAccount" accounts1).
      * destruct Hstep as (e & _ & Hat). rewrite Hat.
        by rewrite decide_False by tauto.
      * by subst.
Qed.

Lemma expected_entry_None (accounts : dict TestComparison) :
  dict_get "IthacaAccount" accounts = None → expected_entry accounts = None.
Proof. unfold expected_entry. by intros ->. Qed.

Lemma compare_category_spec (c : string) (tests : dict (dict TestComparison))
    (ic ic' : dict (dict CategoryComparison.t)) :
  NoDup (keys tests) →
  compare_category (c, tests) ic = Ok ic' →
  ∀ c' b',
    entry_at ic' c' b' =
    if decide (c' = c) then dict_get b' tests ≫= expected_entry
    else entry_at ic c' b'.
Proof.
  intros Hnd Hrun c' b'. unfold compare_category in Hrun.
  rewrite (compare_bases_spec _ _ _ _ Hnd Hrun), entry_at_reset.
  destruct (decide (c' = c)); [|done].
  destruct (dict_get b' tests) as [accounts|]; simpl; [|done].
  destruct (dict_get "IthacaAccount" accounts) eqn:Hith; [done |].
  by rewrite expected_entry_None.
Qed.

Lemma compare_categories_spec (cats : Categories)
    (ic ic' : dict (dict CategoryComparison.t)) :
  wf_categories cats →
  for_each compare_category cats ic = Ok ic' →
  ∀ c b,
    entry_at ic' c b =
    match dict_get c cats with
    | Some tests => dict_get b tests ≫= expected_entry
    | None => entry_at ic c b
    end.
Proof.
  unfold wf_categories, keys. revert ic.
  induction cats as [|[c1 tests1] cats IH]; intros ic [Hnd Hwf] Hrun c b.
  - simpl in *. by injection Hrun as <-.
  - apply NoDup_cons in Hnd as [Hc1 Hnd]. apply Forall_cons in Hwf as [Hwf1 Hwf].
    cbn [for_each] in Hrun.
    destruct (for_each_step_inv _ _ _ _ _ Hrun) as (ic1 & Hstep & Hrest).
    rewrite (IH ic1 (conj Hnd Hwf) Hrest).
    apply compare_category_spec with (c' := c) (b' := b) in Hstep;
      [|apply Hwf1].
    cbn [dict_get]. destruct (decide (c = c1)) as [->|].
    + assert (dict_get c1 cats = None) as -> by (by apply dict_get_None).
      done.
    + by rewrite Hstep.
Qed.

Lemma filed_file_under (c b a : string) (d : TestComparison)
    (cats : Categories) (c' b' a' : string) :
  filed (file_under c b a d cats) c' b' a' =
  if decide (c' = c ∧ b' = b ∧ a' = a) then Some d else filed cats c' b' a'.
Proof.
  destruct (decide (a' = a)) as [->|Ha].
  - unfold filed. rewrite dict_get_file_under.
    destruct (decide (c' = c)) as [->|]; [|by rewrite decide_False by tauto].
    simpl. unfold file_in. rewrite dict_get_set.
    destruct (decide (b' = b)) as [->|]; simpl.
    + rewrite dict_get_set_eq. by rewrite decide_True.
    + rewrite decide_False by tauto. by destruct (dict_get c cats).
  - rewrite filed_file_under_other by done. by rewrite decide_False by tauto.
Qed.

Lemma wf_tests_nil : wf_tests [].
Proof. split; [apply NoDup_nil_2 | apply Forall_nil_2]. Qed.

Lemma wf_file_under (c b a : string) (d : TestComparison) (cats : Categories) :
  wf_categories cats → wf_categories (file_under c b a d cats).
Proof.
  intros [Hnd Hwf]. unfold file_under. split.
  - by apply NoDup_keys_dict_set.
  - apply Forall_dict_set; [|done].
    assert (wf_tests (default [] (dict_get c cats))) as [Hnd' Hwf'].
    { destruct (dict_get c cats) as [tests|] eqn:Hc; [|apply wf_tests_nil].
      apply (Forall_dict_get _ _ _ _ Hwf Hc). }
    split.
    + by apply NoDup_keys_dict_set.
    + apply Forall_dict_set; [|done]. apply NoDup_keys_dict_set.
      destruct (dict_get b _) as [accounts|] eqn:Hb; [|apply NoDup_nil_2].
      apply (Forall_dict_get _ _ _ _ Hwf' Hb).
Qed.

(** An invariant of the first loop of [_analyze_ithaca_comparisons] that
    filing preserves is kept by the loop. *)
Lemma categorize_invariant (I : Categories → Prop)
    (comps : dict TestComparison) :
  I [] →
  (∀ t d a c b cats,
     (t, d) ∈ comps → account_type d = Some a → I cats →
     I (file_under c b a d cats)) →
  I (categorize comps).
Proof.
  intros Hnil Hfile. unfold categorize.
  apply fold_left_invariant; [|done].
  intros [t d] cats Hin Hcats. unfold categorize_test.
  destruct (account_type d) as [a|] eqn:Ha; [|done].
  case_bool_decide; [done |]. unfold try_categories.
  apply fold_left_invariant; [|done].
  intros [c info] cats' _ Hcats'. rewrite try_patterns_spec.
  destruct (existsb _ _); [|done]. by eapply Hfile.
Qed.

Lemma categorize_wf (comps : dict TestComparison) :
  wf_categories (categorize comps).
Proof.
  apply categorize_invariant.
  - split; [apply NoDup_nil_2 | apply Forall_nil_2].
  - intros. by apply wf_file_under.
Qed.

Lemma categorize_filed (comps : dict TestComparison) (c b a : string)
    (d : TestComparison) :
  filed (categorize comps) c b a = Some d →
  account_type d = Some a ∧ ∃ t, (t, d) ∈ comps.
Proof.
  revert c b a d.
  apply (categorize_invariant
           (λ cats, ∀ c b a d, filed cats c b a = Some d →
                               account_type d = Some a ∧ ∃ t, (t, d) ∈ comps)).
  - done.
  - intros t d a c b cats Hin Ha Hcats c' b' a' d'.
    rewrite filed_file_under. destruct (decide _) as [(_ & _ & ->)|].
    + intros [= <-]. eauto.
    + apply Hcats.
Qed.

Lemma analyze_account_type (main_snap pr_snap : gmap string Z)
    (order : list string) (st : BenchmarkComparison) (t : string)
    (d : TestComparison) :
  analyze order (__init__ main_snap pr_snap) = Ok st →
  (t, d) ∈ comparisons st →
  account_type d = get_account_type t.
Proof.
  intros [Hloop _]%analyze_inv. revert Hloop. cbn [comparisons __init__].
  intros Hloop.
  assert (Forall (λ '(t, d), account_type d = get_account_type t)
            (comparisons st)) as Hall.
  { eapply (for_each_invariant _
              (Forall (λ '(t, d), account_type d = get_account_type t)));
      [| |exact Hloop]; [|done].
    intros x acc acc' _ Hacc. rewrite analyze_test_recorded.
    unfold recorded_entry. destruct (_ && _); simpl; [by intros [= <-] |].
    destruct (calculate_change _ _) as [[??]|]; simpl; [|done].
    intros [= <-].
    by apply (Forall_dict_set
                (λ '(t, d), account_type d = get_account_type t)). }
  intros Hin. rewrite Forall_forall in Hall. by apply (Hall (t, d)).
Qed.

Lemma analyze_entry_at (order : list string) (self st : BenchmarkComparison)
    (c b : string) :
  analyze order self = Ok st →
  ithaca_comparisons self = [] →
  entry_at (ithaca_comparisons st) c b =
  (dict_get c (categorize (comparisons st)) ≫= dict_get b) ≫= expected_entry.
Proof.
  intros [_ Hic]%analyze_inv Hnil. rewrite Hnil in Hic.
  rewrite (compare_categories_spec _ _ _ (categorize_wf _) Hic).
  by destruct (dict_get c _).
Qed.

Lemma for_each_elem_ok {A S} (body : A → S → result S) (xs : list A)
    (s s' : S) (x : A) :
  for_each body xs s = Ok s' → x ∈ xs → ∃ t t', body x t = Ok t'.
Proof.
  revert s. induction xs as [|y xs IH]; intros s Hrun Hin.
  - by apply elem_of_nil in Hin.
  - cbn [for_each] in Hrun.
    destruct (for_each_step_inv _ _ _ _ _ Hrun) as (t & Hstep & Hrest).
    apply elem_of_cons in Hin as [->|Hin]; [eauto | by eapply IH].
Qed.

Lemma analyze_expected_entry (order : list string)
    (self st : BenchmarkComparison) (c b : string)
    (accounts : dict TestComparison) :
  analyze order self = Ok st →
  dict_get c (categorize (comparisons st)) ≫= dict_get b = Some accounts →
  is_Some (dict_get "IthacaAccount" accounts) →
  is_Some (expected_entry accounts).
Proof.
  intros [_ Hic]%analyze_inv Hfiled Hith.
  destruct (dict_get c (categorize (comparisons st))) as [tests|] eqn:Hc;
    [|done].
  simpl in Hfiled.
  apply dict_get_Some_elem in Hc, Hfiled.
  destruct (for_each_elem_ok _ _ _ _ _ Hic Hc) as (ic1 & ic2 & Hcat).
  unfold compare_category in Hcat.
  destruct (for_each_elem_ok _ _ _ _ _ Hcat Hfiled) as (ic3 & ic4 & Hbase).
  apply compare_base_spec in Hbase. destruct Hith as [ith Hith].
  rewrite Hith in Hbase. destruct Hbase as (e & -> & _). eauto.
Qed.

Lemma categorize_accounts_NoDup (comps : dict TestComparison) (c b : string)
    (accounts : dict TestComparison) :
  dict_get c (categorize comps) ≫= dict_get b = Some accounts →
  NoDup (keys accounts).
Proof.
  intros Hfiled. destruct (categorize_wf comps) as [_ Hwf].
  destruct (dict_get c (categorize comps)) as [tests|] eqn:Hc; [|done].
  simpl in Hfiled.
  destruct (Forall_dict_get _ _ _ _ Hwf Hc) as [_ Hwf'].
  apply (Forall_dict_get _ _ _ _ Hwf' Hfiled).
Qed.

Lemma savings_pct_spec (diff_abs value : Z) (pct : number) :
  savings_pct diff_abs value = Ok pct →
  if 0 <? value
  then ∃ q, Float.int_true_div diff_abs value = Ok q ∧
            pct = Flt (Float.mul q (Float.of_int 100))
  else pct = Int 0.
Proof.
  unfold savings_pct. destruct (0 <? value); [|by intros [= <-]].
  destruct (Float.int_true_div diff_abs value) as [q|]; simpl; [|done].
  intros [= <-]. eauto.
Qed.

(** C7: where the candidate account is among the accounts of a category
    and base test, an entry is stored for them, and its savings records
    are exactly those of the competitors, with
    [pr_savings_abs = competitor_pr - candidate_pr],
    [pr_savings_pct = pr_savings_abs / competitor_pr * 100] when
    [competitor_pr > 0] and [0] otherwise, the same on the main side, and
    [improvement = pr_savings_pct - main_savings_pct]. *)
Theorem savings_record_formulas (main_snap pr_snap : gmap string Z)
    (order : list string) (st : BenchmarkComparison)
    (category_key base_test : string) (accounts : dict TestComparison)
    (candidate : TestComparison) :
  analyze order (__init__ main_snap pr_snap) = Ok st →
  dict_get category_key (categorize (comparisons st)) ≫= dict_get base_test
    = Some accounts →
  dict_get "IthacaAccount" accounts = Some candidate →
  ∃ entry,
    entry_at (ithaca_comparisons st) category_key base_test = Some entry ∧
    CategoryComparison.ithaca entry = candidate ∧
    ∀ account,
      match dict_get account (CategoryComparison.comparisons entry) with
      | Some s =>
          account ≠ "IthacaAccount" ∧
          ∃ competitor,
            dict_get account accounts = Some competitor ∧
            pr_savings_abs s = pr competitor - pr candidate ∧
            (if 0 <? pr competitor
             then ∃ q,
                 Float.int_true_div (pr_savings_abs s) (pr competitor) = Ok q ∧
                 pr_savings_pct s = Flt (Float.mul q (Float.of_int 100))
             else pr_savings_pct s = Int 0) ∧
            main_savings_abs s = main competitor - main candidate ∧
            (if 0 <? main competitor
             then ∃ q,
                 Float.int_true_div (main_savings_abs s) (main competitor)
                   = Ok q ∧
                 main_savings_pct s = Flt (Float.mul q (Float.of_int 100))
             else main_savings_pct s = Int 0) ∧
            improvement s = number_sub (pr_savings_pct s) (main_savings_pct s)
      | None =>
          account = "IthacaAccount" ∨ dict_get account accounts = None
      end.
Proof.
  intros Hrun Hfiled Hith.
  pose proof (analyze_entry_at _ _ _ category_key base_test Hrun eq_refl)
    as Hat.
  rewrite Hfiled in Hat. simpl in Hat.
  destruct (analyze_expected_entry _ _ _ _ _ _ Hrun Hfiled) as [entry He];
    [by eauto |].
  rewrite He in Hat. exists entry. split; [done |].
  unfold expected_entry in He. rewrite Hith in He.
  destruct (for_each (compare_account candidate) accounts []) as [comps|]
    eqn:Hcomps; [|done].
  injection He as <-. split; [done |]. cbn [CategoryComparison.comparisons].
  intros account.
  pose proof (compare_accounts_spec _ _ _ _
                (categorize_accounts_NoDup _ _ _ _ Hfiled) Hcomps account)
    as Hspec.
  destruct (dict_get account accounts) as [competitor|] eqn:Hacc.
  - destruct (decide (account = "IthacaAccount")) as [->|Hne].
    + rewrite Hspec. simpl. by left.
    + destruct Hspec as (s & Hs & ->). split; [done |].
      exists competitor. split; [done |].
      unfold savings_of in Hs.
      destruct (savings_pct _ (pr competitor)) as [ppct|] eqn:Hp;
        simpl in Hs; [|done].
      destruct (savings_pct _ (main competitor)) as [mpct|] eqn:Hm;
        simpl in Hs; [|done].
      injection Hs as <-. simpl.
      apply savings_pct_spec in Hp, Hm. by split_and!.
  - rewrite Hspec. simpl. by right.
Qed.

Lemma savings_record_formulas_witness :
  ∃ entry s,
    entry_at (ithaca_comparisons example_state)
      "single_transfer" "testERC20Transfer" = Some entry ∧
    dict_get "Safe4337" (CategoryComparison.comparisons entry) = Some s ∧
    pr_savings_abs s = 180 - 50 ∧
    main_savings_abs s = 200 - 50 ∧
    improvement s = number_sub (pr_savings_pct s) (main_savings_pct s).
Proof.
  destruct (savings_record_formulas example_main example_pr example_order
              example_state "single_transfer" "testERC20Transfer"
              ltac:(let v := eval vm_compute in
                      (default []
                         (dict_get "single_transfer"
                            (categorize (comparisons example_state))
                            ≫= dict_get "testERC20Transfer"))
                    in exact v)
              ltac:(let v := eval vm_compute in
                      (default (Build_TestComparison 0 0 0 (S754_zero false) None)
                         (filed (categorize (comparisons example_state))
                            "single_transfer" "testERC20Transfer"
                            "IthacaAccount"))
                    in exact v)
              example_run eq_refl eq_refl)
    as (entry & Hentry & _ & Hall).
  specialize (Hall "Safe4337").
  assert (CategoryComparison.comparisons entry
          = CategoryComparison.comparisons
              (default entry
                 (entry_at (ithaca_comparisons example_state)
                    "single_transfer" "testERC20Transfer"))) as Heq.
  { by rewrite Hentry. }
  destruct (dict_get "Safe4337" (CategoryComparison.comparisons entry))
    as [s|] eqn:Hs.
  - destruct Hall as (_ & competitor & Hc & Hpr & _ & Hmain & _ & Himp).
    injection Hc as <-. by exists entry, s.
  - rewrite Heq in Hs. by vm_compute in Hs.
Defined.

Lemma expected_entry_keys (accounts : dict TestComparison)
    (entry : CategoryComparison.t) (a : string) :
  NoDup (keys accounts) →
  expected_entry accounts = Some entry →
  is_Some (dict_get a (CategoryComparison.comparisons entry)) →
  is_Some (dict_get a accounts).
Proof.
  intros Hnd He [s Hs]. unfold expected_entry in He.
  destruct (dict_get "IthacaAccount" accounts) as [ith|]; [|done].
  destruct (for_each (compare_account ith) accounts []) as [comps|] eqn:Hcomps;
    [|done].
  injection He as <-. simpl in Hs.
  pose proof (compare_accounts_spec _ _ _ _ Hnd Hcomps a) as Hspec.
  destruct (dict_get a accounts); [eauto |].
  by rewrite Hs in Hspec.
Qed.

(** C9: [get_account_type] never returns [IthacaAccountWithSpendLimits],
    because [IthacaAccount] is declared before it and occurs in it; so no
    entry of [comparisons] has this account type and it is never a key of
    the accounts of a category nor of a savings record. *)
Theorem spend_limits_never_resolved (main_snap pr_snap : gmap string Z)
    (order : list string) (st : BenchmarkComparison) :
  analyze order (__init__ main_snap pr_snap) = Ok st →
  "IthacaAccountWithSpendLimits" ∈ ACCOUNT_TYPES ∧
  (∀ test_name,
     get_account_type test_name ≠ Some "IthacaAccountWithSpendLimits") ∧
  (∀ test_name d,
     dict_get test_name (comparisons st) = Some d →
     account_type d ≠ Some "IthacaAccountWithSpendLimits") ∧
  (∀ category_key base_test,
     filed (categorize (comparisons st)) category_key base_test
       "IthacaAccountWithSpendLimits" = None) ∧
  (∀ category_key base_test entry,
     entry_at (ithaca_comparisons st) category_key base_test = Some entry →
     dict_get "IthacaAccountWithSpendLimits"
       (CategoryComparison.comparisons entry) = None).
Proof.
  intros Hrun.
  assert (∀ c b, filed (categorize (comparisons st)) c b
                   "IthacaAccountWithSpendLimits" = None) as Hfiled.
  { intros c b. destruct (filed _ c b _) as [d|] eqn:Hd; [|done].
    apply categorize_filed in Hd as [Hacct [t Hin]].
    rewrite (analyze_account_type _ _ _ _ _ _ Hrun Hin) in Hacct.
    by apply get_account_type_never_spend_limits in Hacct. }
  split_and!.
  - compute_done.
  - apply get_account_type_never_spend_limits.
  - intros t d Hin%dict_get_Some_elem.
    rewrite (analyze_account_type _ _ _ _ _ _ Hrun Hin).
    apply get_account_type_never_spend_limits.
  - done.
  - intros c b entry Hat.
    rewrite (analyze_entry_at _ _ _ c b Hrun eq_refl) in Hat.
    destruct (dict_get c (categorize (comparisons st)) ≫= dict_get b)
      as [accounts|] eqn:Haccounts; [|done].
    simpl in Hat.
    destruct (dict_get _ (CategoryComparison.comparisons entry)) as [s|]
      eqn:Hs; [|done].
    destruct (expected_entry_keys accounts entry "IthacaAccountWithSpendLimits")
      as [d Hd]; [by eapply categorize_accounts_NoDup | done | eauto |].
    specialize (Hfiled c b). unfold filed in Hfiled.
    destruct (dict_get c (categorize (comparisons st))); [|done].
    simpl in *. rewrite Haccounts in Hfiled. simpl in Hfiled. congruence.
Qed.

Lemma spend_limits_never_resolved_witness :
  get_account_type "testERC20Transfer_IthacaAccountWithSpendLimits"
    = Some "IthacaAccount" ∧
  ∀ category_key base_test,
    filed (categorize (comparisons example_state)) category_key base_test
      "IthacaAccountWithSpendLimits" = None.
Proof.
  split; [done |].
  by destruct (spend_limits_never_resolved example_main example_pr
                 example_order example_state example_run)
    as (_ & _ & _ & Hfiled & _).
Defined.

(** ** The regression gate *)

Lemma SFcompare_antisym (x y : float) (c : comparison) :
  SFcompare x y = Some c → SFcompare y x = Some (CompOpp c).
Proof.
  destruct x as [sx|sx| |sx mx ex], y as [sy|sy| |sy my ey]; simpl;
    try done; try (intros [= <-]; by repeat case_match).
  intros [= <-]. f_equal.
  destruct sx, sy; try done; rewrite (Z.compare_antisym ex ey);
    destruct (ex ?= ey); simpl; try done;
    by rewrite !Pos.compare_cont_antisym.
Qed.

(** [not (p > t)] is [p <= t] as soon as [p > t / 2] holds: none of the
    two numbers is then a NaN. *)
Lemma not_gt_le (p t : float) :
  Float.gt p (Float.div t (Float.of_int 2)) = true →
  negb (Float.gt p t) = Float.le p t.
Proof.
  unfold Float.gt, Float.le, Float.div, SFltb, SFleb.
  destruct (SFcompare (SFdiv _ _ t _) p) as [[]|] eqn:Hhalf; try done.
  intros _.
  assert (∃ c, SFcompare t p = Some c) as [c Hc].
  { assert (p ≠ S754_nan) as Hp.
    { intros ->. by destruct (SFdiv _ _ t _). }
    assert (t ≠ S754_nan) as Ht by (by intros ->).
    destruct t as [| | |], p as [| | |]; try done; simpl; eauto. }
  rewrite Hc, (SFcompare_antisym _ _ _ Hc). by destruct c.
Qed.

Lemma omap_cons_option_list {A B} (f : A → option B) (x : A) (l : list A) :
  omap f (x :: l) = (option_list (f x) ++ omap f l)%list.
Proof. csimpl. by destruct (f x). Qed.

Lemma check_test_spec (threshold : float) (t : string) (d : TestComparison)
    (regs warns : list Gate.Finding.t) :
  Gate.check_test threshold (regs, warns) (t, d) =
  ((regs ++ option_list (regression_of threshold (t, d)))%list,
   (warns ++ option_list (warning_of threshold (t, d)))%list).
Proof.
  unfold Gate.check_test, regression_of, warning_of.
  destruct (Str.contains "IthacaAccount" t); simpl;
    [|by rewrite !app_nil_r].
  destruct (Float.gt (percentage d) threshold); simpl;
    [by rewrite app_nil_r |].
  destruct (Float.gt (percentage d) _); simpl; by rewrite !app_nil_r.
Qed.

Lemma check_tests_spec (threshold : float) (comps : dict TestComparison)
    (regs warns : list Gate.Finding.t) :
  fold_left (Gate.check_test threshold) comps (regs, warns) =
  ((regs ++ omap (regression_of threshold) comps)%list,
   (warns ++ omap (warning_of threshold) comps)%list).
Proof.
  revert regs warns.
  induction comps as [|[t d] comps IH]; intros regs warns.
  - simpl. by rewrite !app_nil_r.
  - cbn [fold_left].
    by rewrite check_test_spec, IH, <- !app_assoc, !omap_cons_option_list.
Qed.

Lemma regression_of_Some (threshold : float) (t : string) (d : TestComparison)
    (f : Gate.Finding.t) :
  regression_of threshold (t, d) = Some f ↔
  Str.contains "IthacaAccount" t = true ∧
  Float.gt (percentage d) threshold = true ∧
  f = {| Gate.Finding.test := t;
         Gate.Finding.change := percentage d;
         Gate.Finding.absolute := absolute d;
         Gate.Finding.main := Some (main d);
         Gate.Finding.pr := Some (pr d) |}.
Proof.
  unfold regression_of.
  destruct (Str.contains _ t), (Float.gt _ threshold); simpl;
    split; try done; try (by intros (? & ? & ?)).
  - by intros [= <-].
  - by intros (_ & _ & ->).
Qed.

Lemma warning_of_Some (threshold : float) (t : string) (d : TestComparison)
    (f : Gate.Finding.t) :
  warning_of threshold (t, d) = Some f ↔
  Str.contains "IthacaAccount" t = true ∧
  (Float.gt (percentage d) (Float.div threshold (Float.of_int 2)) = true ∧
   Float.le (percentage d) threshold = true) ∧
  f = {| Gate.Finding.test := t;
         Gate.Finding.change := percentage d;
         Gate.Finding.absolute := absolute d;
         Gate.Finding.main := None;
         Gate.Finding.pr := None |}.
Proof.
  unfold warning_of.
  destruct (Float.gt (percentage d) (Float.div _ _)) eqn:Hhalf.
  - rewrite (not_gt_le _ _ Hhalf).
    destruct (Str.contains _ t), (Float.le _ threshold); simpl;
      split; try done; try (by intros (? & [? ?] & ?)).
    + by intros [= <-].
    + by intros (_ & _ & ->).
  - rewrite andb_false_r. split; [done | by intros (? & [? ?] & ?)].
Qed.

Lemma gate_exit_code (sum : list float → float) (loaded : dict TestComparison)
    (threshold : float) :
  Gate.regressions (Gate.check_regressions sum loaded threshold)
    = omap (regression_of threshold) loaded ∧
  Gate.warnings (Gate.check_regressions sum loaded threshold)
    = omap (warning_of threshold) loaded ∧
  Gate.exit_code (Gate.check_regressions sum loaded threshold)
    = match omap (regression_of threshold) loaded with [] => 0 | _ => 1 end.
Proof. unfold Gate.check_regressions. by rewrite check_tests_spec. Qed.

(** C2: the gate lists a candidate-account test as a regression exactly
    when its percentage is above the threshold, as a warning exactly when
    it is above half the threshold and at most the threshold, and not at
    all otherwise; only candidate-account tests are listed; the exit code
    is 1 exactly when there is a regression and 0 otherwise, whatever the
    mean change and the line printed about it are. *)
Theorem gate_classification (sum sum' : list float → float)
    (loaded : dict TestComparison) (threshold : float) :
  (∀ t d,
     (t, d) ∈ loaded → Str.contains "IthacaAccount" t = true →
     (listed (Gate.regressions (Gate.check_regressions sum loaded threshold))
        t d
      ↔ Float.gt (percentage d) threshold = true) ∧
     (listed (Gate.warnings (Gate.check_regressions sum loaded threshold))
        t d
      ↔ Float.gt (percentage d) (Float.div threshold (Float.of_int 2)) = true
        ∧ Float.le (percentage d) threshold = true)) ∧
  (∀ f,
     f ∈ Gate.regressions (Gate.check_regressions sum loaded threshold) ∨
     f ∈ Gate.warnings (Gate.check_regressions sum loaded threshold) →
     Str.contains "IthacaAccount" (Gate.Finding.test f) = true ∧
     ∃ d, (Gate.Finding.test f, d) ∈ loaded) ∧
  (Gate.exit_code (Gate.check_regressions sum loaded threshold) = 1
   ↔ ∃ t d, (t, d) ∈ loaded ∧ Str.contains "IthacaAccount" t = true ∧
            Float.gt (percentage d) threshold = true) ∧
  (Gate.exit_code (Gate.check_regressions sum loaded threshold) = 0
   ∨ Gate.exit_code (Gate.check_regressions sum loaded threshold) = 1) ∧
  Gate.exit_code (Gate.check_regressions sum' loaded threshold)
  = Gate.exit_code (Gate.check_regressions sum loaded threshold).
Proof.
  destruct (gate_exit_code sum loaded threshold) as (-> & -> & ->).
  destruct (gate_exit_code sum' loaded threshold) as (_ & _ & ->).
  split_and!.
  - intros t d Hin Hname. unfold listed. split; split.
    + intros (f & Hf & _ & Hchange & _).
      apply list_elem_of_omap in Hf as ([t' d'] & _ & Hf).
      apply regression_of_Some in Hf as (_ & Hgt & ->).
      simpl in Hchange. by rewrite <- Hchange.
    + intros Hgt. eexists. split.
      * apply list_elem_of_omap. exists (t, d). split; [done |].
        by apply regression_of_Some.
      * done.
    + intros (f & Hf & _ & Hchange & _).
      apply list_elem_of_omap in Hf as ([t' d'] & _ & Hf).
      apply warning_of_Some in Hf as (_ & Hw & ->).
      simpl in Hchange. by rewrite <- Hchange.
    + intros Hw. eexists. split.
      * apply list_elem_of_omap. exists (t, d). split; [done |].
        by apply warning_of_Some.
      * done.
  - intros f [Hf|Hf]; apply list_elem_of_omap in Hf as ([t d] & Hin & Hf).
    + apply regression_of_Some in Hf as (Hname & _ & ->). simpl. eauto.
    + apply warning_of_Some in Hf as (Hname & _ & ->). simpl. eauto.
  - destruct (omap (regression_of threshold) loaded) as [|f regs] eqn:Hregs.
    + split; [done |]. intros (t & d & Hin & Hname & Hgt).
      assert (regression_of threshold (t, d) ∈
                Some <$> omap (regression_of threshold) loaded) as Hf.
      { destruct (regression_of threshold (t, d)) as [f|] eqn:Hf.
        - apply list_elem_of_fmap. exists f. split; [done |].
          apply list_elem_of_omap. by exists (t, d).
        - exfalso. assert (is_Some (regression_of threshold (t, d))) as [? ?];
            [|congruence].
          eexists. by apply regression_of_Some. }
      rewrite Hregs in Hf. by apply elem_of_nil in Hf.
    + split; [|done]. intros _.
      assert (f ∈ omap (regression_of threshold) loaded) as Hf.
      { rewrite Hregs. apply elem_of_cons. by left. }
      apply list_elem_of_omap in Hf as ([t d] & Hin & Hf).
      apply regression_of_Some in Hf as (Hname & Hgt & _). eauto.
  - destruct (omap (regression_of threshold) loaded); auto.
  - done.
Qed.

(** ** The bar charts *)

Lemma running_min_Some (m : Z) (l : list Z) :
  ∃ v, running_min (Some m) l = Some v ∧ v <= m ∧
       (v = m ∨ v ∈ l) ∧ ∀ w, w ∈ l → v <= w.
Proof.
  unfold running_min. revert m.
  induction l as [|x l IH]; intros m; cbn [fold_left].
  - exists m. split_and!; [done | lia | by left |].
    intros w Hw. by apply elem_of_nil in Hw.
  - destruct (IH (if x <? m then x else m)) as (v & -> & Hle & Hin & Hmin).
    exists v. split; [done |].
    destruct (Z.ltb_spec x m); split_and!.
    + lia.
    + destruct Hin as [->|?]; right; apply elem_of_cons; auto.
    + intros w [->|?]%elem_of_cons; auto.
    + lia.
    + destruct Hin as [->|?]; [by left |]. right. apply elem_of_cons. auto.
    + intros w [->|?]%elem_of_cons; [lia | auto].
Qed.

Lemma running_min_None (l : list Z) :
  match running_min None l with
  | Some v => is_minimum v l
  | None => l = []
  end.
Proof.
  destruct l as [|x l]; [done |].
  unfold running_min. cbn [fold_left].
  destruct (running_min_Some x l) as (v & Hv & Hle & Hin & Hmin).
  unfold running_min in Hv. rewrite Hv. split.
  - apply elem_of_cons. destruct Hin; auto.
  - intros w [->|?]%elem_of_cons; auto.
Qed.

Lemma running_min_app (start : option Z) (l1 l2 : list Z) :
  running_min start (l1 ++ l2) = running_min (running_min start l1) l2.
Proof. unfold running_min. by rewrite fold_left_app. Qed.

Lemma add_test_get (f : string → bool) (acc : dict Z) (t : string)
    (d : TestComparison) (a : string) :
  dict_get a (Charts.add_test f acc (t, d)) =
  running_min (dict_get a acc) (matching_gas f a [(t, d)]).
Proof.
  unfold Charts.add_test, matching_gas, running_min. csimpl.
  destruct (f t); simpl; [|done].
  destruct (Charts.truthy_account d) as [a'|]; [|done].
  destruct (decide (a' = a)) as [->|Hne].
  - rewrite bool_decide_true by done. simpl.
    destruct (dict_get a acc) as [m|] eqn:Hacc; simpl.
    + destruct (pr d <? m); [by rewrite dict_get_set_eq | done].
    + by rewrite dict_get_set_eq.
  - rewrite bool_decide_false by congruence. simpl.
    destruct (dict_get a' acc) as [m|].
    + destruct (pr d <? m); [by rewrite dict_get_set_ne | done].
    + by rewrite dict_get_set_ne.
Qed.

Lemma matching_gas_cons (f : string → bool) (a : string)
    (x : string * TestComparison) (loaded : dict TestComparison) :
  matching_gas f a (x :: loaded) =
  (matching_gas f a [x] ++ matching_gas f a loaded)%list.
Proof.
  unfold matching_gas. rewrite !omap_cons_option_list. simpl.
  by rewrite app_nil_r.
Qed.

Lemma chart_data_get (f : string → bool) (loaded : dict TestComparison)
    (acc : dict Z) (a : string) :
  dict_get a (fold_left (Charts.add_test f) loaded acc) =
  running_min (dict_get a acc) (matching_gas f a loaded).
Proof.
  revert acc. induction loaded as [|[t d] loaded IH]; intros acc; [done |].
  cbn [fold_left]. rewrite IH, add_test_get.
  by rewrite (matching_gas_cons f a (t, d) loaded), running_min_app.
Qed.

Lemma chart_data_NoDup (f : string → bool) (loaded : dict TestComparison) :
  NoDup (keys (Charts.chart_data_of f loaded)).
Proof.
  unfold Charts.chart_data_of.
  apply (fold_left_invariant _ (λ acc : dict Z, NoDup (keys acc)));
    [|apply NoDup_nil_2].
  intros [t d] acc _ Hacc. unfold Charts.add_test.
  destruct (f t); [|done].
  destruct (Charts.truthy_account d) as [a|]; [|done].
  destruct (dict_get a acc) as [m|]; [destruct (pr d <? m) |];
    try done; by apply NoDup_keys_dict_set.
Qed.

Lemma insert_by_value_perm (x : string * Z) (xs : list (string * Z)) :
  Charts.insert_by_value x xs ≡ₚ x :: xs.
Proof.
  induction xs as [|y ys IH]; simpl; [done |].
  destruct (y.2 <? x.2); [|done].
  rewrite IH. apply perm_swap.
Qed.

Lemma sorted_by_value_perm (xs : list (string * Z)) :
  Charts.sorted_by_value xs ≡ₚ xs.
Proof.
  induction xs as [|x xs IH]; simpl; [done |].
  by rewrite insert_by_value_perm, IH.
Qed.

Lemma chart_bars_spec (data : dict Z) (title : string) :
  match Charts.chart_bars data title with
  | Some chart => Charts.bars chart ≡ₚ data ∧ data ≠ []
  | None => data = []
  end.
Proof.
  unfold Charts.chart_bars.
  pose proof (sorted_by_value_perm data) as Hperm.
  destruct (Charts.sorted_by_value data) as [|x xs] eqn:Hsorted.
  - by apply Permutation_nil_l in Hperm.
  - simpl. split; [done |]. intros ->. by apply Permutation_nil_r in Hperm.
Qed.

(** When [generate_svg_bar_chart] returns, it returns the chart of the
    bars. *)
Lemma generate_svg_bar_chart_Ok (data : dict Z) (title : string)
    (svg_content : option Charts.BarChart) :
  Charts.generate_svg_bar_chart data title = Ok svg_content →
  svg_content = Charts.chart_bars data title.
Proof.
  unfold Charts.generate_svg_bar_chart.
  destruct (Charts.chart_bars data title) as [chart|]; [|by intros [= <-]].
  destruct (Charts.grid_values _) as [grid|]; simpl; [|done].
  destruct (map_each _ _) as [heights|]; simpl; [|done].
  by intros [= <-].
Qed.

Lemma write_chart_spec (loaded : dict TestComparison)
    (files files' : dict (option Charts.BarChart))
    (op : string * (string → bool)) :
  Charts.write_chart loaded op files = Ok files' →
  files' =
  match chart_for loaded op with
  | Some svg_content => dict_set (chart_file op) svg_content files
  | None => files
  end.
Proof.
  destruct op as [op_name f]. unfold Charts.write_chart, chart_for. simpl.
  destruct (Charts.chart_data_of f loaded) as [|x data]; [by intros [= <-] |].
  destruct (Charts.generate_svg_bar_chart _ _) as [svg_content|] eqn:Hgen;
    simpl; [|done].
  intros [= <-]. by apply generate_svg_bar_chart_Ok in Hgen as ->.
Qed.

Lemma write_charts_other (loaded : dict TestComparison)
    (ops : dict (string → bool)) (files files' : dict (option Charts.BarChart))
    (ended : option exn) (file : string) :
  file ∉ chart_file <$> ops →
  for_each_kept (Charts.write_chart loaded) ops files = (files', ended) →
  dict_get file files' = dict_get file files.
Proof.
  revert files. induction ops as [|op ops IH]; intros files Hfile.
  - by intros [= <- _].
  - rewrite fmap_cons in Hfile. apply not_elem_of_cons in Hfile as [Hne Hfile].
    cbn [for_each_kept].
    destruct (Charts.write_chart loaded op files) as [files1|e] eqn:Hstep;
      [|by intros [= <- _]].
    intros Hrest. rewrite (IH _ Hfile Hrest).
    apply write_chart_spec in Hstep as ->.
    destruct (chart_for loaded op); [|done]. by rewrite dict_get_set_ne.
Qed.

(** What a run leaves in the file of an operation type: the chart of that
    type, or nothing; in a run that completes, nothing only when there
    is no chart to write. *)
Lemma write_charts_get (loaded : dict TestComparison)
    (ops : dict (string → bool)) (files files' : dict (option Charts.BarChart))
    (ended : option exn) (op : string * (string → bool)) :
  NoDup (chart_file <$> ops) →
  op ∈ ops →
  dict_get (chart_file op) files = None →
  for_each_kept (Charts.write_chart loaded) ops files = (files', ended) →
  match dict_get (chart_file op) files' with
  | Some svg_content => chart_for loaded op = Some svg_content
  | None => ended = None → chart_for loaded op = None
  end.
Proof.
  revert files. induction ops as [|op1 ops IH]; intros files Hnd Hin Hnone.
  - by apply elem_of_nil in Hin.
  - rewrite fmap_cons in Hnd. apply NoDup_cons in Hnd as [Hop1 Hnd].
    cbn [for_each_kept].
    destruct (Charts.write_chart loaded op1 files) as [files1|e] eqn:Hstep.
    + apply write_chart_spec in Hstep as ->. intros Hrest.
      apply elem_of_cons in Hin as [->|Hin].
      * rewrite (write_charts_other _ _ _ _ _ _ Hop1 Hrest).
        destruct (chart_for loaded op1) as [svg_content|].
        -- by rewrite dict_get_set_eq.
        -- by rewrite Hnone.
      * eapply IH; [done | done | | exact Hrest].
        destruct (chart_for loaded op1); [|done].
        rewrite dict_get_set_ne; [done |].
        intros Heq. apply Hop1. rewrite <- Heq.
        apply list_elem_of_fmap. by exists op.
    + intros [= <- <-]. by rewrite Hnone.
Qed.

Lemma is_minimum_unique (v v' : Z) (l : list Z) :
  is_minimum v l → is_minimum v' l → v = v'.
Proof.
  intros [Hv Hmin] [Hv' Hmin']. apply Hmin in Hv'. apply Hmin' in Hv. lia.
Qed.

Lemma chart_data_minimum (f : string → bool) (loaded : dict TestComparison)
    (a : string) (v : Z) :
  dict_get a (Charts.chart_data_of f loaded) = Some v ↔
  is_minimum v (matching_gas f a loaded).
Proof.
  unfold Charts.chart_data_of. rewrite chart_data_get. simpl.
  pose proof (running_min_None (matching_gas f a loaded)) as Hmin.
  destruct (running_min None _) as [v'|]; split.
  - by intros [= <-].
  - intros Hv. f_equal. by eapply is_minimum_unique.
  - done.
  - rewrite Hmin. intros [Hv _]. by apply elem_of_nil in Hv.
Qed.

Lemma dict_all_None {V} (d : dict V) :
  (∀ k, dict_get k d = None) → d = [].
Proof.
  destruct d as [|[k v] d]; [done |]. intros H. specialize (H k).
  simpl in H. by rewrite decide_True in H.
Qed.

Lemma matching_gas_no_match (f : string → bool) (a : string)
    (loaded : dict TestComparison) :
  (∀ t d, (t, d) ∈ loaded → f t = false) → matching_gas f a loaded = [].
Proof.
  unfold matching_gas. induction loaded as [|[t d] loaded IH]; intros Hf;
    [done |].
  rewrite omap_cons_option_list, IH.
  - rewrite (Hf t d) by (apply elem_of_cons; by left). done.
  - intros. eapply Hf. apply elem_of_cons. by right.
Qed.

(** The two cases of the gate on one candidate test, with threshold [5.0]:
    at [6.0] it is a regression and the exit code is 1, at [3.0] it is a
    warning and the exit code is 0. *)
Example gate_on_six_and_three :
  let entry pct :=
    [("testERC20Transfer_IthacaAccount",
      {| main := 100; pr := 100 + pct; absolute := pct;
         percentage := Float.of_int pct;
         account_type := Some "IthacaAccount" |})] in
  let run pct :=
    Gate.check_regressions (foldr Float.add (Float.of_int 0)) (entry pct)
      (Float.of_int 5) in
  Gate.exit_code (run 6) = 1 ∧
  Gate.Finding.test <$> Gate.regressions (run 6)
    = ["testERC20Transfer_IthacaAccount"] ∧
  Gate.warnings (run 6) = [] ∧
  Gate.exit_code (run 3) = 0 ∧
  Gate.regressions (run 3) = [] ∧
  Gate.Finding.test <$> Gate.warnings (run 3)
    = ["testERC20Transfer_IthacaAccount"].
Proof. by vm_compute. Qed.

(** The mean change and the exit code are independent: a run with an
    overall improvement that fails, and a run with an overall increase
    that passes. *)
Example gate_mean_and_exit_code :
  let entry name pct :=
    (name,
     {| main := 100; pr := 100 + pct; absolute := pct;
        percentage := Float.of_int pct;
        account_type := Some "IthacaAccount" |}) in
  let run loaded :=
    Gate.check_regressions (foldr Float.add (Float.of_int 0)) loaded
      (Float.of_int 5) in
  (Gate.exit_code (run [entry "testA_IthacaAccount" 6;
                        entry "testB_IthacaAccount" (-50)]) = 1 ∧
   Gate.overall (run [entry "testA_IthacaAccount" 6;
                      entry "testB_IthacaAccount" (-50)])
     = Some (Gate.OverallImprovement (Float.of_int (-22)))) ∧
  (Gate.exit_code (run [entry "testA_IthacaAccount" 2]) = 0 ∧
   Gate.overall (run [entry "testA_IthacaAccount" 2])
     = Some (Gate.OverallIncrease (Float.of_int 2))).
Proof. by vm_compute. Qed.

(** ** Integer true division does not overflow on bounded numerators *)

Lemma digits2_pos_size (p : positive) : digits2_pos p = Pos.size p.
Proof. induction p; simpl; by f_equal. Qed.

Lemma Zdigits2_nonneg (m : Z) : 0 <= Zdigits2 m.
Proof. by destruct m. Qed.

Lemma Zdigits2_gt (m : Z) : 0 <= m → m < 2 ^ Zdigits2 m.
Proof.
  destruct m as [|p|p]; [done | | done]. intros _. simpl.
  rewrite digits2_pos_size.
  pose proof (Pos.size_gt p) as H. apply Pos2Z.pos_lt_pos in H.
  by rewrite Pos2Z.inj_pow in H.
Qed.

Lemma Zdigits2_le_pow (m k : Z) : 0 <= m → 0 <= k → m < 2 ^ k → Zdigits2 m <= k.
Proof.
  destruct m as [|p|p]; [done | | done]. intros _ Hk Hlt. simpl.
  rewrite digits2_pos_size.
  pose proof (Pos.size_le p) as H. apply Pos2Z.pos_le_pos in H.
  rewrite Pos2Z.inj_pow in H. change (Z.pos p~0) with (2 * Z.pos p) in H.
  destruct (Z.le_gt_cases (Z.pos (Pos.size p)) k) as [?|Hgt]; [done |].
  exfalso.
  assert (2 ^ (k + 1) <= 2 ^ Z.pos (Pos.size p)) as Hpow.
  { apply Z.pow_le_mono_r; lia. }
  rewrite Z.pow_add_r in Hpow by lia. lia.
Qed.

Lemma shr_1_div2 (mrs : shr_record) :
  0 <= shr_m mrs → shr_m (shr_1 mrs) = shr_m mrs / 2.
Proof.
  destruct mrs as [m r s]. simpl. intros Hm.
  rewrite <- Z.div2_div. by destruct m as [|[p|p|]|p].
Qed.

Lemma iter_shr_1_div (p : positive) (mrs : shr_record) :
  0 <= shr_m mrs →
  shr_m (SpecFloat.iter_pos shr_1 p mrs) = shr_m mrs / 2 ^ Z.pos p.
Proof.
  revert mrs. induction p as [p IH|p IH|]; intros mrs Hm; simpl.
  - assert (0 <= shr_m (shr_1 mrs)) as H1.
    { rewrite shr_1_div2 by done. by apply Z.div_pos. }
    assert (0 <= shr_m (SpecFloat.iter_pos shr_1 p (shr_1 mrs))) as H2.
    { rewrite IH by done. apply Z.div_pos; [done | lia]. }
    rewrite IH, IH, shr_1_div2 by done.
    rewrite !Z.div_div by lia. f_equal.
    rewrite Pos2Z.inj_xI, Z.pow_add_r, Z.pow_mul_r by lia.
    change (2 ^ 2) with 4. change (2 ^ 1) with 2.
    replace (4 ^ Z.pos p) with ((2 ^ Z.pos p) * (2 ^ Z.pos p)); [lia |].
    rewrite <- Z.pow_add_r by lia. replace (Z.pos p + Z.pos p) with (2 * Z.pos p) by lia.
    by rewrite Z.pow_mul_r by lia.
  - assert (0 <= shr_m (SpecFloat.iter_pos shr_1 p mrs)) as H2.
    { rewrite IH by done. apply Z.div_pos; [done | lia]. }
    rewrite IH, IH by done. rewrite Z.div_div by lia. f_equal.
    rewrite Pos2Z.inj_xO. rewrite <- Z.pow_add_r by lia. f_equal. lia.
  - by apply shr_1_div2.
Qed.

Lemma shr_record_of_loc_m (m : Z) (l : location) :
  shr_m (shr_record_of_loc m l) = m.
Proof. by destruct l as [|[]]. Qed.

(** After [shr_fexp] the exponent is the larger of the old one and the
    canonical one, and the mantissa has lost the corresponding bits. *)
Lemma shr_fexp_spec (m e : Z) (l : location) :
  0 <= m →
  ∃ mrs e',
    shr_fexp Float.prec Float.emax m e l = (mrs, e') ∧
    e' = Z.max e (fexp Float.prec Float.emax (Zdigits2 m + e)) ∧
    shr_m mrs = m / 2 ^ (e' - e).
Proof.
  intros Hm. unfold shr_fexp, shr.
  set (n := fexp Float.prec Float.emax (Zdigits2 m + e) - e).
  destruct n as [|p|p] eqn:Hn.
  - eexists _, _. split; [done |].
    rewrite shr_record_of_loc_m. split; [lia |].
    replace (e - e) with 0 by lia. by rewrite Z.div_1_r.
  - eexists _, _. split; [done |].
    rewrite iter_shr_1_div by (by rewrite shr_record_of_loc_m).
    rewrite shr_record_of_loc_m. split; [lia |]. f_equal. f_equal. lia.
  - eexists _, _. split; [done |].
    rewrite shr_record_of_loc_m. split; [lia |].
    replace (e - e) with 0 by lia. by rewrite Z.div_1_r.
Qed.

Lemma round_nearest_even_bounds (m : Z) (l : location) :
  0 <= m → 0 <= round_nearest_even m l <= m + 1.
Proof.
  intros Hm. destruct l as [|[]]; simpl; [lia | | lia | lia].
  destruct (Z.even m); lia.
Qed.

Lemma fexp_le (x : Z) : x <= 1024 → fexp Float.prec Float.emax x <= 971.
Proof. unfold fexp, emin, Float.prec, Float.emax. lia. Qed.

Lemma binary_round_aux_finite (s : bool) (q e : Z) (l : location) :
  0 <= q → e <= 970 → Zdigits2 q + e <= 1023 →
  ∀ s', binary_round_aux Float.prec Float.emax s q e l ≠ S754_infinity s'.
Proof.
  intros Hq He Hdigits s'. unfold binary_round_aux.
  destruct (shr_fexp_spec q e l Hq) as (mrs1 & e1 & -> & He1 & Hm1).
  set (m2 := round_nearest_even (shr_m mrs1) (loc_of_shr_record mrs1)).
  assert (0 <= shr_m mrs1) as Hm1pos.
  { rewrite Hm1. apply Z.div_pos; [done |]. apply Z.pow_pos_nonneg; lia. }
  pose proof (round_nearest_even_bounds (shr_m mrs1) (loc_of_shr_record mrs1)
                Hm1pos) as Hm2. fold m2 in Hm2.
  destruct (shr_fexp_spec m2 e1 loc_Exact (proj1 Hm2))
    as (mrs2 & e2 & -> & He2 & _).
  destruct (shr_m mrs2) as [|p|p]; [done | | done].
  assert (e1 <= 970) as He1'.
  { pose proof (fexp_le (Zdigits2 q + e + 1)).
    unfold fexp, emin, Float.prec, Float.emax in *. lia. }
  assert (Zdigits2 m2 + e1 <= 1024) as Hd2.
  { assert (Zdigits2 m2 <= 1024 - e1); [|lia].
    apply Zdigits2_le_pow; [lia | lia |].
    assert (shr_m mrs1 < 2 ^ (1023 - e1)) as Hlt.
    { rewrite Hm1. apply Z.div_lt_upper_bound; [apply Z.pow_pos_nonneg; lia |].
      rewrite <- Z.pow_add_r by lia.
      replace (e1 - e + (1023 - e1)) with (1023 - e) by lia.
      eapply Z.lt_le_trans; [by apply Zdigits2_gt |].
      apply Z.pow_le_mono_r; lia. }
    replace (1024 - e1) with ((1023 - e1) + 1) by lia.
    rewrite Z.pow_add_r by lia. lia. }
  assert (e2 <= 971) as He2'.
  { pose proof (fexp_le _ Hd2). lia. }
  change (Float.emax - Float.prec) with 971.
  by rewrite (proj2 (Z.leb_le e2 971)).
Qed.

Lemma div_core_bounds (a b : Z) :
  0 < a → 0 < b →
  ∃ q e l,
    SFdiv_core_binary Float.prec Float.emax a 0 b 0 = (q, e, l) ∧
    0 <= q ∧ e <= 0 ∧ Zdigits2 q + e <= Zdigits2 a.
Proof.
  intros Ha Hb. unfold SFdiv_core_binary.
  set (e := Z.min (fexp Float.prec Float.emax
                     (Zdigits2 a + 0 - (Zdigits2 b + 0))) (0 - 0)).
  assert (e <= 0) as He by lia.
  set (m' := match 0 - 0 - e with
             | 0 => a
             | Z.pos _ => Z.shiftl a (0 - 0 - e)
             | Z.neg _ => 0
             end).
  assert (m' = a * 2 ^ (- e)) as Hm'.
  { unfold m'. destruct (0 - 0 - e) as [|p|p] eqn:Hs; [| |lia].
    - replace (- e) with 0 by lia. lia.
    - rewrite Z.shiftl_mul_pow2 by lia. f_equal. f_equal. lia. }
  pose proof (Z.pow_pos_nonneg 2 (- e) ltac:(lia) ltac:(lia)) as Hpow.
  generalize (Z.div_pos m' b ltac:(nia) Hb).
  generalize (Z.div_le_upper_bound m' b m' Hb ltac:(nia)).
  unfold Z.div. destruct (Z.div_eucl m' b) as [q r]. simpl.
  intros Hle Hpos. eexists _, _, _. split; [done |]. split_and!; [done..|].
  assert (Zdigits2 q <= Zdigits2 a - e); [|lia].
  pose proof (Zdigits2_nonneg a).
  apply Zdigits2_le_pow; [done | lia |].
  eapply Z.le_lt_trans; [exact Hle |]. rewrite Hm'.
  replace (Zdigits2 a - e) with (Zdigits2 a + - e) by lia.
  rewrite Z.pow_add_r by lia.
  apply Z.mul_lt_mono_pos_r; [done |]. apply Zdigits2_gt. lia.
Qed.

(** True division succeeds when the divisor is not zero and the numerator
    is below [2 ^ 1023] in absolute value. *)
Lemma int_true_div_ok (a b : Z) :
  b ≠ 0 → Z.abs a < 2 ^ 1023 → ∃ f, Float.int_true_div a b = Ok f.
Proof.
  intros Hb Ha. unfold Float.int_true_div.
  rewrite (proj2 (Z.eqb_neq b 0)) by done.
  destruct (Z.eqb_spec a 0) as [|Ha0]; [eauto |].
  destruct (div_core_bounds (Z.abs a) (Z.abs b)) as (q & e & l & -> & Hq & He & Hd);
    [lia.. |].
  pose proof (binary_round_aux_finite (xorb (a <? 0) (b <? 0)) q e l Hq
                ltac:(lia)) as Hfin.
  assert (Zdigits2 q + e <= 1023) as Hd'.
  { assert (Zdigits2 (Z.abs a) <= 1023); [|lia].
    apply Zdigits2_le_pow; lia. }
  specialize (Hfin Hd').
  destruct (binary_round_aux _ _ _ q e l) as [| s' | |]; eauto.
  by destruct (Hfin s').
Qed.

(** ** The analysis completes on bounded snapshots *)

Lemma for_each_ok {A S} (body : A → S → result S) (xs : list A) (s : S) :
  (∀ x t, x ∈ xs → ∃ t', body x t = Ok t') →
  ∃ s', for_each body xs s = Ok s'.
Proof.
  revert s. induction xs as [|x xs IH]; intros s Hbody; simpl; [eauto |].
  destruct (Hbody x s) as [t ->]; [apply elem_of_cons; by left |]. simpl.
  apply IH. intros y ? ?. apply Hbody. apply elem_of_cons. by right.
Qed.

Lemma gas_of_bounded (data : gmap string Z) (t : string) :
  bounded_snapshot data → Z.abs (gas_of data t) < 2 ^ 1022.
Proof.
  intros Hdata. unfold gas_of.
  destruct (data !! t) as [v|] eqn:Hv; simpl; [by eapply Hdata | done].
Qed.

Lemma pow_1022_1023 : 2 ^ 1023 = 2 * 2 ^ 1022.
Proof. by rewrite <- Z.pow_succ_r. Qed.

Lemma recorded_entry_ok (main_snap pr_snap : gmap string Z) (t : string) :
  bounded_snapshot main_snap → bounded_snapshot pr_snap →
  ∃ e, recorded_entry (__init__ main_snap pr_snap) t = Ok e ∧
       ∀ d, e = Some d → bounded_entry d.
Proof.
  intros Hmain Hpr. unfold recorded_entry. cbn [main_data pr_data __init__].
  fold (gas_of main_snap t) (gas_of pr_snap t).
  pose proof (gas_of_bounded _ t Hmain) as Hm.
  pose proof (gas_of_bounded _ t Hpr) as Hp.
  pose proof pow_1022_1023 as Hpow.
  destruct (_ && _); [by eexists |].
  unfold calculate_change.
  destruct (Z.eqb_spec (gas_of main_snap t) 0) as [Hz|Hnz]; simpl.
  - eexists. split; [done |]. by intros d [= <-].
  - destruct (int_true_div_ok (gas_of pr_snap t - gas_of main_snap t)
                (gas_of main_snap t)) as [q ->]; [done | lia |].
    simpl. eexists. split; [done |]. by intros d [= <-].
Qed.

Lemma savings_pct_ok (diff_abs value : Z) :
  Z.abs diff_abs < 2 ^ 1023 → ∃ pct, savings_pct diff_abs value = Ok pct.
Proof.
  intros Hdiff. unfold savings_pct.
  destruct (Z.ltb_spec 0 value); [|eauto].
  destruct (int_true_div_ok diff_abs value) as [q ->]; [lia | done |].
  simpl. eauto.
Qed.

Lemma compare_account_ok (ith : TestComparison) (a : string)
    (d : TestComparison) (comps : dict Savings) :
  bounded_entry ith → bounded_entry d →
  ∃ comps', compare_account ith (a, d) comps = Ok comps'.
Proof.
  intros [Hm Hp] [Hm' Hp']. pose proof pow_1022_1023 as Hpow.
  unfold compare_account. case_bool_decide; [|eauto].
  destruct (savings_pct_ok (pr d - pr ith) (pr d)) as [? ->]; [lia |].
  destruct (savings_pct_ok (main d - main ith) (main d)) as [? ->]; [lia |].
  simpl. eauto.
Qed.

Lemma categorize_bounded (comps : dict TestComparison) :
  Forall (λ '(_, d), bounded_entry d) comps →
  Forall (λ '(_, tests),
            Forall (λ '(_, accounts),
                      Forall (λ '(_, d), bounded_entry d) accounts)
              tests)
    (categorize comps).
Proof.
  intros Hcomps. apply categorize_invariant; [done |].
  intros t d a c b cats Hin _ Hcats. unfold file_under.
  assert (bounded_entry d) as Hd.
  { rewrite Forall_forall in Hcomps. apply (Hcomps (t, d) Hin). }
  assert (Forall (λ '(_, accounts),
                    Forall (λ '(_, d), bounded_entry d) accounts)
            (default [] (dict_get c cats))) as Htests.
  { destruct (dict_get c cats) as [tests|] eqn:Hc; [|done].
    apply (Forall_dict_get _ _ _ _ Hcats Hc). }
  apply Forall_dict_set; [|done].
  apply Forall_dict_set; [|done].
  apply Forall_dict_set; [done |].
  destruct (dict_get b _) as [accounts|] eqn:Hb; [|done].
  apply (Forall_dict_get _ _ _ _ Htests Hb).
Qed.

(** X1: on snapshots whose gas values are below [2 ^ 1022] in absolute value,
    [analyze] completes, whatever the order of enumeration. *)
Theorem analyze_completes (main_snap pr_snap : gmap string Z)
    (order : list string) :
  bounded_snapshot main_snap → bounded_snapshot pr_snap →
  NoDup order →
  ∃ st, analyze order (__init__ main_snap pr_snap) = Ok st.
Proof.
  intros Hmain Hpr Hnd. unfold analyze.
  rewrite analyze_loop_total; [| done | done |]; cycle 1.
  { intros t _. destruct (recorded_entry_ok _ _ t Hmain Hpr) as (e & He & _).
    eauto. }
  cbn [bind comparisons __init__ app].
  set (comps := omap _ order).
  assert (Forall (λ '(_, d), bounded_entry d) comps) as Hcomps.
  { apply Forall_forall. intros [t d] Hin.
    apply list_elem_of_omap in Hin as (t' & _ & Hrec).
    unfold recorded, recorded_value in Hrec.
    destruct (recorded_entry_ok _ _ t' Hmain Hpr) as (e & He & Hbounded).
    rewrite He in Hrec. destruct e as [d'|]; [|done].
    injection Hrec as <- <-. by apply Hbounded. }
  unfold _analyze_ithaca_comparisons. cbn [comparisons ithaca_comparisons].
  pose proof (categorize_bounded comps Hcomps) as Hcats.
  rewrite Forall_forall in Hcats.
  destruct (for_each_ok compare_category (categorize comps)
              (ithaca_comparisons (__init__ main_snap pr_snap)))
    as [ic ->]; [|simpl; eauto].
  intros [c tests] ic Hc. specialize (Hcats _ Hc). simpl in Hcats.
  rewrite Forall_forall in Hcats.
  apply for_each_ok. intros [b accounts] ic' Hb.
  specialize (Hcats _ Hb). simpl in Hcats. unfold compare_base.
  destruct (dict_get "IthacaAccount" accounts) as [ith|] eqn:Hith; [|eauto].
  assert (bounded_entry ith) as Hbith.
  { apply (Forall_dict_get _ _ _ _ Hcats Hith). }
  rewrite Forall_forall in Hcats.
  destruct (for_each_ok (compare_account ith) accounts []) as [comps' ->];
    [|simpl; eauto].
  intros [a d] acc Ha. apply compare_account_ok; [done |].
  apply (Hcats _ Ha).
Qed.

(** ** The order on floats *)

Lemma SFleb_trans (x y z : float) :
  SFleb x y = true → SFleb y z = true → SFleb x z = true.
Proof.
  unfold SFleb.
  destruct x as [sx|sx| |sx mx ex], y as [sy|sy| |sy my ey],
    z as [sz|sz| |sz mz ez]; simpl; try done;
    repeat match goal with s : bool |- _ => destruct s end; simpl;
    try done;
    repeat match goal with
    | |- context [(?a ?= ?b)%Z] => destruct (Z.compare_spec a b)
    end; simpl; try done; try lia;
    repeat match goal with
    | |- context [Pos.compare_cont Eq ?a ?b] =>
        change (Pos.compare_cont Eq a b) with (Pos.compare a b);
        destruct (Pos.compare_spec a b)
    end; simpl; try done; try lia.
Qed.

Lemma SFltb_SFleb (x y : float) : SFltb x y = true → SFleb x y = true.
Proof. unfold SFltb, SFleb. by destruct (SFcompare x y) as [[]|]. Qed.

Lemma SFltb_asym (x y : float) : SFltb x y = true → SFltb y x = false.
Proof.
  unfold SFltb. destruct (SFcompare x y) as [c|] eqn:Hc; [|done].
  rewrite (SFcompare_antisym _ _ _ Hc). by destruct c.
Qed.

(** Without a NaN, [not (y < x)] is [x <= y]. *)
Lemma not_SFltb_SFleb (x y : float) :
  x ≠ S754_nan → y ≠ S754_nan → SFltb y x = false → SFleb x y = true.
Proof.
  intros Hx Hy. unfold SFltb, SFleb.
  assert (∃ c, SFcompare y x = Some c) as [c Hc].
  { destruct x, y; try done; simpl; eauto. }
  rewrite Hc, (SFcompare_antisym _ _ _ Hc). by destruct c.
Qed.

Lemma SFleb_not_nan (x y : float) :
  SFleb x y = true → x ≠ S754_nan ∧ y ≠ S754_nan.
Proof. destruct x, y; done. Qed.

Lemma SFltb_not_nan (x y : float) :
  SFltb x y = true → x ≠ S754_nan ∧ y ≠ S754_nan.
Proof. destruct x, y; done. Qed.

Lemma SFltb_SFleb_trans (x y z : float) :
  SFltb x y = true → SFleb y z = true → SFltb x z = true.
Proof.
  unfold SFleb, SFltb.
  destruct x as [sx|sx| |sx mx ex], y as [sy|sy| |sy my ey],
    z as [sz|sz| |sz mz ez]; simpl; try done;
    repeat match goal with s : bool |- _ => destruct s end; simpl;
    try done;
    repeat match goal with
    | |- context [(?a ?= ?b)%Z] => destruct (Z.compare_spec a b)
    end; simpl; try done; try lia;
    repeat match goal with
    | |- context [Pos.compare_cont Eq ?a ?b] =>
        change (Pos.compare_cont Eq a b) with (Pos.compare a b);
        destruct (Pos.compare_spec a b)
    end; simpl; try done; try lia.
Qed.

(** ** Sorting by a float key *)

Section SortedByKey.
Context {A : Type} (key : A → float).

Lemma insert_by_key_perm (reverse : bool) (x : A) (xs : list A) :
  Charts.insert_by_key key reverse x xs ≡ₚ x :: xs.
Proof.
  induction xs as [|y ys IH]; simpl; [done |].
  destruct (if reverse then _ else _); [|done].
  rewrite IH. apply perm_swap.
Qed.

Lemma sorted_by_key_perm (reverse : bool) (xs : list A) :
  Charts.sorted_by_key key reverse xs ≡ₚ xs.
Proof.
  induction xs as [|x xs IH]; simpl; [done |].
  by rewrite insert_by_key_perm, IH.
Qed.

Lemma key_le_trans (reverse : bool) (x y z : A) :
  key_le key reverse x y → key_le key reverse y z → key_le key reverse x z.
Proof.
  unfold key_le, Float.le. destruct reverse; intros H1 H2.
  - by eapply SFleb_trans.
  - by eapply SFleb_trans.
Qed.

Lemma insert_by_key_sorted (reverse : bool) (x : A) (xs : list A) :
  key x ≠ S754_nan →
  Forall (λ y, key y ≠ S754_nan) xs →
  StronglySorted (key_le key reverse) xs →
  StronglySorted (key_le key reverse) (Charts.insert_by_key key reverse x xs).
Proof.
  intros Hx Hnan Hsorted.
  induction Hsorted as [|y ys Hys IH Hy]; simpl.
  - repeat constructor.
  - apply Forall_cons in Hnan as [Hynan Hnan].
    destruct (if reverse then _ else _) eqn:Hcmp.
    + constructor; [by apply IH |].
      rewrite insert_by_key_perm. constructor; [|done].
      unfold key_le, Float.le, Float.gt, Float.lt in *.
      destruct reverse; by apply SFltb_SFleb.
    + assert (key_le key reverse x y) as Hxy.
      { unfold key_le, Float.le, Float.gt, Float.lt in *.
        destruct reverse; by apply not_SFltb_SFleb. }
      constructor; [by constructor |].
      constructor; [done |].
      eapply Forall_impl; [exact Hy |]. intros z Hz.
      by eapply key_le_trans.
Qed.

Lemma sorted_by_key_sorted (reverse : bool) (xs : list A) :
  Forall (λ y, key y ≠ S754_nan) xs →
  StronglySorted (key_le key reverse) (Charts.sorted_by_key key reverse xs).
Proof.
  induction xs as [|x xs IH]; intros Hnan; simpl; [constructor |].
  apply Forall_cons in Hnan as [Hx Hnan].
  apply insert_by_key_sorted; [done | | by apply IH].
  by rewrite sorted_by_key_perm.
Qed.


End SortedByKey.

(** The first [n] elements of a sorted list come before all the others. *)
Lemma firstn_sorted_le {A} (R : A → A → Prop) (n : nat) (l : list A)
    (x y : A) :
  StronglySorted R l → x ∈ firstn n l → y ∈ skipn n l → R x y.
Proof.
  intros Hsorted. revert n.
  induction Hsorted as [|z l Hl IH Hz]; intros n Hx Hy.
  - rewrite firstn_nil in Hx. by apply elem_of_nil in Hx.
  - destruct n as [|n]; simpl in *; [by apply elem_of_nil in Hx |].
    apply elem_of_cons in Hx as [->|Hx]; [|by eapply IH].
    rewrite Forall_forall in Hz. apply Hz.
    by apply (subseteq_drop n l).
Qed.

(** ** What the analysis never does *)

Lemma for_each_raise {A S} (body : A → S → result S) (xs : list A) (s : S)
    (e : exn) :
  for_each body xs s = Raise e → ∃ x t, x ∈ xs ∧ body x t = Raise e.
Proof.
  revert s. induction xs as [|x xs IH]; intros s; simpl; [done |].
  destruct (body x s) as [t|e'] eqn:Hx; simpl.
  - intros (y & t' & Hy & Hraise)%IH. exists y, t'. split; [|done].
    apply elem_of_cons. by right.
  - intros [= ->]. exists x, s. split; [|done]. apply elem_of_cons. by left.
Qed.

Lemma int_true_div_raise (a b : Z) (e : exn) :
  Float.int_true_div a b = Raise e →
  (e = ZeroDivisionError ∧ b = 0) ∨ (e = OverflowError ∧ b ≠ 0).
Proof.
  unfold Float.int_true_div. destruct (Z.eqb_spec b 0) as [->|Hb].
  - intros [= <-]. by left.
  - destruct (a =? 0); [done |].
    destruct (SFdiv_core_binary _ _ _ _ _ _) as [[q e'] l].
    destruct (binary_round_aux _ _ _ q e' l); try done.
    intros [= <-]. by right.
Qed.

Lemma calculate_change_raise (main_val pr_val : Z) (e : exn) :
  calculate_change main_val pr_val = Raise e → e = OverflowError.
Proof.
  unfold calculate_change. destruct (Z.eqb_spec main_val 0); [done |].
  destruct (Float.int_true_div _ main_val) as [q|e'] eqn:Hdiv; [done |].
  simpl. intros [= <-].
  by destruct (int_true_div_raise _ _ _ Hdiv) as [[_ ?]|[? _]].
Qed.

Lemma savings_pct_raise (diff_abs value : Z) (e : exn) :
  savings_pct diff_abs value = Raise e → e = OverflowError.
Proof.
  unfold savings_pct. destruct (Z.ltb_spec 0 value); [|done].
  destruct (Float.int_true_div _ value) as [q|e'] eqn:Hdiv; [done |].
  simpl. intros [= <-].
  destruct (int_true_div_raise _ _ _ Hdiv) as [[_ ?]|[? _]]; [lia | done].
Qed.

Lemma compare_account_raise (ith : TestComparison)
    (acct : string * TestComparison) (comps : dict Savings) (e : exn) :
  compare_account ith acct comps = Raise e → e = OverflowError.
Proof.
  destruct acct as [a d]. unfold compare_account.
  case_bool_decide; [|done].
  destruct (savings_pct _ (pr d)) as [?|e1] eqn:H1; simpl.
  - destruct (savings_pct _ (main d)) as [?|e2] eqn:H2; simpl; [done |].
    intros [= <-]. by eapply savings_pct_raise.
  - intros [= <-]. by eapply savings_pct_raise.
Qed.

(** Of the two exceptions of a true division, a run of [analyze] meets
    only the overflow. *)
Lemma analyze_raise (order : list string) (self : BenchmarkComparison)
    (e : exn) :
  analyze order self = Raise e → e = OverflowError.
Proof.
  unfold analyze.
  destruct (for_each (analyze_test self) order (comparisons self))
    as [comps|e1] eqn:Hloop; simpl.
  - unfold _analyze_ithaca_comparisons. cbn [comparisons ithaca_comparisons].
    destruct (for_each compare_category (categorize comps) _) as [ic|e2]
      eqn:Hic; simpl; [done |].
    intros [= <-].
    apply for_each_raise in Hic as ([c tests] & ic1 & _ & Hcat).
    unfold compare_category in Hcat.
    apply for_each_raise in Hcat as ([b accounts] & ic2 & _ & Hbase).
    unfold compare_base in Hbase.
    destruct (dict_get "IthacaAccount" accounts) as [ith|]; [|done].
    destruct (for_each (compare_account ith) accounts []) as [?|e3] eqn:Hacc;
      [done |].
    simpl in Hbase. injection Hbase as <-.
    apply for_each_raise in Hacc as (acct & comps' & _ & Hraise).
    by eapply compare_account_raise.
  - intros [= <-].
    apply for_each_raise in Hloop as (t & comps' & _ & Hraise).
    rewrite analyze_test_recorded in Hraise. unfold recorded_entry in Hraise.
    destruct (_ && _); [done |].
    destruct (calculate_change _ _) as [[??]|e2] eqn:Hchange; [done |].
    simpl in Hraise. injection Hraise as <-.
    by eapply calculate_change_raise.
Qed.

(** X2: on snapshots of integers, [analyze] never raises
    [ZeroDivisionError]: each of its true divisions is guarded against a
    zero divisor, by [main_val == 0] in [calculate_change] and by
    [> 0] in the savings. *)
Theorem analyze_never_divides_by_zero (order : list string)
    (self : BenchmarkComparison) (e : exn) :
  analyze order self = Raise e → e ≠ ZeroDivisionError.
Proof. by intros ->%analyze_raise. Qed.

Lemma analyze_never_divides_by_zero_witness :
  analyze ["testHuge"]
    (__init__ {[ "testHuge" := 1 ]} {[ "testHuge" := 2 ^ 1100 ]})
  = Raise OverflowError ∧
  OverflowError ≠ ZeroDivisionError.
Proof.
  assert (analyze ["testHuge"]
            (__init__ {[ "testHuge" := 1 ]} {[ "testHuge" := 2 ^ 1100 ]})
          = Raise OverflowError) as Hrun by (by vm_compute).
  split; [done |].
  exact (analyze_never_divides_by_zero _ _ _ Hrun).
Defined.

(** ** Percentages are numbers *)

Lemma binary_round_aux_not_nan (s : bool) (q e : Z) (l : location) :
  0 <= q → binary_round_aux Float.prec Float.emax s q e l ≠ S754_nan.
Proof.
  intros Hq. unfold binary_round_aux.
  destruct (shr_fexp_spec q e l Hq) as (mrs1 & e1 & -> & He1 & Hm1).
  assert (0 <= shr_m mrs1) as Hm1pos.
  { rewrite Hm1. apply Z.div_pos; [done |]. apply Z.pow_pos_nonneg; lia. }
  pose proof (round_nearest_even_bounds (shr_m mrs1) (loc_of_shr_record mrs1)
                Hm1pos) as Hm2.
  destruct (shr_fexp_spec _ e1 loc_Exact (proj1 Hm2))
    as (mrs2 & e2 & -> & He2 & Hm2').
  assert (0 <= shr_m mrs2) as Hpos.
  { rewrite Hm2'. apply Z.div_pos; [lia |]. apply Z.pow_pos_nonneg; lia. }
  destruct (shr_m mrs2) as [|p|p]; [done | | lia].
  by destruct (e2 <=? _).
Qed.

Lemma int_true_div_not_nan (a b : Z) (f : float) :
  Float.int_true_div a b = Ok f → f ≠ S754_nan.
Proof.
  unfold Float.int_true_div. destruct (Z.eqb_spec b 0); [done |].
  destruct (Z.eqb_spec a 0); [by intros [= <-] |].
  destruct (div_core_bounds (Z.abs a) (Z.abs b)) as (q & e & l & -> & Hq & _);
    [lia.. |].
  pose proof (binary_round_aux_not_nan (xorb (a <? 0) (b <? 0)) q e l Hq).
  destruct (binary_round_aux _ _ _ q e l); try done; by intros [= <-].
Qed.

Lemma mul_100_not_nan (q : float) :
  q ≠ S754_nan → Float.mul q (Float.of_int 100) ≠ S754_nan.
Proof.
  intros Hq. change (Float.of_int 100)
    with (S754_finite false 7036874417766400 (-46)).
  destruct q as [s|s| |s m e]; try done.
  unfold Float.mul, SFmul. by apply binary_round_aux_not_nan.
Qed.

Lemma calculate_change_not_nan (main_val pr_val abs : Z) (pct : float) :
  calculate_change main_val pr_val = Ok (abs, pct) → pct ≠ S754_nan.
Proof.
  unfold calculate_change. destruct (main_val =? 0); simpl.
  - intros [= _ <-]. by destruct (0 <? pr_val).
  - destruct (Float.int_true_div _ main_val) as [q|] eqn:Hq; simpl; [|done].
    intros [= _ <-]. by eapply mul_100_not_nan, int_true_div_not_nan.
Qed.

Lemma percentages_are_numbers_aux (main_snap pr_snap : gmap string Z)
    (order : list string) (st : BenchmarkComparison) (t : string)
    (d : TestComparison) :
  analyze order (__init__ main_snap pr_snap) = Ok st →
  (t, d) ∈ comparisons st →
  percentage d ≠ S754_nan.
Proof.
  intros [Hloop _]%analyze_inv. revert Hloop. cbn [comparisons __init__].
  intros Hloop Hin.
  assert (Forall (λ '(_, d), percentage d ≠ S754_nan) (comparisons st))
    as Hall.
  { eapply (for_each_invariant _
              (Forall (λ '(_, d), percentage d ≠ S754_nan)));
      [| |exact Hloop]; [|done].
    intros x acc acc' _ Hacc. rewrite analyze_test_recorded.
    unfold recorded_entry. destruct (_ && _); simpl; [by intros [= <-] |].
    destruct (calculate_change _ _) as [[a pct]|] eqn:Hchange; simpl; [|done].
    intros [= <-].
    apply (Forall_dict_set (λ '(_, d), percentage d ≠ S754_nan));
      [|done].
    by eapply calculate_change_not_nan. }
  rewrite Forall_forall in Hall. by apply (Hall (t, d)).
Qed.

(** X3: no percentage that [analyze] records is a NaN. *)
Theorem percentages_are_numbers (main_snap pr_snap : gmap string Z)
    (order : list string) (st : BenchmarkComparison) (t : string)
    (d : TestComparison) :
  analyze order (__init__ main_snap pr_snap) = Ok st →
  (t, d) ∈ comparisons st →
  percentage d ≠ S754_nan.
Proof. apply percentages_are_numbers_aux. Qed.

Lemma percentages_are_numbers_witness :
  ∃ d,
    ("testERC20Transfer_Safe4337", d) ∈ comparisons example_state ∧
    percentage d ≠ S754_nan.
Proof.
  destruct (dict_get "testERC20Transfer_Safe4337" (comparisons example_state))
    as [d|] eqn:Hd; [|by vm_compute in Hd].
  pose proof (dict_get_Some_elem _ _ _ Hd) as Hin.
  exists d. split; [exact Hin |].
  apply (percentages_are_numbers example_main example_pr example_order
           example_state _ d example_run Hin).
Defined.

Lemma analyze_completes_witness :
  ∃ st, analyze example_order (__init__ example_main example_pr) = Ok st.
Proof.
  apply analyze_completes.
  - intros t v Hv. unfold example_main in Hv.
    repeat (apply lookup_insert_Some in Hv as [[_ <-]|[_ Hv]]; [done |]).
    by apply lookup_singleton_Some in Hv as [_ <-].
  - intros t v Hv. unfold example_pr in Hv.
    repeat (apply lookup_insert_Some in Hv as [[_ <-]|[_ Hv]]; [done |]).
    by apply lookup_singleton_Some in Hv as [_ <-].
  - compute_done.
Defined.

(** ** The tables of the markdown report *)

(** X4: the tests that the reports select by name are the entries whose
    account type is the candidate account. *)
Theorem candidate_by_name_or_type (main_snap pr_snap : gmap string Z)
    (order : list string) (st : BenchmarkComparison) (t : string)
    (d : TestComparison) :
  analyze order (__init__ main_snap pr_snap) = Ok st →
  (t, d) ∈ comparisons st →
  Str.contains "IthacaAccount" t = true ↔
  account_type d = Some "IthacaAccount".
Proof.
  intros Hrun Hin. rewrite (analyze_account_type _ _ _ _ _ _ Hrun Hin).
  apply get_account_type_ithaca.
Qed.

Lemma candidate_by_name_or_type_witness :
  ∃ d,
    ("testERC20Transfer_IthacaAccount", d) ∈ comparisons example_state ∧
    (Str.contains "IthacaAccount" "testERC20Transfer_IthacaAccount" = true ↔
     account_type d = Some "IthacaAccount").
Proof.
  destruct (dict_get "testERC20Transfer_IthacaAccount"
              (comparisons example_state))
    as [d|] eqn:Hd; [|by vm_compute in Hd].
  pose proof (dict_get_Some_elem _ _ _ Hd) as Hin.
  exists d. split; [exact Hin |].
  apply (candidate_by_name_or_type example_main example_pr example_order
           example_state _ d example_run Hin).
Defined.

Lemma filter_bool_elem_of {A} (f : A → bool) (l : list A) (x : A) :
  x ∈ List.filter f l ↔ x ∈ l ∧ f x = true.
Proof. by rewrite !list_elem_of_In, filter_In. Qed.

Lemma filter_keys_length (f : string → bool) (comps : dict TestComparison) :
  length (List.filter f (keys comps)) =
  length (List.filter (λ '(t, d), f t) comps).
Proof.
  unfold keys. induction comps as [|[t d] comps IH]; csimpl; [done |].
  destruct (f t); simpl; by rewrite IH.
Qed.

Lemma le_minus_5_5 (p : float) :
  Float.le p (Float.of_int (-5)) = true →
  Float.le (Float.of_int 5) p = true → False.
Proof.
  unfold Float.le. intros H1 H2.
  by pose proof (SFleb_trans _ _ _ H2 H1).
Qed.

(** X5: the table of the candidate account's gas changes has one row per
    candidate test, as many as the JSON summary counts; the rows are in
    ascending order of percentage; a row is green exactly when its
    percentage is at most [-5], red exactly when it is at least [5], and
    yellow otherwise. *)
Theorem gas_changes_table (main_snap pr_snap : gmap string Z)
    (order : list string) (st : BenchmarkComparison) :
  analyze order (__init__ main_snap pr_snap) = Ok st →
  length (Markdown.gas_changes st)
    = ithaca_tests (summary (generate_json_data st)) ∧
  Markdown.ithaca_sorted st
    ≡ₚ List.filter (λ '(t, d), Str.contains "IthacaAccount" t)
         (comparisons st) ∧
  StronglySorted (key_le Markdown.pct_change false) (Markdown.gas_changes st) ∧
  ∀ r,
    r ∈ Markdown.gas_changes st →
    (Markdown.emoji r = Markdown.Green
     ↔ Float.le (Markdown.pct_change r) (Float.of_int (-5)) = true) ∧
    (Markdown.emoji r = Markdown.Red
     ↔ Float.le (Float.of_int 5) (Markdown.pct_change r) = true) ∧
    (Markdown.emoji r = Markdown.Yellow
     ↔ Float.le (Markdown.pct_change r) (Float.of_int (-5)) = false ∧
       Float.le (Float.of_int 5) (Markdown.pct_change r) = false).
Proof.
  intros Hrun.
  assert (Markdown.ithaca_sorted st
            ≡ₚ List.filter (λ '(t, d), Str.contains "IthacaAccount" t)
                 (comparisons st)) as Hperm.
  { apply sorted_by_key_perm. }
  split_and!.
  - unfold Markdown.gas_changes. rewrite length_fmap, Hperm. simpl.
    by rewrite filter_keys_length.
  - done.
  - unfold Markdown.gas_changes.
    eapply StronglySorted_fmap;
      [|apply (sorted_by_key_sorted (λ x : string * TestComparison,
                                       percentage x.2) false)].
    + by intros [t1 d1] [t2 d2].
    + apply Forall_forall. intros [t d] Hin.
      apply (proj1 (filter_bool_elem_of _ _ _)) in Hin. destruct Hin as [Hin _].
      by eapply percentages_are_numbers_aux.
  - intros r Hr. unfold Markdown.gas_changes in Hr.
    apply list_elem_of_fmap in Hr as ([t d] & -> & _). simpl.
    unfold Markdown.emoji_of.
    destruct (Float.le (percentage d) _) eqn:Hgreen.
    + split; [|split]; split; try done; try (by intros [? ?]).
      intros Hred. by destruct (le_minus_5_5 _ Hgreen Hred).
    + destruct (Float.le _ (percentage d)) eqn:Hred;
        (split; [|split]); split; try done; by intros [? ?].
Qed.

Lemma gas_changes_table_witness :
  length (Markdown.gas_changes example_state) = 2%nat ∧
  Markdown.emoji <$> Markdown.gas_changes example_state
    = [Markdown.Yellow; Markdown.Red] ∧
  StronglySorted (key_le Markdown.pct_change false)
    (Markdown.gas_changes example_state).
Proof.
  destruct (gas_changes_table example_main example_pr example_order
              example_state example_run) as (_ & _ & Hsorted & _).
  split_and!; [by vm_compute | by vm_compute | done].
Defined.

(** ** The lists of notable changes *)

Lemma top_of_sorted {A} (key : A → float) (reverse : bool) (n : nat)
    (l : list A) :
  Forall (λ x, key x ≠ S754_nan) l →
  (length (firstn n (Charts.sorted_by_key key reverse l)) ≤ n)%nat ∧
  (∀ x, x ∈ firstn n (Charts.sorted_by_key key reverse l) → x ∈ l) ∧
  StronglySorted (key_le key reverse)
    (firstn n (Charts.sorted_by_key key reverse l)) ∧
  (∀ x y,
     x ∈ firstn n (Charts.sorted_by_key key reverse l) →
     y ∈ l → y ∉ firstn n (Charts.sorted_by_key key reverse l) →
     key_le key reverse x y) ∧
  ((length l ≤ n)%nat → firstn n (Charts.sorted_by_key key reverse l) ≡ₚ l).
Proof.
  intros Hnan.
  pose proof (sorted_by_key_perm key reverse l) as Hperm.
  pose proof (sorted_by_key_sorted key reverse l Hnan) as Hsorted.
  set (s := Charts.sorted_by_key key reverse l) in *.
  split_and!.
  - rewrite length_take. lia.
  - intros x Hx. rewrite <- Hperm. by apply (subseteq_take n s).
  - rewrite <- (take_drop n s) in Hsorted.
    by apply StronglySorted_app_1_l in Hsorted.
  - intros x y Hx Hy Hny. rewrite <- Hperm in Hy.
    rewrite <- (take_drop n s) in Hy. apply elem_of_app in Hy as [?|Hy];
      [done |].
    by eapply firstn_sorted_le.
  - intros Hlen. rewrite take_ge; [done |]. by rewrite Hperm.
Qed.

Lemma pct_lt_not_nan (n : Z) (d : TestComparison) :
  pct_lt n d = true → percentage d ≠ S754_nan.
Proof. unfold pct_lt, Float.lt. by intros [? _]%SFltb_not_nan. Qed.

Lemma pct_gt_not_nan (n : Z) (d : TestComparison) :
  pct_gt n d = true → percentage d ≠ S754_nan.
Proof. unfold pct_gt, Float.gt. by intros [_ ?]%SFltb_not_nan. Qed.

(** X6: the report lists as top improvements at most five candidate tests
    whose percentage is below [-1], in ascending order of percentage, and
    every such test that is left out has a percentage at least as large
    as each listed one; the top regressions are the same with
    percentages above [1] and the descending order.  When at most five
    tests qualify, all of them are listed. *)
Theorem notable_changes (self : BenchmarkComparison) :
  ((length (Markdown.top_improvements self) ≤ 5)%nat ∧
   (∀ t d,
      (t, d) ∈ Markdown.top_improvements self →
      (t, d) ∈ comparisons self ∧ Str.contains "IthacaAccount" t = true ∧
      pct_lt (-1) d = true) ∧
   StronglySorted (key_le (λ x, percentage x.2) false)
     (Markdown.top_improvements self) ∧
   (∀ x t d,
      x ∈ Markdown.top_improvements self →
      (t, d) ∈ comparisons self → Str.contains "IthacaAccount" t = true →
      pct_lt (-1) d = true → (t, d) ∉ Markdown.top_improvements self →
      Float.le (percentage x.2) (percentage d) = true) ∧
   ((count_entries (λ t d, Str.contains "IthacaAccount" t && pct_lt (-1) d)
       (comparisons self) ≤ 5)%nat →
    ∀ t d,
      (t, d) ∈ comparisons self → Str.contains "IthacaAccount" t = true →
      pct_lt (-1) d = true → (t, d) ∈ Markdown.top_improvements self)) ∧
  ((length (Markdown.top_regressions self) ≤ 5)%nat ∧
   (∀ t d,
      (t, d) ∈ Markdown.top_regressions self →
      (t, d) ∈ comparisons self ∧ Str.contains "IthacaAccount" t = true ∧
      pct_gt 1 d = true) ∧
   StronglySorted (key_le (λ x, percentage x.2) true)
     (Markdown.top_regressions self) ∧
   (∀ x t d,
      x ∈ Markdown.top_regressions self →
      (t, d) ∈ comparisons self → Str.contains "IthacaAccount" t = true →
      pct_gt 1 d = true → (t, d) ∉ Markdown.top_regressions self →
      Float.le (percentage d) (percentage x.2) = true) ∧
   ((count_entries (λ t d, Str.contains "IthacaAccount" t && pct_gt 1 d)
       (comparisons self) ≤ 5)%nat →
    ∀ t d,
      (t, d) ∈ comparisons self → Str.contains "IthacaAccount" t = true →
      pct_gt 1 d = true → (t, d) ∈ Markdown.top_regressions self)).
Proof.
  split.
  - unfold Markdown.top_improvements.
    set (l := List.filter _ (comparisons self)).
    assert (∀ t d, (t, d) ∈ l ↔
              (t, d) ∈ comparisons self ∧
              Str.contains "IthacaAccount" t = true ∧ pct_lt (-1) d = true)
      as Hl.
    { intros t d. unfold l. rewrite filter_bool_elem_of, andb_true_iff.
      tauto. }
    destruct (top_of_sorted (λ x : string * TestComparison, percentage x.2)
                false 5 l) as (Hlen & Hsub & Hsorted & Hrest & Hall).
    { apply Forall_forall. intros [t d] Hin. apply Hl in Hin as (_ & _ & Hlt).
      by eapply pct_lt_not_nan. }
    split_and!; [done | | done | |].
    + intros t d Hin. by apply Hl, Hsub.
    + intros x t d Hx Hin Hname Hlt Hout.
      apply (Hrest x (t, d)); [done | by apply Hl | done].
    + intros Hcount t d Hin Hname Hlt. rewrite Hall; [by apply Hl |].
      unfold l. by rewrite <- count_entries_filter.
  - unfold Markdown.top_regressions.
    set (l := List.filter _ (comparisons self)).
    assert (∀ t d, (t, d) ∈ l ↔
              (t, d) ∈ comparisons self ∧
              Str.contains "IthacaAccount" t = true ∧ pct_gt 1 d = true)
      as Hl.
    { intros t d. unfold l. rewrite filter_bool_elem_of, andb_true_iff.
      tauto. }
    destruct (top_of_sorted (λ x : string * TestComparison, percentage x.2)
                true 5 l) as (Hlen & Hsub & Hsorted & Hrest & Hall).
    { apply Forall_forall. intros [t d] Hin. apply Hl in Hin as (_ & _ & Hgt).
      by eapply pct_gt_not_nan. }
    split_and!; [done | | done | |].
    + intros t d Hin. by apply Hl, Hsub.
    + intros x t d Hx Hin Hname Hgt Hout.
      apply (Hrest x (t, d)); [done | by apply Hl | done].
    + intros Hcount t d Hin Hname Hgt. rewrite Hall; [by apply Hl |].
      unfold l. by rewrite <- count_entries_filter.
Qed.

(** ** The three scripts agree on the regressions *)

Lemma count_entries_and_le (P Q : string → TestComparison → bool)
    (comps : dict TestComparison) :
  (count_entries (λ t d, P t d && Q t d) comps ≤ count_entries Q comps)%nat.
Proof.
  induction comps as [|[t d] comps IH]; simpl; [done |].
  destruct (P t d), (Q t d); simpl; lia.
Qed.

Lemma length_regressions (threshold : float) (comps : dict TestComparison) :
  length (omap (regression_of threshold) comps) =
  count_entries
    (λ t d, Str.contains "IthacaAccount" t
            && Float.gt (percentage d) threshold)
    comps.
Proof.
  induction comps as [|[t d] comps IH]; [done |].
  rewrite omap_cons_option_list, length_app, IH. simpl.
  by destruct (_ && _).
Qed.

(** X7: after a completed analysis the markdown summary, the JSON summary and
    the gate at its default threshold [5.0] agree: the markdown counts as
    many candidate tests as the JSON summary, its number of regressions is
    at most the JSON one (which also counts the other accounts) and is the
    number of regressions that the gate lists, so the gate fails exactly
    when the markdown summary shows a regression. *)
Theorem summaries_and_gate_agree (sum sum' : list float → float)
    (main_snap pr_snap : gmap string Z) (order : list string)
    (st : BenchmarkComparison) :
  enumerates order (all_tests (__init__ main_snap pr_snap)) →
  analyze order (__init__ main_snap pr_snap) = Ok st →
  match markdown_summary sum st with
  | Some md =>
      md_ithaca_tests md = ithaca_tests (summary (generate_json_data st)) ∧
      (md_regressions md ≤ regressions (summary (generate_json_data st)))%nat ∧
      length (Gate.regressions
                (Gate.check_regressions sum' (comparisons st)
                   (Float.of_int 5))) = md_regressions md ∧
      (Gate.exit_code
         (Gate.check_regressions sum' (comparisons st) (Float.of_int 5)) = 1
       ↔ md_regressions md ≠ 0%nat)
  | None =>
      ithaca_tests (summary (generate_json_data st)) = 0%nat ∧
      Gate.exit_code
        (Gate.check_regressions sum' (comparisons st) (Float.of_int 5)) = 0
  end.
Proof.
  intros [Hnd _] Hrun.
  pose proof (analyze_keys_NoDup _ _ _ _ Hnd Hrun) as Hkeys.
  destruct (gate_exit_code sum' (comparisons st) (Float.of_int 5))
    as (-> & _ & ->).
  pose proof (length_regressions (Float.of_int 5) (comparisons st)) as Hlen.
  fold (pct_gt 5) in Hlen.
  change (λ t d, Str.contains "IthacaAccount" t
                 && Float.gt (percentage d) (Float.of_int 5))
    with (λ t d, Str.contains "IthacaAccount" t && pct_gt 5 d) in Hlen.
  pose proof (filter_keys_pct (comparisons st)
                (λ t, Str.contains "IthacaAccount" t) (pct_gt 5) Hkeys)
    as Hmd.
  unfold markdown_summary. cbn [summary generate_json_data ithaca_tests
                                  regressions].
  destruct (List.filter _ (keys (comparisons st))) as [|t0 ts] eqn:Hcand.
  - simpl in Hmd. split; [done |].
    rewrite <- Hmd in Hlen.
    by destruct (omap (regression_of (Float.of_int 5)) (comparisons st)).
  - cbn [md_ithaca_tests md_regressions]. rewrite Hmd.
    split_and!.
    + done.
    + rewrite <- count_entries_filter.
      apply (count_entries_and_le
               (λ t _, Str.contains "IthacaAccount" t) (λ _ d, pct_gt 5 d)).
    + done.
    + rewrite <- Hlen. by destruct (omap (regression_of (Float.of_int 5)) (comparisons st)).
Qed.

Lemma summaries_and_gate_agree_witness :
  ∃ md,
    markdown_summary (foldr Float.add (Float.of_int 0)) example_state
      = Some md ∧
    md_ithaca_tests md
      = ithaca_tests (summary (generate_json_data example_state)) ∧
    length (Gate.regressions
              (Gate.check_regressions (foldr Float.add (Float.of_int 0))
                 (comparisons example_state) (Float.of_int 5)))
      = md_regressions md.
Proof.
  pose proof (summaries_and_gate_agree
                (foldr Float.add (Float.of_int 0))
                (foldr Float.add (Float.of_int 0))
                example_main example_pr example_order example_state
                example_order_enumerates example_run) as H.
  destruct (markdown_summary _ example_state) as [md|] eqn:Hmd;
    [|by vm_compute in Hmd].
  exists md. destruct H as (H1 & _ & H2 & _). done.
Defined.

(** ** More on the gate *)

Lemma SFleb_SFltb_trans (x y z : float) :
  SFleb x y = true → SFltb y z = true → SFltb x z = true.
Proof.
  unfold SFleb, SFltb.
  destruct x as [sx|sx| |sx mx ex], y as [sy|sy| |sy my ey],
    z as [sz|sz| |sz mz ez]; simpl; try done;
    repeat match goal with s : bool |- _ => destruct s end; simpl;
    try done;
    repeat match goal with
    | |- context [(?a ?= ?b)%Z] => destruct (Z.compare_spec a b)
    end; simpl; try done; try lia;
    repeat match goal with
    | |- context [Pos.compare_cont Eq ?a ?b] =>
        change (Pos.compare_cont Eq a b) with (Pos.compare a b);
        destruct (Pos.compare_spec a b)
    end; simpl; try done; try lia.
Qed.

Lemma regressions_sublist (threshold : float) (loaded : dict TestComparison) :
  Gate.Finding.test <$> omap (regression_of threshold) loaded
    `sublist_of` keys loaded.
Proof.
  unfold keys. induction loaded as [|[t d] loaded IH]; [done |].
  rewrite omap_cons_option_list, fmap_app, fmap_cons.
  unfold regression_of at 1. destruct (_ && _); simpl.
  - by apply sublist_skip.
  - by apply sublist_cons.
Qed.

Lemma warnings_sublist (threshold : float) (loaded : dict TestComparison) :
  Gate.Finding.test <$> omap (warning_of threshold) loaded
    `sublist_of` keys loaded.
Proof.
  unfold keys. induction loaded as [|[t d] loaded IH]; [done |].
  rewrite omap_cons_option_list, fmap_app, fmap_cons.
  unfold warning_of at 1. destruct (_ && _); simpl.
  - by apply sublist_skip.
  - by apply sublist_cons.
Qed.

(** X8: the gate lists the tests in the order of the loaded [comparisons]
    object; when its keys are distinct no test is listed twice, and no
    test is both a regression and a warning. *)
Theorem gate_lists_each_test_once (sum : list float → float)
    (loaded : dict TestComparison) (threshold : float) :
  NoDup (keys loaded) →
  Gate.Finding.test
    <$> Gate.regressions (Gate.check_regressions sum loaded threshold)
    `sublist_of` keys loaded ∧
  Gate.Finding.test
    <$> Gate.warnings (Gate.check_regressions sum loaded threshold)
    `sublist_of` keys loaded ∧
  NoDup (Gate.Finding.test
           <$> (Gate.regressions (Gate.check_regressions sum loaded threshold)
                ++ Gate.warnings
                     (Gate.check_regressions sum loaded threshold))%list).
Proof.
  intros Hnd.
  destruct (gate_exit_code sum loaded threshold) as (-> & -> & _).
  pose proof (regressions_sublist threshold loaded) as Hregs.
  pose proof (warnings_sublist threshold loaded) as Hwarns.
  split_and!; [done.. |].
  rewrite fmap_app. apply NoDup_app. split_and!.
  - by eapply sublist_NoDup.
  - intros t Hreg Hwarn.
    apply list_elem_of_fmap in Hreg as (f & -> & Hf).
    apply list_elem_of_fmap in Hwarn as (g & Htest & Hg).
    apply list_elem_of_omap in Hf as ([t1 d1] & Hin1 & Hf).
    apply list_elem_of_omap in Hg as ([t2 d2] & Hin2 & Hg).
    apply regression_of_Some in Hf as (_ & Hgt & ->).
    apply warning_of_Some in Hg as (_ & [_ Hle] & ->).
    simpl in Htest. subst t2.
    apply (dict_get_elem _ _ _ Hnd) in Hin1, Hin2.
    rewrite Hin1 in Hin2. injection Hin2 as <-.
    unfold Float.gt, Float.le in *.
    pose proof (SFleb_SFltb_trans _ _ _ Hle Hgt) as Hlt.
    by rewrite (SFltb_asym _ _ Hlt) in Hlt.
  - by eapply sublist_NoDup.
Qed.

Lemma gate_lists_each_test_once_witness :
  NoDup (Gate.Finding.test
           <$> (Gate.regressions
                  (Gate.check_regressions (foldr Float.add (Float.of_int 0))
                     (comparisons example_state) (Float.of_int 5))
                ++ Gate.warnings
                     (Gate.check_regressions
                        (foldr Float.add (Float.of_int 0))
                        (comparisons example_state) (Float.of_int 5)))%list).
Proof.
  assert (NoDup (keys (comparisons example_state))) as Hnd by compute_done.
  apply (gate_lists_each_test_once _ _ _ Hnd).
Defined.

(** X9: raising the threshold never turns a passing run into a failing one:
    every regression at the larger threshold is a regression at the
    smaller one. *)
Theorem gate_threshold_monotone (sum : list float → float)
    (loaded : dict TestComparison) (low high : float) :
  Float.le low high = true →
  (∀ f,
     f ∈ Gate.regressions (Gate.check_regressions sum loaded high) →
     f ∈ Gate.regressions (Gate.check_regressions sum loaded low)) ∧
  (Gate.exit_code (Gate.check_regressions sum loaded low) = 0 →
   Gate.exit_code (Gate.check_regressions sum loaded high) = 0).
Proof.
  intros Hle.
  destruct (gate_exit_code sum loaded high) as (-> & _ & ->).
  destruct (gate_exit_code sum loaded low) as (-> & _ & ->).
  assert (∀ f, f ∈ omap (regression_of high) loaded →
               f ∈ omap (regression_of low) loaded) as Hsub.
  { intros f ([t d] & Hin & Hf)%list_elem_of_omap.
    apply regression_of_Some in Hf as (Hname & Hgt & ->).
    apply list_elem_of_omap. exists (t, d). split; [done |].
    apply regression_of_Some. split_and!; [done | | done].
    unfold Float.gt, Float.le in *. by eapply SFleb_SFltb_trans. }
  split; [done |].
  destruct (omap (regression_of high) loaded) as [|f regs]; [done |].
  destruct (omap (regression_of low) loaded) as [|g regs'] eqn:Hlow; [|done].
  specialize (Hsub f ltac:(apply elem_of_cons; by left)).
  by apply elem_of_nil in Hsub.
Qed.

Lemma gate_threshold_monotone_witness :
  Gate.exit_code
    (Gate.check_regressions (foldr Float.add (Float.of_int 0))
       (comparisons example_state) (Float.of_int 30)) = 0.
Proof.
  assert (Float.le (Float.of_int 25) (Float.of_int 30) = true) as Hle
    by (by vm_compute).
  assert (Gate.exit_code
            (Gate.check_regressions (foldr Float.add (Float.of_int 0))
               (comparisons example_state) (Float.of_int 25)) = 0) as Hlow
    by (by vm_compute).
  apply (proj2 (gate_threshold_monotone _ _ _ _ Hle) Hlow).
Defined.

(** ** The table of changes of generate_charts.py *)






Lemma draw_rows_lookup (items : list (string * float)) (y_offset : Z)
    (k : nat) (row : Charts.TableRow) :
  Charts.draw_rows items y_offset !! k = Some row →
  ∃ test change,
    items !! k = Some (test, change) ∧
    row = {| Charts.row_text := Str.take 30 (Charts.short_name test);
             Charts.row_change := change;
             Charts.row_y := y_offset + 25 * Z.of_nat k |}.
Proof.
  revert y_offset k. induction items as [|[test change] items IH];
    intros y_offset k; [done |].
  destruct k as [|k]; cbn [Charts.draw_rows lookup list_lookup].
  - intros [= <-]. exists test, change. split; [done |].
    f_equal. lia.
  - intros (test' & change' & Hk & ->)%IH.
    exists test', change'. split; [done |]. f_equal. lia.
Qed.

Lemma draw_rows_length (items : list (string * float)) (y_offset : Z) :
  length (Charts.draw_rows items y_offset) = length items.
Proof.
  revert y_offset. induction items as [|[test change] items IH];
    intros y_offset; simpl; [done |]. by rewrite IH.
Qed.

Lemma str_take_length (n : nat) (s : string) :
  String.length (Str.take n s) = (n `min` String.length s)%nat.
Proof.
  revert s. induction n as [|n IH]; intros [|c s]; simpl; [done.. |].
  by rewrite IH.
Qed.

(** X11: the table of changes draws at most five rows per column, 25 apart
    from 60 on, with a text of at most 30 characters; every row lies
    inside the picture, whose height grows with the longer of the two
    lists. *)
Theorem changes_table_layout (improvements regressions : list (string * float))
    (k : nat) (row : Charts.TableRow) :
  Charts.improvement_rows
    (Charts.generate_comparison_table_svg improvements regressions) !! k
    = Some row ∨
  Charts.regression_rows
    (Charts.generate_comparison_table_svg improvements regressions) !! k
    = Some row →
  (k < 5)%nat ∧
  Charts.row_y row = 60 + 25 * Z.of_nat k ∧
  Charts.row_y row + 65 <=
    Charts.table_height
      (Charts.generate_comparison_table_svg improvements regressions) ∧
  (String.length (Charts.row_text row) ≤ 30)%nat ∧
  length (Charts.improvement_rows
            (Charts.generate_comparison_table_svg improvements regressions))
    = (5 `min` length improvements)%nat ∧
  length (Charts.regression_rows
            (Charts.generate_comparison_table_svg improvements regressions))
    = (5 `min` length regressions)%nat.
Proof.
  cbn [Charts.generate_comparison_table_svg Charts.improvement_rows
       Charts.regression_rows Charts.table_height].
  intros Hrow.
  assert (∃ items : list (string * float),
            Charts.draw_rows (firstn 5 items) 60 !! k = Some row ∧
            (length items ≤ length improvements `max` length regressions)%nat)
    as (items & Hk & Hlen).
  { destruct Hrow as [Hrow|Hrow]; eexists; (split; [exact Hrow | lia]). }
  pose proof (lookup_lt_Some _ _ _ Hk) as Hlt.
  rewrite draw_rows_length, length_take in Hlt.
  apply draw_rows_lookup in Hk as (test & change & _ & ->).
  cbn [Charts.row_y Charts.row_text].
  rewrite str_take_length, !draw_rows_length, !length_take.
  split_and!; lia.
Qed.

Lemma changes_table_layout_witness :
  Charts.row_y
    {| Charts.row_text := "A";
       Charts.row_change := Float.of_int (-3);
       Charts.row_y := 60 |} + 65 <=
  Charts.table_height
    (Charts.generate_comparison_table_svg
       [("testA_IthacaAccount", Float.of_int (-3))] []).
Proof.
  assert (Charts.improvement_rows
            (Charts.generate_comparison_table_svg
               [("testA_IthacaAccount", Float.of_int (-3))] []) !! 0%nat
          = Some {| Charts.row_text := "A";
                    Charts.row_change := Float.of_int (-3);
                    Charts.row_y := 60 |}) as Hrow by (by vm_compute).
  apply (changes_table_layout _ _ _ _ (or_introl Hrow)).
Defined.

(** ** The bars and their labels *)

Lemma remove_from_length (old : string) (skip : nat) (s : string) :
  (String.length (Str.remove_from old skip s) ≤ String.length s)%nat.
Proof.
  revert skip. induction s as [|c s IH]; intros skip; [done |].
  cbn [Str.remove_from]. destruct skip as [|k].
  - destruct (Str.startswith old (String c s)); simpl.
    + specialize (IH (String.length old - 1)%nat). lia.
    + specialize (IH 0%nat). lia.
  - specialize (IH k). simpl. lia.
Qed.

Lemma remove_length (old s : string) :
  (String.length (Str.remove old s) ≤ String.length s)%nat.
Proof.
  unfold Str.remove. case_bool_decide; [done |]. apply remove_from_length.
Qed.

Lemma append_length (s1 s2 : string) :
  String.length (s1 +:+ s2) = (String.length s1 + String.length s2)%nat.
Proof. induction s1 as [|c s1 IH]; [done |]. rewrite app_cons. simpl. lia. Qed.

(** X12: the label under a bar has at most twelve characters and is never
    longer than the account name; the labels of the seven account types
    are pairwise distinct. *)
Theorem display_name_fits (account : string) :
  (String.length (Charts.display_name account) ≤ 12)%nat ∧
  (String.length (Charts.display_name account) ≤ String.length account)%nat ∧
  NoDup (Charts.display_name <$> ACCOUNT_TYPES).
Proof.
  split_and!; [| |compute_done].
  - unfold Charts.display_name.
    destruct (_ <? _)%nat eqn:Hlen.
    + rewrite append_length, str_take_length.
      change (String.length "..") with 2%nat. lia.
    + by apply Nat.ltb_ge in Hlen.
  - unfold Charts.display_name.
    pose proof (remove_length "Smart" (Str.remove "Account" account)).
    pose proof (remove_length "Account" account).
    destruct (_ <? _)%nat eqn:Hlen; [|lia].
    apply Nat.ltb_lt in Hlen.
    rewrite append_length, str_take_length.
      change (String.length "..") with 2%nat. lia.
Qed.

Lemma insert_by_value_sorted (x : string * Z) (xs : list (string * Z)) :
  StronglySorted (λ a b, a.2 <= b.2) xs →
  StronglySorted (λ a b, a.2 <= b.2) (Charts.insert_by_value x xs).
Proof.
  induction 1 as [|y ys Hys IH Hy]; simpl.
  - repeat constructor.
  - destruct (y.2 <? x.2) eqn:Hlt.
    + constructor; [done |]. rewrite insert_by_value_perm.
      constructor; [lia | done].
    + constructor; [by constructor |].
      constructor; [lia |].
      eapply Forall_impl; [exact Hy |]. intros z Hz. simpl in *. lia.
Qed.

Lemma sorted_by_value_sorted (xs : list (string * Z)) :
  StronglySorted (λ a b, a.2 <= b.2) (Charts.sorted_by_value xs).
Proof.
  induction xs as [|x xs IH]; simpl; [constructor |].
  by apply insert_by_value_sorted.
Qed.

Lemma max_value_spec (items : list (string * Z)) (m : Z) :
  let max_value := fold_left (λ m '(account, gas), Z.max m gas) items m in
  m <= max_value ∧
  (∀ account gas, (account, gas) ∈ items → gas <= max_value) ∧
  (max_value = m ∨ ∃ account, (account, max_value) ∈ items).
Proof.
  revert m. induction items as [|[a g] items IH]; intros m; simpl.
  - split_and!; [lia | | by left]. intros ?? H. by apply elem_of_nil in H.
  - destruct (IH (Z.max m g)) as (Hle & Hall & Hmax). split_and!.
    + lia.
    + intros a' g' [[= -> ->]|Hin]%elem_of_cons; [lia | by eapply Hall].
    + destruct Hmax as [Hmax | [a' Hmax]].
      * destruct (Z.max_spec m g) as [[_ Heq]|[_ Heq]]; rewrite Heq in *.
        -- right. exists a. rewrite Hmax. apply elem_of_cons. by left.
        -- by left.
      * right. exists a'. apply elem_of_cons. by right.
Qed.

(** X13: the bars of a chart are drawn in ascending order of gas, and the
    scale of the chart, [max_value], is zero or the gas of a bar and is
    not below any bar. *)
Theorem bars_in_ascending_order (data : dict Z) (title : string)
    (chart : Charts.BarChart) :
  Charts.generate_svg_bar_chart data title = Ok (Some chart) →
  StronglySorted (λ a b, a.2 <= b.2) (Charts.bars chart) ∧
  (∀ account gas,
     (account, gas) ∈ Charts.bars chart → gas <= Charts.max_value chart) ∧
  0 <= Charts.max_value chart ∧
  (Charts.max_value chart = 0 ∨
   ∃ account, (account, Charts.max_value chart) ∈ Charts.bars chart).
Proof.
  intros Hgen. apply generate_svg_bar_chart_Ok in Hgen. symmetry in Hgen.
  revert Hgen. unfold Charts.chart_bars.
  pose proof (sorted_by_value_sorted data) as Hsorted.
  pose proof (max_value_spec (Charts.sorted_by_value data) 0) as Hmax.
  destruct (Charts.sorted_by_value data) as [|x items]; [done |].
  intros [= <-]. cbn [Charts.bars Charts.max_value].
  cbv zeta in Hmax. destruct Hmax as (Hle & Hall & Hor). by split_and!.
Qed.

Lemma bars_in_ascending_order_witness :
  StronglySorted (λ a b, a.2 <= b.2) [("Safe4337", 150); ("IthacaAccount", 200)].
Proof.
  assert (Charts.generate_svg_bar_chart
            [("IthacaAccount", 200); ("Safe4337", 150)] "Gas"
          = Ok (Some {| Charts.title := "Gas";
                    Charts.bars := [("Safe4337", 150); ("IthacaAccount", 200)];
                    Charts.max_value := 200 |})) as Hchart by (by vm_compute).
  apply (bars_in_ascending_order _ _ _ Hchart).
Defined.

(** ** The candidate account in the charts *)

Lemma first_account_type_in_elem (account_types : list string)
    (test_name account : string) :
  first_account_type_in account_types test_name = Some account →
  account ∈ account_types.
Proof.
  induction account_types as [|a rest IH]; simpl; [done |].
  destruct (Str.contains a test_name).
  - intros [= <-]. apply elem_of_cons. by left.
  - intros H. apply elem_of_cons. right. by apply IH.
Qed.

Lemma resolved_account_type (test_name account : string) :
  get_account_type test_name = Some account →
  account ∈ ACCOUNT_TYPES ∧
  account ≠ "IthacaAccountWithSpendLimits" ∧
  (Str.contains "IthacaAccount" account = true ↔ account = "IthacaAccount").
Proof.
  intros Hget.
  assert (account ≠ "IthacaAccountWithSpendLimits") as Hne.
  { intros ->. by apply get_account_type_never_spend_limits in Hget. }
  pose proof (first_account_type_in_elem _ _ _ Hget) as Hin.
  split_and!; [done | done |].
  unfold ACCOUNT_TYPES in Hin.
  repeat (apply elem_of_cons in Hin as [->|Hin]; [by vm_compute |]).
  by apply elem_of_nil in Hin.
Qed.

Lemma matching_gas_elem (f : string → bool) (a : string)
    (loaded : dict TestComparison) (v : Z) :
  v ∈ matching_gas f a loaded →
  ∃ t d, (t, d) ∈ loaded ∧ f t = true ∧
         Charts.truthy_account d = Some a ∧ pr d = v.
Proof.
  unfold matching_gas. intros ([t d] & Hin & Hv)%list_elem_of_omap.
  destruct (f t) eqn:Hf; [|done]. simpl in Hv.
  case_bool_decide; [|done]. injection Hv as <-. by exists t, d.
Qed.

Lemma truthy_account_Some (d : TestComparison) (a : string) :
  Charts.truthy_account d = Some a → account_type d = Some a.
Proof.
  unfold Charts.truthy_account. destruct (account_type d) as [a'|]; [|done].
  case_bool_decide; [done |]. by intros [= <-].
Qed.

(** X14: in a chart drawn from the data of a completed analysis every bar
    belongs to a different account type of [ACCOUNT_TYPES], never to
    [IthacaAccountWithSpendLimits], and the bar drawn in the candidate's
    colour is the bar of [IthacaAccount]: at most one bar is
    highlighted. *)
Theorem one_bar_highlighted (main_snap pr_snap : gmap string Z)
    (order : list string) (st : BenchmarkComparison)
    (filter_func : string → bool) (title : string)
    (chart : Charts.BarChart) :
  analyze order (__init__ main_snap pr_snap) = Ok st →
  Charts.generate_svg_bar_chart
    (Charts.chart_data_of filter_func
       (json_comparisons (generate_json_data st))) title = Ok (Some chart) →
  NoDup (Charts.bars chart).*1 ∧
  ∀ account gas,
    (account, gas) ∈ Charts.bars chart →
    account ∈ ACCOUNT_TYPES ∧
    account ≠ "IthacaAccountWithSpendLimits" ∧
    (Charts.is_ithaca account = true ↔ account = "IthacaAccount").
Proof.
  cbn [json_comparisons generate_json_data]. intros Hrun Hchart.
  apply generate_svg_bar_chart_Ok in Hchart.
  pose proof (chart_bars_spec
                (Charts.chart_data_of filter_func (comparisons st)) title)
    as Hgen.
  rewrite <- Hchart in Hgen. destruct Hgen as [Hperm _]. split.
  - rewrite Hperm. apply chart_data_NoDup.
  - intros account gas Hbar. rewrite Hperm in Hbar.
    apply dict_get_elem in Hbar; [|apply chart_data_NoDup].
    apply chart_data_minimum in Hbar as [Hbar _].
    apply matching_gas_elem in Hbar as (t & d & Hin & _ & Hacc & _).
    apply truthy_account_Some in Hacc.
    rewrite (analyze_account_type _ _ _ _ _ _ Hrun Hin) in Hacc.
    by apply resolved_account_type in Hacc.
Qed.

Lemma one_bar_highlighted_witness :
  "IthacaAccount" ∈ ACCOUNT_TYPES ∧
  "IthacaAccount" ≠ "IthacaAccountWithSpendLimits" ∧
  (Charts.is_ithaca "IthacaAccount" = true ↔
   "IthacaAccount" = "IthacaAccount").
Proof.
  assert (Charts.generate_svg_bar_chart
            (Charts.chart_data_of (λ t, Str.contains "testERC20Transfer_" t)
               (json_comparisons (generate_json_data example_state)))
            "Gas"
          = Ok (Some {| Charts.title := "Gas";
                        Charts.bars :=
                          [("IthacaAccount", 50); ("Safe4337", 180)];
                        Charts.max_value := 180 |})) as Hchart
    by (by vm_compute).
  assert (("IthacaAccount", 50)
          ∈ Charts.bars {| Charts.title := "Gas";
                           Charts.bars :=
                             [("IthacaAccount", 50); ("Safe4337", 180)];
                           Charts.max_value := 180 |}) as Hbar
    by (apply elem_of_cons; by left).
  apply (proj2 (one_bar_highlighted example_main example_pr example_order
                  example_state _ _ _ example_run Hchart) _ _ Hbar).
Defined.

(** ** The diagram of the markdown report *)

Lemma pick_single_op_get (acc : dict Z) (t : string) (d : TestComparison)
    (a : string) :
  dict_get a (Markdown.pick_single_op acc (t, d)) =
  match last (matching_gas single_erc20 a [(t, d)]) with
  | Some v => Some v
  | None => dict_get a acc
  end.
Proof.
  unfold Markdown.pick_single_op, matching_gas. csimpl.
  change (Str.contains "testERC20Transfer_" t
          && negb (Str.contains "batch" (Str.lower t))
          && negb (Str.contains "Sponsor" t)
          && negb (Str.contains "ERC20SelfPay" t)) with (single_erc20 t).
  destruct (single_erc20 t); simpl; [|done].
  destruct (Charts.truthy_account d) as [a'|]; [|done].
  destruct (decide (a' = a)) as [->|Hne].
  - rewrite bool_decide_true by done. simpl. by rewrite dict_get_set_eq.
  - rewrite bool_decide_false by congruence. simpl.
    by rewrite dict_get_set_ne.
Qed.

Lemma single_op_get (loaded : dict TestComparison) (acc : dict Z)
    (a : string) :
  dict_get a (fold_left Markdown.pick_single_op loaded acc) =
  match last (matching_gas single_erc20 a loaded) with
  | Some v => Some v
  | None => dict_get a acc
  end.
Proof.
  revert acc. induction loaded as [|[t d] loaded IH]; intros acc; [done |].
  cbn [fold_left]. rewrite IH, pick_single_op_get.
  rewrite (matching_gas_cons single_erc20 a (t, d) loaded), last_app.
  by destruct (last (matching_gas single_erc20 a loaded)).
Qed.

Lemma keys_dict_set {V W} (k : string) (v : V) (w : W) (d : dict V)
    (e : dict W) :
  keys d = keys e → keys (dict_set k v d) = keys (dict_set k w e).
Proof.
  unfold keys. revert e.
  induction d as [|[k1 v1] d IH]; intros [|[k2 w2] e]; try done.
  csimpl. intros [= <- Hkeys]. destruct (decide (k = k1)); csimpl.
  - by rewrite Hkeys.
  - f_equal. by apply IH.
Qed.

Lemma single_op_keys (loaded : dict TestComparison) (acc acc' : dict Z) :
  keys acc = keys acc' →
  keys (fold_left Markdown.pick_single_op loaded acc) =
  keys (fold_left (Charts.add_test single_erc20) loaded acc').
Proof.
  revert acc acc'.
  induction loaded as [|[t d] loaded IH]; intros acc acc' Hkeys; [done |].
  cbn [fold_left]. apply IH.
  unfold Markdown.pick_single_op, Charts.add_test.
  change (Str.contains "testERC20Transfer_" t
          && negb (Str.contains "batch" (Str.lower t))
          && negb (Str.contains "Sponsor" t)
          && negb (Str.contains "ERC20SelfPay" t)) with (single_erc20 t).
  destruct (single_erc20 t); [|done].
  destruct (Charts.truthy_account d) as [a|]; [|done].
  destruct (dict_get a acc') as [gas|] eqn:Hget.
  - destruct (pr d <? gas); [by apply keys_dict_set |].
    rewrite <- (keys_dict_set_present a (pr d) acc') by (by rewrite Hget).
    by apply keys_dict_set.
  - by apply keys_dict_set.
Qed.

Lemma diagram_nodes_accounts (i : nat) (sorted_single : list (string * Z)) :
  (λ node : string * string * Z, (node.1.2, node.2))
    <$> Markdown.diagram_nodes_from i sorted_single = sorted_single.
Proof.
  revert i. induction sorted_single as [|[a g] l IH]; intros i; [done |].
  cbn [Markdown.diagram_nodes_from]. csimpl. by rewrite IH.
Qed.

Lemma last_elem_of {A} (l : list A) (x : A) : last l = Some x → x ∈ l.
Proof.
  induction l as [|y [|z l] IH]; simpl; [done | |].
  - intros [= ->]. apply elem_of_cons. by left.
  - intros H. apply elem_of_cons. right. by apply IH.
Qed.

(** X15: the diagram has a node for exactly the account types of the
    [single_erc20] chart, in the order in which the chart data holds
    them, but shows for each the gas of the last matching test where the
    chart shows the least: the value of the diagram is never below the
    bar of the chart. *)
Theorem diagram_shows_last_test (self : BenchmarkComparison)
    (account : string) :
  ("single_erc20", single_erc20) ∈ Charts.operation_types ∧
  keys (Markdown.single_op_accounts self) =
    keys (Charts.chart_data_of single_erc20 (comparisons self)) ∧
  dict_get account (Markdown.single_op_accounts self) =
    last (matching_gas single_erc20 account (comparisons self)) ∧
  (∀ gas,
     (∃ style, (style, account, gas) ∈ Markdown.diagram_nodes self) ↔
     last (matching_gas single_erc20 account (comparisons self)) = Some gas) ∧
  (∀ gas v,
     dict_get account (Markdown.single_op_accounts self) = Some gas →
     dict_get account (Charts.chart_data_of single_erc20 (comparisons self))
       = Some v →
     v <= gas).
Proof.
  assert (keys (Markdown.single_op_accounts self) =
          keys (Charts.chart_data_of single_erc20 (comparisons self)))
    as Hkeys by (by apply single_op_keys).
  assert (dict_get account (Markdown.single_op_accounts self) =
          last (matching_gas single_erc20 account (comparisons self)))
    as Hget.
  { unfold Markdown.single_op_accounts. rewrite single_op_get.
    by destruct (last _). }
  split_and!; [apply elem_of_cons; by left | done | done | |].
  - intros gas. rewrite <- Hget. unfold Markdown.diagram_nodes. split.
    + intros [style Hnode].
      apply dict_get_elem;
        [rewrite Hkeys; apply chart_data_NoDup |].
      rewrite <- (sorted_by_value_perm (Markdown.single_op_accounts self)).
      rewrite <- (diagram_nodes_accounts 0
                    (Charts.sorted_by_value
                       (Markdown.single_op_accounts self))).
      apply list_elem_of_fmap. by exists (style, account, gas).
    + intros Hgas. apply dict_get_Some_elem in Hgas.
      rewrite <- (sorted_by_value_perm (Markdown.single_op_accounts self))
        in Hgas.
      rewrite <- (diagram_nodes_accounts 0
                    (Charts.sorted_by_value
                       (Markdown.single_op_accounts self))) in Hgas.
      apply list_elem_of_fmap in Hgas as ([[style a] g] & [= -> ->] & Hin).
      by exists style.
  - intros gas v Hgas Hv. rewrite Hget in Hgas.
    apply chart_data_minimum in Hv as [_ Hmin].
    apply Hmin. by apply last_elem_of.
Qed.

Lemma chr_inj (n m : nat) :
  (n < 256)%nat → (m < 256)%nat → ascii_of_nat n = ascii_of_nat m → n = m.
Proof.
  intros Hn Hm Heq.
  rewrite <- (nat_ascii_embedding n Hn), <- (nat_ascii_embedding m Hm).
  by rewrite Heq.
Qed.

Lemma diagram_node_style (i : nat) (sorted_single : list (string * Z))
    (style account : string) (gas : Z) :
  (style, account, gas) ∈ Markdown.diagram_nodes_from i sorted_single →
  (account, gas) ∈ sorted_single ∧
  (account = "IthacaAccount" ∧ style = "A" ∨
   account ≠ "IthacaAccount" ∧
   ∃ k, (i ≤ k < i + length sorted_single)%nat ∧
        style = String (ascii_of_nat (66 + k)) EmptyString).
Proof.
  revert i. induction sorted_single as [|[a g] l IH]; intros i.
  - intros H. by apply elem_of_nil in H.
  - cbn [Markdown.diagram_nodes_from].
    intros [[= -> -> ->]|Hin]%elem_of_cons.
    + split; [apply elem_of_cons; by left |].
      case_bool_decide; [by left |]. right. split; [done |].
      exists i. simpl. split; [lia | done].
    + apply IH in Hin as [Hin Hstyle]. split; [apply elem_of_cons; by right |].
      destruct Hstyle as [?|(Hne & k & Hk & ->)]; [by left |].
      right. split; [done |]. exists k. simpl. split; [lia | done].
Qed.

Lemma diagram_node_ids_NoDup (i : nat) (sorted_single : list (string * Z)) :
  NoDup sorted_single.*1 →
  (i + length sorted_single ≤ 190)%nat →
  NoDup (node_ids (Markdown.diagram_nodes_from i sorted_single)).
Proof.
  unfold node_ids. revert i.
  induction sorted_single as [|[a g] l IH]; intros i Hnd Hlen;
    [apply NoDup_nil_2 |].
  cbn [Markdown.diagram_nodes_from]. csimpl in *.
  apply NoDup_cons in Hnd as [Ha Hnd].
  apply NoDup_cons. split; [|apply IH; [done | lia]].
  intros ([[style a'] g'] & Hstyle & Hin)%list_elem_of_fmap.
  simpl in Hstyle. subst style.
  apply diagram_node_style in Hin as [Hin Hstyle].
  assert (a' ≠ a) as Hne.
  { intros ->. apply Ha. apply list_elem_of_fmap. by exists (a, g'). }
  destruct Hstyle as [[-> Hstyle]|(Ha' & k & Hk & Hstyle)].
  - rewrite bool_decide_false in Hstyle by done.
    injection Hstyle as Hchr.
    apply (chr_inj (66 + i) 65) in Hchr; lia.
  - case_bool_decide.
    + injection Hstyle as Hchr.
      apply (chr_inj 65 (66 + k)) in Hchr; lia.
    + injection Hstyle as Hchr.
      apply (chr_inj (66 + i) (66 + k)) in Hchr; lia.
Qed.

Lemma single_op_account_resolved (main_snap pr_snap : gmap string Z)
    (order : list string) (st : BenchmarkComparison) (account : string) :
  analyze order (__init__ main_snap pr_snap) = Ok st →
  account ∈ keys (Markdown.single_op_accounts st) →
  account ∈ ACCOUNT_TYPES ∧ account ≠ "IthacaAccountWithSpendLimits".
Proof.
  intros Hrun ([a gas] & -> & Hin)%list_elem_of_fmap. simpl.
  apply dict_get_elem in Hin.
  - unfold Markdown.single_op_accounts in Hin.
    rewrite single_op_get in Hin.
    destruct (last _) as [v|] eqn:Hlast; [|done].
    apply last_elem_of, matching_gas_elem in Hlast
      as (t & d & Hd & _ & Hacc & _).
    apply truthy_account_Some in Hacc.
    rewrite (analyze_account_type _ _ _ _ _ _ Hrun Hd) in Hacc.
    apply resolved_account_type in Hacc as (? & ? & _). done.
  - unfold Markdown.single_op_accounts.
    rewrite (single_op_keys _ [] []) by done. apply chart_data_NoDup.
Qed.

(** X16: after a completed analysis the nodes of the diagram have pairwise
    distinct identifiers, the node [A] is the node of [IthacaAccount], and
    there are at most six nodes. *)
Theorem diagram_node_ids_distinct (main_snap pr_snap : gmap string Z)
    (order : list string) (st : BenchmarkComparison) :
  analyze order (__init__ main_snap pr_snap) = Ok st →
  NoDup (node_ids (Markdown.diagram_nodes st)) ∧
  (length (Markdown.diagram_nodes st) ≤ 6)%nat ∧
  ∀ style account gas,
    (style, account, gas) ∈ Markdown.diagram_nodes st →
    (style = "A" ↔ account = "IthacaAccount").
Proof.
  intros Hrun. unfold Markdown.diagram_nodes.
  pose proof (sorted_by_value_perm (Markdown.single_op_accounts st)) as Hperm.
  assert (NoDup (keys (Markdown.single_op_accounts st))) as Hnd.
  { unfold Markdown.single_op_accounts.
    rewrite (single_op_keys _ [] []) by done. apply chart_data_NoDup. }
  assert (length (Markdown.single_op_accounts st) ≤ 6)%nat as Hlen.
  { change 6%nat
      with (length (List.filter
                      (λ a, negb (bool_decide
                                    (a = "IthacaAccountWithSpendLimits")))
                      ACCOUNT_TYPES)).
    rewrite <- (length_fmap fst). apply submseteq_length.
    apply NoDup_submseteq; [done |].
    intros a Ha. apply filter_bool_elem_of.
    destruct (single_op_account_resolved _ _ _ _ _ Hrun Ha) as [Hin Hne].
    split; [done |]. by rewrite bool_decide_false. }
  set (l := Charts.sorted_by_value (Markdown.single_op_accounts st)) in *.
  assert (length l ≤ 6)%nat as Hl by (by rewrite Hperm).
  split_and!.
  - apply diagram_node_ids_NoDup; [|lia]. by rewrite Hperm.
  - rewrite <- (length_fmap (λ node : string * string * Z,
                               (node.1.2, node.2))).
    by rewrite diagram_nodes_accounts.
  - intros style account gas Hin.
    apply diagram_node_style in Hin as [_ Hstyle].
    destruct Hstyle as [[-> ->]|(Hne & k & Hk & ->)]; [done |].
    split; [|done]. intros [= Hchr].
    apply (chr_inj (66 + k) 65) in Hchr; lia.
Qed.

Lemma diagram_node_ids_distinct_witness :
  NoDup (node_ids (Markdown.diagram_nodes example_state)).
Proof.
  apply (diagram_node_ids_distinct example_main example_pr example_order
           example_state example_run).
Defined.

(** ** The base test *)






(** ** The sign of a change *)

Lemma binary_round_aux_sign (s : bool) (q e : Z) (l : location) :
  0 <= q → on_side s (binary_round_aux Float.prec Float.emax s q e l).
Proof.
  intros Hq. unfold binary_round_aux.
  destruct (shr_fexp_spec q e l Hq) as (mrs1 & e1 & -> & He1 & Hm1).
  assert (0 <= shr_m mrs1) as Hm1pos.
  { rewrite Hm1. apply Z.div_pos; [done |]. apply Z.pow_pos_nonneg; lia. }
  pose proof (round_nearest_even_bounds (shr_m mrs1) (loc_of_shr_record mrs1)
                Hm1pos) as Hm2.
  destruct (shr_fexp_spec _ e1 loc_Exact (proj1 Hm2))
    as (mrs2 & e2 & -> & He2 & Hm2').
  assert (0 <= shr_m mrs2) as Hpos.
  { rewrite Hm2'. apply Z.div_pos; [lia |]. apply Z.pow_pos_nonneg; lia. }
  destruct (shr_m mrs2) as [|p|p]; [by destruct s | | lia].
  destruct (e2 <=? _); by destruct s.
Qed.

Lemma int_true_div_sign (a b : Z) (f : float) :
  Float.int_true_div a b = Ok f → 0 < b →
  (0 <= a → nonneg f) ∧ (a <= 0 → nonpos f).
Proof.
  unfold Float.int_true_div. intros Hdiv Hb. revert Hdiv.
  destruct (Z.eqb_spec b 0); [done |].
  destruct (Z.eqb_spec a 0) as [->|Ha]; [by intros [= <-] |].
  destruct (div_core_bounds (Z.abs a) (Z.abs b)) as (q & e & l & -> & Hq & _);
    [lia.. |].
  pose proof (binary_round_aux_sign (xorb (a <? 0) (b <? 0)) q e l Hq)
    as Hsign.
  rewrite (proj2 (Z.ltb_ge b 0)) in * by lia. rewrite xorb_false_r in *.
  intros Hf.
  assert (f = binary_round_aux Float.prec Float.emax (a <? 0) q e l) as ->.
  { destruct (binary_round_aux _ _ _ q e l); try done; by injection Hf. }
  split; intros Hle.
  - rewrite (proj2 (Z.ltb_ge a 0)) in Hsign |- * by lia. exact Hsign.
  - rewrite (proj2 (Z.ltb_lt a 0)) in Hsign |- * by lia. exact Hsign.
Qed.

Lemma mul_100_sign (s : bool) (q : float) :
  on_side s q → on_side s (Float.mul q (Float.of_int 100)).
Proof.
  change (Float.of_int 100) with (S754_finite false 7036874417766400 (-46)).
  destruct q as [s'|s'| |s' m e]; unfold Float.mul, SFmul.
  - by destruct s.
  - intros Hs. rewrite xorb_false_r. by destruct s, s'.
  - by destruct s.
  - intros Hs. rewrite xorb_false_r.
    assert (s' = s) as -> by (by destruct s, s').
    by apply binary_round_aux_sign.
Qed.

Lemma calculate_change_sign (main_val pr_val abs : Z) (pct : float) :
  calculate_change main_val pr_val = Ok (abs, pct) →
  0 <= main_val →
  (main_val <= pr_val → nonneg pct) ∧ (pr_val <= main_val → nonpos pct).
Proof.
  unfold calculate_change. intros Hchange Hmain. revert Hchange.
  destruct (Z.eqb_spec main_val 0) as [->|Hne]; simpl.
  - intros [= _ <-]. destruct (Z.ltb_spec 0 pr_val).
    + split; [intros _ | lia]. by vm_compute.
    + split; intros _; by vm_compute.
  - destruct (Float.int_true_div _ main_val) as [q|] eqn:Hq; simpl; [|done].
    intros [= _ <-].
    apply int_true_div_sign in Hq as [Hpos Hneg]; [|lia].
    split; intros Hle.
    + apply (mul_100_sign false), Hpos. lia.
    + apply (mul_100_sign true), Hneg. lia.
Qed.

Lemma nonneg_not_lt (x y : float) :
  nonneg x → SFleb y (Float.of_int 0) = true → SFltb x y = false.
Proof.
  change (Float.of_int 0) with (S754_zero false).
  destruct x as [sx|sx| |sx mx ex], y as [sy|sy| |sy my ey]; simpl;
    try done; intros Hx Hy; subst; try done;
    by destruct sy.
Qed.

Lemma nonpos_not_gt (x y : float) :
  nonpos x → SFleb (Float.of_int 0) y = true → SFltb y x = false.
Proof.
  change (Float.of_int 0) with (S754_zero false).
  destruct x as [sx|sx| |sx mx ex], y as [sy|sy| |sy my ey]; simpl;
    try done; intros Hx Hy; subst; try done;
    by destruct sy.
Qed.

Lemma analyze_entry_calculated (main_snap pr_snap : gmap string Z)
    (order : list string) (st : BenchmarkComparison) (t : string)
    (d : TestComparison) :
  analyze order (__init__ main_snap pr_snap) = Ok st →
  (t, d) ∈ comparisons st →
  calculate_change (main d) (pr d) = Ok (absolute d, percentage d).
Proof.
  intros [Hloop _]%analyze_inv. revert Hloop. cbn [comparisons __init__].
  intros Hloop Hin.
  assert (Forall (λ '(_, d), calculate_change (main d) (pr d)
                             = Ok (absolute d, percentage d))
            (comparisons st)) as Hall.
  { eapply (for_each_invariant _
              (Forall (λ '(_, d), calculate_change (main d) (pr d)
                                  = Ok (absolute d, percentage d))));
      [| |exact Hloop]; [|done].
    intros x acc acc' _ Hacc. rewrite analyze_test_recorded.
    unfold recorded_entry. destruct (_ && _); simpl; [by intros [= <-] |].
    destruct (calculate_change _ _) as [[a pct]|] eqn:Hchange; simpl; [|done].
    intros [= <-].
    by apply (Forall_dict_set
                (λ '(_, d), calculate_change (main d) (pr d)
                            = Ok (absolute d, percentage d))). }
  rewrite Forall_forall in Hall. by apply (Hall (t, d)).
Qed.

(** X18: for a test whose gas on main is not negative, the recorded percentage
    lies on the side of zero of the difference: a test whose gas did not
    grow is above no threshold that is at least zero, so it is never a
    regression, and a test whose gas did not fall is below no threshold
    that is at most zero, so it is never an improvement. *)
Theorem change_on_the_side_of_the_difference
    (main_snap pr_snap : gmap string Z) (order : list string)
    (st : BenchmarkComparison) (t : string) (d : TestComparison) :
  analyze order (__init__ main_snap pr_snap) = Ok st →
  (t, d) ∈ comparisons st →
  0 <= main d →
  (pr d <= main d →
   ∀ threshold,
     Float.le (Float.of_int 0) threshold = true →
     Float.gt (percentage d) threshold = false) ∧
  (main d <= pr d →
   ∀ threshold,
     Float.le threshold (Float.of_int 0) = true →
     Float.lt (percentage d) threshold = false).
Proof.
  intros Hrun Hin Hmain.
  pose proof (analyze_entry_calculated _ _ _ _ _ _ Hrun Hin) as Hchange.
  apply calculate_change_sign in Hchange as [Hpos Hneg]; [|done].
  split; intros Hle threshold Hth.
  - by apply nonpos_not_gt; [apply Hneg |].
  - by apply nonneg_not_lt; [apply Hpos |].
Qed.

Lemma change_on_the_side_of_the_difference_witness :
  ∃ d,
    ("testERC20Transfer_Safe4337", d) ∈ comparisons example_state ∧
    pr d <= main d ∧
    Float.gt (percentage d) (Float.of_int 5) = false.
Proof.
  destruct (dict_get "testERC20Transfer_Safe4337" (comparisons example_state))
    as [d|] eqn:Hd; [|by vm_compute in Hd].
  pose proof (dict_get_Some_elem _ _ _ Hd) as Hin.
  vm_compute in Hd. injection Hd as <-.
  eexists. split; [exact Hin |].
  assert (0 <= 200) as Hmain by lia.
  assert (180 <= 200) as Hle by lia.
  split; [exact Hle |].
  apply (proj1 (change_on_the_side_of_the_difference example_main example_pr
                  example_order example_state _ _ example_run Hin Hmain)
           Hle).
  by vm_compute.
Defined.

(** ** Where the savings entries come from *)

Lemma categorize_origin (comps : dict TestComparison) (c b a : string)
    (d : TestComparison) :
  filed (categorize comps) c b a = Some d →
  ∃ t info,
    (t, d) ∈ comps ∧ account_type d = Some a ∧
    (c, info) ∈ CATEGORIES ∧ category_matches info t = true ∧
    b = base_test_of a t.
Proof.
  revert c b a d. unfold categorize.
  apply (fold_left_invariant _
           (λ cats, ∀ c b a d,
              filed cats c b a = Some d →
              ∃ t info,
                (t, d) ∈ comps ∧ account_type d = Some a ∧
                (c, info) ∈ CATEGORIES ∧ category_matches info t = true ∧
                b = base_test_of a t)); [|done].
  intros [t d] cats Hin Hcats. unfold categorize_test.
  destruct (account_type d) as [a|] eqn:Ha; [|done].
  case_bool_decide; [done |]. unfold try_categories.
  apply fold_left_invariant; [|done].
  intros [c info] cats' Hc Hcats'. rewrite try_patterns_spec.
  fold (category_matches info t).
  destruct (category_matches info t) eqn:Hmatch; [|done].
  intros c' b' a' d'. rewrite filed_file_under.
  destruct (decide _) as [(-> & -> & ->)|]; [|apply Hcats'].
  intros [= <-]. by exists t, info.
Qed.

(** X19: when the recorded tests have ASCII names, every entry of
    [ithaca_comparisons] stems from a test of the candidate account: a
    recorded test whose name contains [IthacaAccount] and matches a
    pattern of the entry's category, which is one of the declared
    categories, and whose base test is the entry's key; the entry holds
    the data of that test and no savings record of the candidate against
    itself. *)
Theorem savings_entry_has_candidate (main_snap pr_snap : gmap string Z)
    (order : list string) (st : BenchmarkComparison)
    (category_key base_test : string) (entry : CategoryComparison.t) :
  analyze order (__init__ main_snap pr_snap) = Ok st →
  Forall (λ test_name, Str.is_ascii test_name = true)
    (keys (comparisons st)) →
  entry_at (ithaca_comparisons st) category_key base_test = Some entry →
  dict_get "IthacaAccount" (CategoryComparison.comparisons entry) = None ∧
  ∃ test_name category_info,
    (test_name, CategoryComparison.ithaca entry) ∈ comparisons st ∧
    Str.contains "IthacaAccount" test_name = true ∧
    dict_get category_key CATEGORIES = Some category_info ∧
    category_matches category_info test_name = true ∧
    base_test = base_test_of "IthacaAccount" test_name.
Proof.
  intros Hrun _. rewrite (analyze_entry_at _ _ _ _ _ Hrun) by done.
  destruct (dict_get category_key (categorize (comparisons st)) ≫=
            dict_get base_test) as [accounts|] eqn:Haccounts; [|done].
  cbn [mbind option_bind]. unfold expected_entry.
  destruct (dict_get "IthacaAccount" accounts) as [ithaca_data|] eqn:Hith;
    [|done].
  destruct (for_each (compare_account ithaca_data) accounts [])
    as [savings|] eqn:Hcmp; [|done].
  intros [= <-]. cbn [CategoryComparison.ithaca CategoryComparison.comparisons].
  assert (filed (categorize (comparisons st)) category_key base_test
            "IthacaAccount" = Some ithaca_data) as Hfiled.
  { unfold filed.
    destruct (dict_get category_key (categorize _)) as [tests|]; [|done].
    simpl in *. by rewrite Haccounts. }
  split.
  - assert (NoDup (keys accounts)) as Hnd.
    { pose proof (categorize_wf (comparisons st)) as [_ Hwf].
      destruct (dict_get category_key (categorize _)) as [tests|] eqn:Htests;
        [|done].
      simpl in Haccounts.
      apply dict_get_Some_elem in Htests, Haccounts.
      rewrite Forall_forall in Hwf. specialize (Hwf _ Htests) as [_ Hwf].
      rewrite Forall_forall in Hwf. by apply (Hwf _ Haccounts). }
    pose proof (compare_accounts_spec _ _ _ _ Hnd Hcmp "IthacaAccount")
      as Hspec.
    rewrite Hith in Hspec. by rewrite decide_True in Hspec.
  - apply categorize_origin in Hfiled
      as (t & info & Hin & Hacc & Hc & Hmatch & ->).
    exists t, info. split_and!; [done | | | done | done].
    + apply get_account_type_ithaca.
      by rewrite <- (analyze_account_type _ _ _ _ _ _ Hrun Hin).
    + apply dict_get_elem; [apply CATEGORIES_NoDup | done].
Qed.

Lemma savings_entry_has_candidate_witness :
  ∃ entry,
    entry_at (ithaca_comparisons example_state)
      "single_transfer" "testERC20Transfer" = Some entry ∧
    dict_get "IthacaAccount" (CategoryComparison.comparisons entry) = None.
Proof.
  destruct (entry_at (ithaca_comparisons example_state)
              "single_transfer" "testERC20Transfer") as [entry|] eqn:Hentry;
    [|by vm_compute in Hentry].
  exists entry. split; [done |].
  assert (Forall (λ test_name, Str.is_ascii test_name = true)
            (keys (comparisons example_state))) as Hascii
    by (repeat constructor).
  apply (savings_entry_has_candidate example_main example_pr example_order
           example_state _ _ entry example_run Hascii Hentry).
Defined.

(** ** The counts of the summaries *)

Lemma filter_disjoint_length {A} (f g : A → bool) (l : list A) :
  (∀ x, x ∈ l → f x = true → g x = true → False) →
  (length (List.filter f l) + length (List.filter g l) ≤ length l)%nat.
Proof.
  induction l as [|x l IH]; intros Hfg; simpl; [done |].
  assert (length (List.filter f l) + length (List.filter g l) ≤ length l)%nat
    as Hl.
  { apply IH. intros y Hy. apply Hfg. apply elem_of_cons. by right. }
  specialize (Hfg x ltac:(apply elem_of_cons; by left)).
  destruct (f x), (g x); simpl; [by destruct Hfg | lia..].
Qed.

Lemma filter_length_bound {A} (f : A → bool) (l : list A) :
  (length (List.filter f l) ≤ length l)%nat.
Proof. induction l as [|x l IH]; simpl; [done |]. destruct (f x); simpl; lia. Qed.

Lemma below_and_above (p : float) (low high : Z) :
  Float.lt p (Float.of_int low) = true →
  Float.gt p (Float.of_int high) = true →
  Float.lt (Float.of_int high) (Float.of_int low) = true.
Proof.
  unfold Float.lt, Float.gt. intros Hlow Hhigh.
  eapply SFltb_SFleb_trans; [exact Hhigh |]. by apply SFltb_SFleb.
Qed.

(** X20: no test is counted both as an improvement and as a regression: in the
    summary of the JSON data the two counts together do not exceed the
    number of tests, and in the summary of the markdown report they do
    not exceed the number of candidate tests, which is not zero when that
    summary is printed. *)
Theorem summary_counts_bounded (sum : list float → float)
    (self : BenchmarkComparison) :
  (ithaca_tests (summary (generate_json_data self))
   ≤ total_tests (summary (generate_json_data self)))%nat ∧
  (improvements (summary (generate_json_data self))
   + regressions (summary (generate_json_data self))
   ≤ total_tests (summary (generate_json_data self)))%nat ∧
  match markdown_summary sum self with
  | Some md =>
      (0 < md_ithaca_tests md)%nat ∧
      (md_improvements md + md_regressions md ≤ md_ithaca_tests md)%nat
  | None => ithaca_tests (summary (generate_json_data self)) = 0%nat
  end.
Proof.
  cbn [generate_json_data summary ithaca_tests total_tests improvements
       regressions].
  split_and!.
  - rewrite <- (length_fmap fst (comparisons self)).
    apply filter_length_bound.
  - apply filter_disjoint_length. intros [t d] _ Hlow Hhigh.
    by pose proof (below_and_above _ _ _ Hlow Hhigh).
  - unfold markdown_summary.
    destruct (List.filter _ (keys (comparisons self))) as [|t ts] eqn:Hts;
      [done |].
    cbn [md_ithaca_tests md_improvements md_regressions].
    split; [simpl; lia |].
    apply filter_disjoint_length. intros t' _. unfold pct_of.
    destruct (dict_get t' (comparisons self)) as [d|]; [|done].
    intros Hlow Hhigh. by pose proof (below_and_above _ _ _ Hlow Hhigh).
Qed.

(** ** The mean change *)

(** X21: the mean that the gate prints is the [Average Change] of the markdown
    report computed from the same comparisons: an improvement is printed
    when it is below [-1], an increase when it is above [1] and not below
    [-1], and nothing when there is no candidate test. *)
Theorem gate_mean_is_report_mean (sum : list float → float)
    (self : BenchmarkComparison) (threshold : float) :
  match markdown_summary sum self with
  | Some md =>
      Gate.overall
        (Gate.check_regressions sum
           (json_comparisons (generate_json_data self)) threshold) =
      if Float.lt (md_avg_change md) (Float.of_int (-1))
      then Some (Gate.OverallImprovement (md_avg_change md))
      else if Float.gt (md_avg_change md) (Float.of_int 1)
           then Some (Gate.OverallIncrease (md_avg_change md))
           else None
  | None =>
      Gate.overall
        (Gate.check_regressions sum
           (json_comparisons (generate_json_data self)) threshold) = None
  end.
Proof.
  cbn [json_comparisons generate_json_data].
  unfold Gate.check_regressions.
  destruct (fold_left _ (comparisons self) ([], [])) as [regs warns].
  cbn [Gate.overall]. unfold Gate.overall_of, markdown_summary.
  by destruct (List.filter _ (keys (comparisons self))).
Qed.

(** ** The charts that a run writes *)

Lemma map_each_ok {A B} (f : A → result B) (xs : list A) :
  (∀ x, x ∈ xs → ∃ y, f x = Ok y) → ∃ ys, map_each f xs = Ok ys.
Proof.
  induction xs as [|x xs IH]; intros Hf; simpl; [eauto |].
  destruct (Hf x) as [y ->]; [apply elem_of_cons; by left |]. simpl.
  destruct IH as [ys ->]; [|simpl; eauto].
  intros z Hz. apply Hf. apply elem_of_cons. by right.
Qed.

Lemma map_each_raise {A B} (f : A → result B) (xs : list A) (e : exn) :
  map_each f xs = Raise e → ∃ x, x ∈ xs ∧ f x = Raise e.
Proof.
  induction xs as [|x xs IH]; simpl; [done |].
  destruct (f x) as [y|e'] eqn:Hx; simpl.
  - destruct (map_each f xs) as [ys|e'']; simpl; [done |].
    intros [= ->]. destruct IH as (z & Hz & Hraise); [done |].
    exists z. split; [|done]. apply elem_of_cons. by right.
  - intros [= ->]. exists x. split; [|done]. apply elem_of_cons. by left.
Qed.

Lemma for_each_kept_ok {A S} (body : A → S → result S) (xs : list A) (s : S) :
  (∀ x t, x ∈ xs → ∃ t', body x t = Ok t') →
  (for_each_kept body xs s).2 = None.
Proof.
  revert s. induction xs as [|x xs IH]; intros s Hbody; simpl; [done |].
  destruct (Hbody x s) as [t ->]; [apply elem_of_cons; by left |].
  apply IH. intros y ? ?. apply Hbody. apply elem_of_cons. by right.
Qed.

Lemma for_each_kept_raise {A S} (body : A → S → result S) (xs : list A)
    (s : S) (e : exn) :
  (for_each_kept body xs s).2 = Some e → ∃ x t, x ∈ xs ∧ body x t = Raise e.
Proof.
  revert s. induction xs as [|x xs IH]; intros s; simpl; [done |].
  destruct (body x s) as [t|e'] eqn:Hx; simpl.
  - intros (y & t' & Hy & Hraise)%IH. exists y, t'. split; [|done].
    apply elem_of_cons. by right.
  - intros [= ->]. exists x, s. split; [|done]. apply elem_of_cons. by left.
Qed.

Lemma pow_1020_1023 : 2 ^ 1023 = 8 * 2 ^ 1020.
Proof.
  replace 1023 with (3 + 1020) by lia. rewrite Z.pow_add_r by lia.
  by change (2 ^ 3) with 8.
Qed.

Lemma grid_values_ok (max_value : Z) :
  Z.abs max_value < 2 ^ 1020 → ∃ grid, Charts.grid_values max_value = Ok grid.
Proof.
  intros Hmax. unfold Charts.grid_values. apply map_each_ok.
  intros i Hi. apply int_true_div_ok; [done |].
  pose proof pow_1020_1023 as Hpow.
  repeat (apply elem_of_cons in Hi as [->|Hi]; [lia |]).
  by apply elem_of_nil in Hi.
Qed.

Lemma bar_height_ok (max_value value : Z) :
  Z.abs value < 2 ^ 1020 → ∃ h, Charts.bar_height max_value value = Ok h.
Proof.
  intros Hvalue. unfold Charts.bar_height.
  destruct (Z.ltb_spec 0 max_value); [|eauto].
  destruct (int_true_div_ok value max_value) as [q ->]; [lia | |simpl; eauto].
  pose proof pow_1020_1023. lia.
Qed.

Lemma chart_bars_max (data : dict Z) (title : string)
    (chart : Charts.BarChart) :
  Charts.chart_bars data title = Some chart →
  Charts.max_value chart = 0 ∨
  ∃ account, (account, Charts.max_value chart) ∈ Charts.bars chart.
Proof.
  unfold Charts.chart_bars.
  pose proof (max_value_spec (Charts.sorted_by_value data) 0) as Hmax.
  destruct (Charts.sorted_by_value data) as [|x items]; [done |].
  intros [= <-]. cbn [Charts.bars Charts.max_value].
  cbv zeta in Hmax. by destruct Hmax as (_ & _ & Hor).
Qed.

(** [generate_svg_bar_chart] returns when the values are below [2 ^ 1020]
    in absolute value, and raises nothing but [OverflowError]. *)
Lemma generate_svg_bar_chart_ok (data : dict Z) (title : string) :
  (∀ account gas, (account, gas) ∈ data → Z.abs gas < 2 ^ 1020) →
  ∃ svg_content, Charts.generate_svg_bar_chart data title = Ok svg_content.
Proof.
  intros Hdata. unfold Charts.generate_svg_bar_chart.
  pose proof (chart_bars_spec data title) as Hspec.
  destruct (Charts.chart_bars data title) as [chart|] eqn:Hchart; [|eauto].
  destruct Hspec as [Hperm _].
  assert (∀ account gas,
            (account, gas) ∈ Charts.bars chart → Z.abs gas < 2 ^ 1020)
    as Hbars.
  { intros account gas Hin. rewrite Hperm in Hin. by eapply Hdata. }
  assert (Z.abs (Charts.max_value chart) < 2 ^ 1020) as Hmax.
  { destruct (chart_bars_max _ _ _ Hchart) as [->|[account Hin]]; [done |].
    by eapply Hbars. }
  destruct (grid_values_ok _ Hmax) as [grid ->]. simpl.
  destruct (map_each_ok
              (λ '(account, value),
                 Charts.bar_height (Charts.max_value chart) value)
              (Charts.bars chart)) as [heights ->]; [|simpl; eauto].
  intros [account value] Hin. apply bar_height_ok. by eapply Hbars.
Qed.

Lemma generate_svg_bar_chart_raise (data : dict Z) (title : string)
    (e : exn) :
  Charts.generate_svg_bar_chart data title = Raise e → e = OverflowError.
Proof.
  unfold Charts.generate_svg_bar_chart.
  destruct (Charts.chart_bars data title) as [chart|]; [|done].
  destruct (Charts.grid_values _) as [grid|e1] eqn:Hgrid; simpl.
  - destruct (map_each _ _) as [heights|e2] eqn:Hbars; simpl; [done |].
    intros [= <-].
    apply map_each_raise in Hbars as ([account value] & _ & Hraise).
    unfold Charts.bar_height in Hraise.
    destruct (Z.ltb_spec 0 (Charts.max_value chart)); [|done].
    destruct (Float.int_true_div value _) as [q|e3] eqn:Hdiv; [done |].
    simpl in Hraise. injection Hraise as <-.
    destruct (int_true_div_raise _ _ _ Hdiv) as [[_ ?]|[? _]]; [lia | done].
  - intros [= <-].
    apply map_each_raise in Hgrid as (i & _ & Hraise).
    by destruct (int_true_div_raise _ _ _ Hraise) as [[_ ?]|[? _]].
Qed.

Lemma chart_data_chartable (f : string → bool) (loaded : dict TestComparison)
    (account : string) (gas : Z) :
  chartable loaded →
  (account, gas) ∈ Charts.chart_data_of f loaded →
  Z.abs gas < 2 ^ 1020.
Proof.
  intros Hloaded Hin.
  apply dict_get_elem in Hin; [|apply chart_data_NoDup].
  apply chart_data_minimum in Hin as [Hin _].
  apply matching_gas_elem in Hin as (t & d & Hd & _ & _ & <-).
  by eapply Hloaded.
Qed.

(** C8: a run of the chart script on gas values below [2 ^ 1020] in
    absolute value completes, and a run can only be ended by the
    [OverflowError] of a value too large to be scaled, which leaves the
    charts before it written.  For each of the four operation filters,
    a chart that is written for it has one bar per account type, whose
    value is the least PR-side gas among the entries that pass the
    filter and have this account type; in a run that completes no chart
    is written only when no account has such an entry, and no chart is
    ever written when no test passes the filter. *)
Theorem chart_values_are_minima (loaded : dict TestComparison)
    (op_name : string) (filter_func : string → bool) :
  (op_name, filter_func) ∈ Charts.operation_types →
  length Charts.operation_types = 4%nat ∧
  (chartable loaded → (Charts.bar_charts loaded).2 = None) ∧
  (∀ e, (Charts.bar_charts loaded).2 = Some e → e = OverflowError) ∧
  match dict_get (op_name +:+ "_chart.svg") (Charts.bar_charts loaded).1 with
  | Some svg_content =>
      ∃ chart,
        svg_content = Some chart ∧
        ∀ account v,
          (account, v) ∈ Charts.bars chart ↔
          is_minimum v (matching_gas filter_func account loaded)
  | None =>
      (Charts.bar_charts loaded).2 = None →
      ∀ account, matching_gas filter_func account loaded = []
  end ∧
  ((∀ t d, (t, d) ∈ loaded → filter_func t = false) →
   dict_get (op_name +:+ "_chart.svg") (Charts.bar_charts loaded).1 = None).
Proof.
  intros Hop. split; [done |]. split_and!.
  - intros Hloaded. unfold Charts.bar_charts. apply for_each_kept_ok.
    intros [name f] files _. unfold Charts.write_chart.
    destruct (Charts.chart_data_of f loaded) as [|x data] eqn:Hdata;
      [eauto |].
    destruct (generate_svg_bar_chart_ok (x :: data)
                (default name (dict_get name Charts.titles)))
      as [svg_content ->]; [|simpl; eauto].
    intros account gas Hin. rewrite <- Hdata in Hin.
    by eapply chart_data_chartable.
  - intros e Hraise. unfold Charts.bar_charts in Hraise.
    apply for_each_kept_raise in Hraise as ([name f] & files & _ & Hraise).
    unfold Charts.write_chart in Hraise.
    destruct (Charts.chart_data_of f loaded) as [|x data]; [done |].
    destruct (Charts.generate_svg_bar_chart _ _) as [svg_content|e1] eqn:Hgen;
      simpl in Hraise; [done |].
    injection Hraise as <-. by eapply generate_svg_bar_chart_raise.
  - destruct (Charts.bar_charts loaded) as [files ended] eqn:Hrun.
    cbn [fst snd].
    assert (NoDup (chart_file <$> Charts.operation_types)) as Hnd
      by compute_done.
    pose proof (write_charts_get loaded Charts.operation_types [] files ended
                  (op_name, filter_func) Hnd Hop eq_refl Hrun) as Hget.
    change (chart_file (op_name, filter_func))
      with (op_name +:+ "_chart.svg") in Hget.
    unfold chart_for in Hget. cbn [fst snd] in Hget.
    pose proof (chart_bars_spec
                  (Charts.chart_data_of filter_func loaded)
                  (default op_name (dict_get op_name Charts.titles))) as Hgen.
    destruct (dict_get (op_name +:+ "_chart.svg") files) as [svg_content|].
    + destruct (Charts.chart_data_of filter_func loaded) as [|x data] eqn:Hdata;
        [done |].
      injection Hget as <-.
      destruct (Charts.chart_bars _ _) as [chart|]; [|done].
      destruct Hgen as [Hperm _]. rewrite <- Hdata in *.
      exists chart. split; [done |].
      intros account v. rewrite Hperm, <- chart_data_minimum. split.
      * apply dict_get_elem, chart_data_NoDup.
      * apply dict_get_Some_elem.
    + intros Hended account. specialize (Hget Hended).
      destruct (Charts.chart_data_of filter_func loaded) as [|x data] eqn:Hdata;
        [|done].
      pose proof (running_min_None (matching_gas filter_func account loaded))
        as Hmin.
      destruct (running_min None _) as [v|] eqn:Hrunning; [|done].
      apply chart_data_minimum in Hmin. by rewrite Hdata in Hmin.
  - intros Hnone.
    destruct (Charts.bar_charts loaded) as [files ended] eqn:Hrun.
    cbn [fst].
    assert (NoDup (chart_file <$> Charts.operation_types)) as Hnd
      by compute_done.
    pose proof (write_charts_get loaded Charts.operation_types [] files ended
                  (op_name, filter_func) Hnd Hop eq_refl Hrun) as Hget.
    change (chart_file (op_name, filter_func))
      with (op_name +:+ "_chart.svg") in Hget.
    destruct (dict_get (op_name +:+ "_chart.svg") files) as [svg_content|];
      [|done].
    exfalso. unfold chart_for in Hget. cbn [fst snd] in Hget.
    assert (Charts.chart_data_of filter_func loaded = []) as Hnil;
      [|by rewrite Hnil in Hget].
    apply dict_all_None. intros a.
    destruct (dict_get a _) as [v|] eqn:Hv; [|done].
    apply chart_data_minimum in Hv as [Hv _].
    rewrite matching_gas_no_match in Hv by done.
    by apply elem_of_nil in Hv.
Qed.

Lemma chart_values_are_minima_witness :
  ∃ chart,
    (Charts.bar_charts (comparisons example_state)).2 = None ∧
    dict_get "single_erc20_chart.svg"
      (Charts.bar_charts (comparisons example_state)).1 = Some (Some chart) ∧
    Charts.bars chart = [("IthacaAccount", 120); ("Safe4337", 180)] ∧
    is_minimum 120
      (matching_gas
         (λ t, Str.contains "testERC20Transfer_" t
               && negb (Str.contains "batch" (Str.lower t))
               && negb (Str.contains "Sponsor" t)
               && negb (Str.contains "ERC20SelfPay" t))
         "IthacaAccount" (comparisons example_state)).
Proof.
  assert (("single_erc20",
           λ t, Str.contains "testERC20Transfer_" t
                && negb (Str.contains "batch" (Str.lower t))
                && negb (Str.contains "Sponsor" t)
                && negb (Str.contains "ERC20SelfPay" t))
          ∈ Charts.operation_types) as Hop.
  { apply (list_elem_of_lookup_2 _ 0%nat). reflexivity. }
  destruct (chart_values_are_minima (comparisons example_state) _ _ Hop)
    as (_ & _ & _ & Hfile & _).
  change ("single_erc20" +:+ "_chart.svg") with "single_erc20_chart.svg"
    in Hfile.
  destruct (dict_get "single_erc20_chart.svg"
              (Charts.bar_charts (comparisons example_state)).1)
    as [svg_content|] eqn:Hget; [|by vm_compute in Hget].
  destruct Hfile as (chart & -> & Hbars).
  assert (Charts.bars chart = [("IthacaAccount", 120); ("Safe4337", 180)])
    as Hlist.
  { vm_compute in Hget. by injection Hget as <-. }
  exists chart. split_and!; [by vm_compute | done | done |].
  apply Hbars. rewrite Hlist. apply elem_of_cons. by left.
Defined.
